(** * Authentication, lockout and session policy of the school-website backend

    A shallow embedding of
    - [src/services/authService.ts]   (class [AuthService]),
    - [src/middleware/auth.ts]        ([requireAuth], [getUserById],
                                       [getInactivityTimeout]),
    - [backend/src/models/User.ts]    (class [UserModel]),
    - [src/services/roleService.ts]   ([removeRoleFromUser]),
    together with the tables of the schema script they query.

    Timestamps ([Date], [DATETIME2]) are integers counting milliseconds.
    The SQL text of every query is rendered as a list comprehension over the
    tables; a [LEFT JOIN] keeps a left row with a NULL right side when no
    right row satisfies the [ON] condition. Rows come out in table order. *)

From Stdlib Require Import ZArith List Bool String Ascii Lia.
From Stdlib Require Import DecimalString.
Import ListNotations.
Open Scope string_scope.
Open Scope list_scope.
Open Scope Z_scope.

Set Implicit Arguments.

(** ** Tables *)

(** [AdminUsers]. The queries of [AuthService] read a column [full_name]. *)
Record AdminUser := mkAdminUser {
  au_id : Z;
  au_username : string;
  au_email : string;
  au_full_name : string;
  au_password_hash : string;
  au_is_active : bool;
  au_is_locked : bool;
  au_failed_login_attempts : Z;
  au_locked_until_ts : option Z;
  au_last_login_ts : option Z
}.

(** [Roles]. [r_inactivity_timeout_minutes] is the column read by
    [getInactivityTimeout]; the schema script declares the flag
    [INACTIVITY_LOCK_ENABLED] and [INACTIVITY_LOCK_DAYS] next to it. *)
Record Role := mkRole {
  r_id : Z;
  r_role_name : string;
  r_description : string;
  r_is_active : bool;
  r_inactivity_lock_enabled : bool;
  r_inactivity_lock_days : Z;
  r_inactivity_timeout_minutes : option Z
}.

Record PermissionRow := mkPermissionRow {
  p_id : Z;
  p_permission_name : string;
  p_description : string;
  p_is_active : bool
}.

Record UserRoleRow := mkUserRoleRow {
  ur_user_id : Z;
  ur_role_id : Z;
  ur_is_active : bool
}.

Record RolePermissionRow := mkRolePermissionRow {
  rp_role_id : Z;
  rp_permission_id : Z;
  rp_is_granted : bool
}.

Record Database := mkDatabase {
  AdminUsers : list AdminUser;
  Roles : list Role;
  Permissions : list PermissionRow;
  UserRoles : list UserRoleRow;
  RolePermissions : list RolePermissionRow
}.

(** ** Relational operators *)

Definition inner_join {A B : Type} (on : A -> B -> bool)
    (l : list A) (r : list B) : list (A * B) :=
  flat_map (fun a => map (pair a) (filter (on a) r)) l.

Definition left_join {A B : Type} (on : A -> B -> bool)
    (l : list A) (r : list B) : list (A * option B) :=
  flat_map (fun a =>
    match filter (on a) r with
    | [] => [(a, None)]
    | ms => map (fun b => (a, Some b)) ms
    end) l.

(** An [ON] condition whose left operand is a nullable joined row: a NULL
    never compares equal. *)
Definition on_some {A B : Type} (on : A -> B -> bool) (a : option A) (b : B) : bool :=
  match a with
  | Some x => on x b
  | None => false
  end.

(** [MIN(...)] over a column: NULL on the empty set. *)
Definition sql_min (l : list Z) : option Z :=
  match l with
  | [] => None
  | x :: xs => Some (fold_left Z.min xs x)
  end.

(** [UPDATE t SET ... WHERE cond]. *)
Definition sql_update {A : Type} (cond : A -> bool) (set : A -> A) (t : list A) : list A :=
  map (fun x => if cond x then set x else x) t.

(** ** Record updates of [AdminUsers] rows and of the database *)

Definition set_failed_login_attempts (n : Z) (u : AdminUser) : AdminUser :=
  mkAdminUser (au_id u) (au_username u) (au_email u) (au_full_name u)
    (au_password_hash u) (au_is_active u) (au_is_locked u) n
    (au_locked_until_ts u) (au_last_login_ts u).

Definition set_locked_until_ts (t : option Z) (u : AdminUser) : AdminUser :=
  mkAdminUser (au_id u) (au_username u) (au_email u) (au_full_name u)
    (au_password_hash u) (au_is_active u) (au_is_locked u)
    (au_failed_login_attempts u) t (au_last_login_ts u).

Definition set_last_login_ts (t : option Z) (u : AdminUser) : AdminUser :=
  mkAdminUser (au_id u) (au_username u) (au_email u) (au_full_name u)
    (au_password_hash u) (au_is_active u) (au_is_locked u)
    (au_failed_login_attempts u) (au_locked_until_ts u) t.

Definition set_is_locked (b : bool) (u : AdminUser) : AdminUser :=
  mkAdminUser (au_id u) (au_username u) (au_email u) (au_full_name u)
    (au_password_hash u) (au_is_active u) b
    (au_failed_login_attempts u) (au_locked_until_ts u) (au_last_login_ts u).

Definition set_password_hash (h : string) (u : AdminUser) : AdminUser :=
  mkAdminUser (au_id u) (au_username u) (au_email u) (au_full_name u)
    h (au_is_active u) (au_is_locked u)
    (au_failed_login_attempts u) (au_locked_until_ts u) (au_last_login_ts u).

Definition with_Roles (rs : list Role) (d : Database) : Database :=
  mkDatabase (AdminUsers d) rs (Permissions d) (UserRoles d) (RolePermissions d).

Definition with_AdminUsers (us : list AdminUser) (d : Database) : Database :=
  mkDatabase us (Roles d) (Permissions d) (UserRoles d) (RolePermissions d).

Definition with_UserRoles (urs : list UserRoleRow) (d : Database) : Database :=
  mkDatabase (AdminUsers d) (Roles d) (Permissions d) urs (RolePermissions d).

(** ** The world: database, clock and storage faults

    [now] is the instant at which a call runs: the reads of [Date.now()],
    [new Date()] and [GETDATE()] inside one call return it. [faults] is the
    schedule of storage errors: each query consumes the head, and throws when
    it is [true]; an empty schedule means that no query fails. *)
Record World := mkWorld {
  db : Database;
  now : Z;
  faults : list bool
}.

Definition tick (t : Z) (w : World) : World := mkWorld (db w) t (faults w).

Inductive Outcome (A : Type) : Type :=
| Ok : A -> Outcome A
| Throw : string -> Outcome A.
Arguments Ok {A} _.
Arguments Throw {A} _.

(** Computations that read and write the world and may throw. *)
Definition M (A : Type) : Type := World -> Outcome A * World.

Definition ret {A : Type} (a : A) : M A := fun w => (Ok a, w).

Definition bind {A B : Type} (m : M A) (k : A -> M B) : M B :=
  fun w =>
    match m w with
    | (Ok a, w') => k a w'
    | (Throw e, w') => (Throw e, w')
    end.

Definition throw {A : Type} (e : string) : M A := fun w => (Throw e, w).

(** [try { m } catch (error) { h }]. *)
Definition try_catch {A : Type} (m : M A) (h : string -> M A) : M A :=
  fun w =>
    match m w with
    | (Ok a, w') => (Ok a, w')
    | (Throw e, w') => h e w'
    end.

Notation "x <- m ;; k" := (bind m (fun x => k))
  (at level 61, m at next level, right associativity).
Notation "m ;;; k" := (bind m (fun _ => k))
  (at level 61, right associativity).

Definition Date_now : M Z := fun w => (Ok (now w), w).

(** [db.request()...query(q)] / [executeQuery(q)]: runs [q] on the database
    unless the storage fails. *)
Definition query {A : Type} (q : Database -> A * Database) : M A :=
  fun w =>
    match faults w with
    | true :: fs => (Throw "RequestError", mkWorld (db w) (now w) fs)
    | false :: fs => let (a, d) := q (db w) in (Ok a, mkWorld d (now w) fs)
    | [] => let (a, d) := q (db w) in (Ok a, mkWorld d (now w) [])
    end.

Definition select {A : Type} (q : Database -> A) : Database -> A * Database :=
  fun d => (q d, d).

Definition update (q : Database -> Database) : Database -> unit * Database :=
  fun d => (tt, q d).

(** A statement that the storage may refuse: [q] returns [None] when a
    constraint of the schema (PRIMARY KEY, UNIQUE, FOREIGN KEY) is violated,
    and the request then throws without changing the database. *)
Definition query_checked {A : Type} (q : Database -> option (A * Database)) : M A :=
  fun w =>
    match faults w with
    | true :: fs => (Throw "RequestError", mkWorld (db w) (now w) fs)
    | rest =>
        match q (db w) with
        | Some (a, d) => (Ok a, mkWorld d (now w) (tl rest))
        | None => (Throw "RequestError", mkWorld (db w) (now w) (tl rest))
        end
    end.

(** ** JavaScript values *)

(** Truthiness of a nullable number: [null], [undefined] and [0] are falsy. *)
Definition truthy (o : option Z) : bool :=
  match o with
  | Some n => negb (n =? 0)
  | None => false
  end.

(** [x || d] on a nullable number. *)
Definition or_default (o : option Z) (d : Z) : Z :=
  match o with
  | Some n => if n =? 0 then d else n
  | None => d
  end.

(** [Math.ceil(a / b)] for an integer [a] and a positive integer [b]. *)
Definition Math_ceil_div (a b : Z) : Z := - ((- a) / b).

(** [d.getTime()] of a [Date] that was tested non-null. *)
Definition getTime (d : option Z) : Z :=
  match d with
  | Some t => t
  | None => 0
  end.

(** The number held by a nullable that was tested non-null. *)
Definition number_of (o : option Z) : Z :=
  match o with
  | Some n => n
  | None => 0
  end.

(** A number inside a template string. *)
Definition Number_toString (n : Z) : string := NilZero.string_of_int (Z.to_int n).

(** [Map<number, V>]: keys in insertion order, [set] on a present key
    replaces the value in place. *)
Module JsMap.
Definition t (V : Type) : Type := list (Z * V).

Definition empty {V : Type} : t V := [].

Definition has {V : Type} (m : t V) (k : Z) : bool :=
  existsb (fun kv => fst kv =? k) m.

Fixpoint set {V : Type} (m : t V) (k : Z) (v : V) : t V :=
  match m with
  | [] => [(k, v)]
  | (k', v') :: rest =>
      if k' =? k then (k, v) :: rest else (k', v') :: set rest k v
  end.

Definition keys {V : Type} (m : t V) : list Z := map fst m.

Definition values {V : Type} (m : t V) : list V := map snd m.
End JsMap.

(** ** src/types/auth.ts *)

Record UserRole := mkUserRole {
  role_id_of : Z;
  roleName : string;
  role_description_of : option string
}.

Record Permission := mkPermission {
  permission_id_of : Z;
  permissionName : string;
  permission_description_of : option string
}.

Record AuthUser := mkAuthUser {
  id : Z;
  username : string;
  email : string;
  fullName : string;
  isActive : bool;
  lastLoginTs : option Z;
  lockedUntilTs : option Z;
  failedLoginAttempts : Z;
  roles : list UserRole;
  permissions : list Permission
}.

(** One record of the joined result set of [authenticateUser] and
    [getUserById]: the user columns, and the nullable role and permission
    columns of the [LEFT JOIN]s. [getUserById] does not select
    [password_hash]. *)
Record Row := mkRow {
  row_id : Z;
  row_username : string;
  row_email : string;
  row_full_name : string;
  row_password_hash : option string;
  row_is_active : bool;
  row_last_login_ts : option Z;
  row_locked_until_ts : option Z;
  row_failed_login_attempts : Z;
  row_role_id : option Z;
  row_role_name : option string;
  row_role_description : option string;
  row_permission_id : option Z;
  row_permission_name : option string;
  row_permission_description : option string
}.

Definition string_or_empty (o : option string) : string :=
  match o with
  | Some s => s
  | None => EmptyString
  end.

(** ** The five-table join shared by [authenticateUser] and [getUserById]

    <<
    FROM AdminUsers au
    LEFT JOIN UserRoles ur ON au.id = ur.user_id
    LEFT JOIN Roles r ON ur.role_id = r.id AND r.is_active = 1
    LEFT JOIN RolePermissions rp ON r.id = rp.role_id
    LEFT JOIN Permissions p ON rp.permission_id = p.id AND p.is_active = 1
    >> *)
Definition Joined : Type :=
  AdminUser * option UserRoleRow * option Role * option RolePermissionRow
  * option PermissionRow.

Definition on_ur (au : AdminUser) (ur : UserRoleRow) : bool :=
  au_id au =? ur_user_id ur.

Definition on_r (l : AdminUser * option UserRoleRow) (r : Role) : bool :=
  on_some (fun ur r => (ur_role_id ur =? r_id r) && r_is_active r) (snd l) r.

Definition on_rp (l : AdminUser * option UserRoleRow * option Role)
    (rp : RolePermissionRow) : bool :=
  on_some (fun r rp => r_id r =? rp_role_id rp) (snd l) rp.

Definition on_p
    (l : AdminUser * option UserRoleRow * option Role * option RolePermissionRow)
    (p : PermissionRow) : bool :=
  on_some (fun rp p => (rp_permission_id rp =? p_id p) && p_is_active p) (snd l) p.

Definition join_from (users : list AdminUser) (d : Database) : list Joined :=
  left_join on_p
    (left_join on_rp
      (left_join on_r
        (left_join on_ur users (UserRoles d))
        (Roles d))
      (RolePermissions d))
    (Permissions d).

Definition user_of (j : Joined) : AdminUser :=
  match j with (au, _, _, _, _) => au end.

Definition project (with_hash : bool) (j : Joined) : Row :=
  match j with
  | (au, _, r, _, p) =>
      mkRow (au_id au) (au_username au) (au_email au) (au_full_name au)
        (if with_hash then Some (au_password_hash au) else None)
        (au_is_active au) (au_last_login_ts au) (au_locked_until_ts au)
        (au_failed_login_attempts au)
        (option_map r_id r) (option_map r_role_name r)
        (option_map r_description r)
        (option_map p_id p) (option_map p_permission_name p)
        (option_map p_description p)
  end.

(** [WHERE au.username = @username OR au.email = @username] *)
Definition where_login (name : string) (au : AdminUser) : bool :=
  String.eqb (au_username au) name || String.eqb (au_email au) name.

(** [WHERE au.id = @userId AND au.is_active = 1] *)
Definition where_id_active (userId : Z) (au : AdminUser) : bool :=
  (au_id au =? userId) && au_is_active au.

Definition select_login (name : string) (d : Database) : list Row :=
  map (project true)
    (filter (fun j => where_login name (user_of j)) (join_from (AdminUsers d) d)).

Definition select_by_id (userId : Z) (d : Database) : list Row :=
  map (project false)
    (filter (fun j => where_id_active userId (user_of j)) (join_from (AdminUsers d) d)).

(** ** buildUserFromResults

    The same function body stands in [AuthService] and in the middleware. *)
Definition add_role (rs : JsMap.t UserRole) (row : Row) : JsMap.t UserRole :=
  match row_role_id row with
  | Some rid =>
      if truthy (Some rid) && negb (JsMap.has rs rid)
      then JsMap.set rs rid
             (mkUserRole rid (string_or_empty (row_role_name row))
                (row_role_description row))
      else rs
  | None => rs
  end.

Definition add_permission (ps : JsMap.t Permission) (row : Row) : JsMap.t Permission :=
  match row_permission_id row with
  | Some pid =>
      if truthy (Some pid) && negb (JsMap.has ps pid)
      then JsMap.set ps pid
             (mkPermission pid (string_or_empty (row_permission_name row))
                (row_permission_description row))
      else ps
  | None => ps
  end.

(** [results[0]] of an empty array is [undefined], reading a property of
    it throws. *)
Definition buildUserFromResults (results : list Row) : M AuthUser :=
  match results with
  | [] => throw "TypeError"
  | user :: _ =>
      let roles := fold_left add_role results JsMap.empty in
      let permissions := fold_left add_permission results JsMap.empty in
      ret (mkAuthUser (row_id user) (row_username user) (row_email user)
             (row_full_name user) (row_is_active user) (row_last_login_ts user)
             (row_locked_until_ts user) (row_failed_login_attempts user)
             (JsMap.values roles) (JsMap.values permissions))
  end.

(** ** Configuration read from [process.env]

    [parseInt(process.env.X || 'default')]: a variable that is set holds the
    decimal text of an integer. *)
Record Env := mkEnv {
  env_MAX_LOGIN_ATTEMPTS : option Z;
  env_LOCKOUT_TIME : option Z
}.

Definition env_or (v : option Z) (default : Z) : Z :=
  match v with
  | Some n => n
  | None => default
  end.

(** ** src/services/authService.ts *)

Record AuthResult := mkAuthResult {
  success : bool;
  user : option AuthUser;
  message : option string
}.

Definition failure (msg : string) : AuthResult := mkAuthResult false None (Some msg).

Definition locked_message (minutes : Z) : string :=
  ("Account is locked. Try again in " ++ Number_toString minutes ++ " minutes.")%string.

Record RegisterData := mkRegisterData {
  reg_username : string;
  reg_email : string;
  reg_password : string;
  reg_fullName : string;
  reg_createdBy : Z
}.

Record RegisterResult := mkRegisterResult {
  reg_success : bool;
  reg_userId : option Z;
  reg_message : option string
}.

Module AuthService.
Section Service.
Variable env : Env.
(** [bcrypt.compare(password, hash)] *)
Variable bcrypt_compare : string -> string -> bool.

Definition MAX_LOGIN_ATTEMPTS : Z := env_or (env_MAX_LOGIN_ATTEMPTS env) 5.
Definition LOCKOUT_TIME : Z := env_or (env_LOCKOUT_TIME env) 900000.

Definition verifyPassword (password hash : string) : M bool :=
  ret (bcrypt_compare password hash).

Definition handleFailedLogin (userId currentAttempts : Z) : M unit :=
  let newAttempts := currentAttempts + 1 in
  if newAttempts >=? MAX_LOGIN_ATTEMPTS then
    t <- Date_now ;;
    let lockUntil := t + LOCKOUT_TIME in
    query (update (fun d =>
      with_AdminUsers
        (sql_update (fun u => au_id u =? userId)
           (fun u => set_locked_until_ts (Some lockUntil)
                       (set_failed_login_attempts newAttempts u))
           (AdminUsers d)) d))
  else
    query (update (fun d =>
      with_AdminUsers
        (sql_update (fun u => au_id u =? userId)
           (set_failed_login_attempts newAttempts)
           (AdminUsers d)) d)).

(** The [UPDATE] of a successful login. *)
Definition reset_login (t : Z) (u : AdminUser) : AdminUser :=
  set_last_login_ts (Some t)
    (set_locked_until_ts None (set_failed_login_attempts 0 u)).

Definition is_locked_at (locked_until_ts : option Z) (t : Z) : bool :=
  match locked_until_ts with
  | Some lu => t <? lu
  | None => false
  end.

Definition authenticateUser (username password : string) : M AuthResult :=
  try_catch
    (userResult <- query (select (select_login username)) ;;
     match userResult with
     | [] => ret (failure "Invalid credentials")
     | userData :: _ =>
         t <- Date_now ;;
         if is_locked_at (row_locked_until_ts userData) t then
           let lockTimeRemaining :=
             Math_ceil_div (getTime (row_locked_until_ts userData) - t)
                           (1000 * 60) in
           ret (failure (locked_message lockTimeRemaining))
         else if negb (row_is_active userData) then
           ret (failure "Account is disabled")
         else
           isValidPassword <-
             verifyPassword password
               (string_or_empty (row_password_hash userData)) ;;
           if negb isValidPassword then
             handleFailedLogin (row_id userData)
               (row_failed_login_attempts userData) ;;;
             ret (failure "Invalid credentials")
           else
             query (update (fun d =>
               with_AdminUsers
                 (sql_update (fun u => au_id u =? row_id userData)
                    (reset_login t) (AdminUsers d)) d)) ;;;
             user <- buildUserFromResults userResult ;;
             ret (mkAuthResult true (Some user) None)
     end)
    (fun _ => ret (failure "Authentication failed")).

(** [bcrypt.hash(password, BCRYPT_ROUNDS)], the salt left out. *)
Variable bcrypt_hash : string -> string.

Definition hashPassword (password : string) : M string :=
  ret (bcrypt_hash password).

(** [INSERT INTO AdminUsers (...) OUTPUT INSERTED.id VALUES (...)]. The
    schema makes [ID] the primary key, [USERNAME] and [EMAIL] unique and
    [CREATED_BY] a reference to [AdminUsers]; [identity] is the value the
    [IDENTITY] column generates for the row. *)
Definition insert_user (identity : Z) (row : AdminUser) (createdBy : Z)
    (d : Database) : option (Z * Database) :=
  if existsb (fun u => (au_id u =? identity)
                       || String.eqb (au_username u) (au_username row)
                       || String.eqb (au_email u) (au_email row))
       (AdminUsers d)
     || negb (existsb (fun u => au_id u =? createdBy) (AdminUsers d))
  then None
  else Some (identity, with_AdminUsers (AdminUsers d ++ [row]) d).

(** Rows added to [UserRoles] one after the other; [UNIQUE (USER_ID,
    ROLE_ID)] refuses a pair that is already there. *)
Fixpoint insert_user_roles (rows : list UserRoleRow) (t : list UserRoleRow)
    : option (list UserRoleRow) :=
  match rows with
  | [] => Some t
  | ur :: rest =>
      if existsb (fun x => (ur_user_id x =? ur_user_id ur)
                           && (ur_role_id x =? ur_role_id ur)) t
      then None
      else insert_user_roles rest (t ++ [ur])
  end.

(** <<
    INSERT INTO UserRoles (user_id, role_id, assigned_by, assigned_ts)
    SELECT @userId, id, @createdBy, GETDATE() FROM Roles WHERE role_name = 'user'
    >> *)
Definition insert_default_role (userId createdBy : Z) (d : Database)
    : option (unit * Database) :=
  if negb (existsb (fun u => au_id u =? userId) (AdminUsers d))
     || negb (existsb (fun u => au_id u =? createdBy) (AdminUsers d))
  then
    match filter (fun r => String.eqb (r_role_name r) "user") (Roles d) with
    | [] => Some (tt, d)
    | _ :: _ => None
    end
  else
    match insert_user_roles
            (map (fun r => mkUserRoleRow userId (r_id r) true)
               (filter (fun r => String.eqb (r_role_name r) "user") (Roles d)))
            (UserRoles d) with
    | Some t => Some (tt, with_UserRoles t d)
    | None => None
    end.

Definition registerUser (identity : Z) (userData : RegisterData) : M RegisterResult :=
  try_catch
    (existingUser <-
       query (select (fun d =>
         map au_id
           (filter (fun u => String.eqb (au_username u) (reg_username userData)
                             || String.eqb (au_email u) (reg_email userData))
              (AdminUsers d)))) ;;
     match existingUser with
     | _ :: _ =>
         ret (mkRegisterResult false None (Some "Username or email already exists"))
     | [] =>
         hashedPassword <- hashPassword (reg_password userData) ;;
         userId <-
           query_checked
             (insert_user identity
                (mkAdminUser identity (reg_username userData) (reg_email userData)
                   (reg_fullName userData) hashedPassword true false 0 None None)
                (reg_createdBy userData)) ;;
         query_checked (insert_default_role userId (reg_createdBy userData)) ;;;
         ret (mkRegisterResult true (Some userId) None)
     end)
    (fun _ => ret (mkRegisterResult false None (Some "Registration failed"))).

Definition hasPermission (user : AuthUser) (name : string) : bool :=
  existsb (fun p => String.eqb (permissionName p) name) (permissions user).

Definition hasRole (user : AuthUser) (roleNames : list string) : bool :=
  existsb (fun r => existsb (String.eqb (roleName r)) roleNames) (roles user).
End Service.
End AuthService.

(** ** backend/src/models/User.ts *)

Module UserModel.
Section Model.
Variable env : Env.

Definition updateLastLogin (userId : Z) : M unit :=
  t <- Date_now ;;
  query (update (fun d =>
    with_AdminUsers
      (sql_update (fun u => au_id u =? userId)
         (fun u => set_locked_until_ts None
                     (set_is_locked false
                        (set_failed_login_attempts 0
                           (set_last_login_ts (Some t) u))))
         (AdminUsers d)) d)).

Definition incrementFailedLogins (userId : Z) : M unit :=
  let maxAttempts := env_or (env_MAX_LOGIN_ATTEMPTS env) 5 in
  let lockoutTime := env_or (env_LOCKOUT_TIME env) 3600000 in
  t <- Date_now ;;
  query (update (fun d =>
    with_AdminUsers
      (sql_update (fun u => au_id u =? userId)
         (fun u =>
            let reached := au_failed_login_attempts u + 1 >=? maxAttempts in
            set_locked_until_ts
              (if reached then Some (t + lockoutTime) else au_locked_until_ts u)
              (set_is_locked (if reached then true else au_is_locked u)
                 (set_failed_login_attempts (au_failed_login_attempts u + 1) u)))
         (AdminUsers d)) d)).

Definition unlockUser (userId : Z) : M unit :=
  query (update (fun d =>
    with_AdminUsers
      (sql_update (fun u => au_id u =? userId)
         (fun u => set_failed_login_attempts 0
                     (set_locked_until_ts None (set_is_locked false u)))
         (AdminUsers d)) d)).

Definition isUserLocked (user : AdminUser) : M bool :=
  if negb (au_is_locked user) then ret false
  else
    t <- Date_now ;;
    match au_locked_until_ts user with
    | Some lu =>
        if t >? lu then unlockUser (au_id user) ;;; ret false
        else ret true
    | None => ret true
    end.
End Model.

(** <<
    SELECT DISTINCT p.PERMISSION_NAME
    FROM AdminUsers u
    INNER JOIN UserRoles ur ON u.ID = ur.USER_ID AND ur.IS_ACTIVE = 1
    INNER JOIN Roles r ON ur.ROLE_ID = r.ID AND r.IS_ACTIVE = 1
    INNER JOIN RolePermissions rp ON r.ID = rp.ROLE_ID AND rp.IS_GRANTED = 1
    INNER JOIN Permissions p ON rp.PERMISSION_ID = p.ID
    WHERE u.ID = @userId AND u.IS_ACTIVE = 1
    >> *)
Definition select_user_permissions (userId : Z) (d : Database) : list string :=
  nodup string_dec
    (map (fun j => p_permission_name (snd j))
       (filter (fun j =>
                  match j with
                  | (u, _, _, _, _) => (au_id u =? userId) && au_is_active u
                  end)
          (inner_join (fun l p => rp_permission_id (snd l) =? p_id p)
             (inner_join
                (fun l rp => (r_id (snd l) =? rp_role_id rp) && rp_is_granted rp)
                (inner_join
                   (fun l r => (ur_role_id (snd l) =? r_id r) && r_is_active r)
                   (inner_join
                      (fun u ur => (au_id u =? ur_user_id ur) && ur_is_active ur)
                      (AdminUsers d) (UserRoles d))
                   (Roles d))
                (RolePermissions d))
             (Permissions d)))).

Definition getUserPermissions (userId : Z) : M (list string) :=
  query (select (select_user_permissions userId)).

(** [SELECT * FROM AdminUsers WHERE (USERNAME = @identifier OR EMAIL =
    @identifier) AND IS_ACTIVE = 1], first record or [null]. *)
Definition findByUsernameOrEmail (identifier : string) : M (option AdminUser) :=
  recordset <-
    query (select (fun d =>
      filter (fun u => (String.eqb (au_username u) identifier
                        || String.eqb (au_email u) identifier)
                       && au_is_active u)
        (AdminUsers d))) ;;
  ret (hd_error recordset).

(** [SELECT * FROM AdminUsers WHERE ID = @id AND IS_ACTIVE = 1] *)
Definition findById (id : Z) : M (option AdminUser) :=
  recordset <-
    query (select (fun d =>
      filter (fun u => (au_id u =? id) && au_is_active u) (AdminUsers d))) ;;
  ret (hd_error recordset).
End UserModel.

(** ** src/services/roleService.ts *)

Module RoleService.
Definition removeRoleFromUser (roleId userId : Z) : M (bool * option string) :=
  try_catch
    (query (update (fun d =>
       with_UserRoles
         (sql_update
            (fun ur => (ur_role_id ur =? roleId) && (ur_user_id ur =? userId))
            (fun ur => mkUserRoleRow (ur_user_id ur) (ur_role_id ur) false)
            (UserRoles d)) d)) ;;;
     ret (true, None))
    (fun _ => ret (false, Some "Failed to remove role from user")).

(** [INSERT INTO UserRoles (ROLE_ID, USER_ID, ASSIGNED_BY) VALUES (...)]:
    [IS_ACTIVE] takes its default 1. The schema refuses the row when the
    user, the role or the assigning user does not exist, and when the pair
    (USER_ID, ROLE_ID) is already in the table. Nothing is caught here. *)
Definition assignRoleToUser (roleId userId assignedBy : Z) : M unit :=
  query_checked (fun d =>
    if negb (existsb (fun u => au_id u =? userId) (AdminUsers d))
       || negb (existsb (fun r => r_id r =? roleId) (Roles d))
       || negb (existsb (fun u => au_id u =? assignedBy) (AdminUsers d))
       || existsb (fun ur => (ur_user_id ur =? userId) && (ur_role_id ur =? roleId))
            (UserRoles d)
    then None
    else Some (tt, with_UserRoles (UserRoles d ++ [mkUserRoleRow userId roleId true]) d)).

(** [UPDATE Roles SET IS_ACTIVE = 0 WHERE ID = @roleId] *)
Definition deleteRole (roleId : Z) : M (bool * option string) :=
  try_catch
    (query (update (fun d =>
       with_Roles
         (sql_update (fun r => r_id r =? roleId)
            (fun r => mkRole (r_id r) (r_role_name r) (r_description r) false
                        (r_inactivity_lock_enabled r) (r_inactivity_lock_days r)
                        (r_inactivity_timeout_minutes r))
            (Roles d)) d)) ;;;
     ret (true, None))
    (fun _ => ret (false, Some "Failed to delete role")).
End RoleService.

(** ** src/middleware/auth.ts *)

Record Session := mkSession {
  userId : option Z;
  lastActivity : option Z
}.

(** The part of the Express request the middleware touches; [session] is
    [None] once [req.session.destroy] ran. *)
Record Request := mkRequest {
  session : option Session;
  req_user : option AuthUser
}.

Inductive Response :=
| Json (status : Z) (ok : bool) (msg : string)
| Next.

Module Middleware.

Definition getUserById (userId : Z) : M (bool * option AuthUser) :=
  try_catch
    (userResult <- query (select (select_by_id userId)) ;;
     match userResult with
     | [] => ret (false, None)
     | _ :: _ =>
         user <- buildUserFromResults userResult ;;
         ret (true, Some user)
     end)
    (fun _ => ret (false, None)).

(** <<
    SELECT MIN(r.inactivity_timeout_minutes) as min_timeout
    FROM AdminUsers au
    JOIN UserRoles ur ON au.id = ur.user_id
    JOIN Roles r ON ur.role_id = r.id
    WHERE au.id = @userId AND r.is_active = 1 AND r.inactivity_timeout_minutes > 0
    >> *)
Definition positive_minutes (r : Role) : bool :=
  match r_inactivity_timeout_minutes r with
  | Some m => m >? 0
  | None => false
  end.

Definition timeout_rows (userId : Z) (d : Database) : list (AdminUser * UserRoleRow * Role) :=
  filter (fun j =>
            match j with
            | (au, _, r) => (au_id au =? userId) && r_is_active r && positive_minutes r
            end)
    (inner_join (fun l r => ur_role_id (snd l) =? r_id r)
       (inner_join on_ur (AdminUsers d) (UserRoles d))
       (Roles d)).

Definition select_min_timeout (userId : Z) (d : Database) : option Z :=
  sql_min (map (fun j => number_of (r_inactivity_timeout_minutes (snd j)))
             (timeout_rows userId d)).

Definition getInactivityTimeout (userId : Z) : M Z :=
  try_catch
    (timeoutMinutes <- query (select (select_min_timeout userId)) ;;
     ret (if truthy timeoutMinutes then number_of timeoutMinutes * 60 * 1000 else 0))
    (fun _ => ret 0).

Definition requireAuth (req : Request) : M (Response * Request) :=
  try_catch
    (match session req with
     | None => throw "TypeError"
     | Some s =>
         if negb (truthy (userId s)) then
           ret (Json 401 false "Authentication required", req)
         else
           let uid := number_of (userId s) in
           inactivityTimeout <- getInactivityTimeout uid ;;
           t <- Date_now ;;
           if (inactivityTimeout >? 0)
              && (t - or_default (lastActivity s) t >? inactivityTimeout)
           then
             ret (Json 401 false "Session expired due to inactivity",
                  mkRequest None (req_user req))
           else
             let s' := mkSession (userId s) (Some t) in
             authResult <- getUserById uid ;;
             match authResult with
             | (true, Some u) => ret (Next, mkRequest (Some s') (Some u))
             | _ =>
                 ret (Json 401 false "User not found or inactive",
                      mkRequest (Some s') (req_user req))
             end
     end)
    (fun _ => ret (Json 500 false "Authentication error", req)).


Definition requirePermission (permissionName : string) (req : Request) : Response :=
  match req_user req with
  | None => Json 401 false "Authentication required"
  | Some u =>
      if negb (AuthService.hasPermission u permissionName)
      then Json 403 false "Insufficient permissions"
      else Next
  end.

Definition requireRole (roleNames : list string) (req : Request) : Response :=
  match req_user req with
  | None => Json 401 false "Authentication required"
  | Some u =>
      if negb (AuthService.hasRole u roleNames)
      then Json 403 false "Insufficient role privileges"
      else Next
  end.

(** Every path of [optionalAuth] ends in [next()]; the result is the request
    it leaves. *)
Definition optionalAuth (req : Request) : M Request :=
  try_catch
    (match session req with
     | None => throw "TypeError"
     | Some s =>
         if truthy (userId s) then
           authResult <- getUserById (number_of (userId s)) ;;
           match authResult with
           | (true, Some u) =>
               t <- Date_now ;;
               ret (mkRequest (Some (mkSession (userId s) (Some t))) (Some u))
           | _ => ret req
           end
         else ret req
     end)
    (fun _ => ret req).

(** A route declared with [requireAuth] and a synchronous guard in front of
    its handler: the guard runs on the request [requireAuth] passes on. *)
Definition guarded (guard : Request -> Response) (req : Request)
    : M (Response * Request) :=
  r <- requireAuth req ;;
  match r with
  | (Next, req') => ret (guard req', req')
  | (resp, req') => ret (resp, req')
  end.
End Middleware.

(** ** src/routes/auth.ts *)

Record SessionUser := mkSessionUser {
  su_id : Z;
  su_username : string;
  su_email : string;
  su_fullName : string;
  su_roles : list string;
  su_permissions : list string
}.

(** The session as the login route fills it; the middleware reads and writes
    [userId] and [lastActivity] only. *)
Record LoginSession := mkLoginSession {
  ls_userId : option Z;
  ls_user : option SessionUser;
  ls_lastActivity : option Z
}.


(** [res.status(..).json({ success, message, user })]; the [user] of a
    successful login comes with its [lastLoginTs]. *)
Record Reply := mkReply {
  reply_status : Z;
  reply_success : bool;
  reply_message : string;
  reply_user : option (SessionUser * option Z)
}.

(** [s.length] of JavaScript: the number of UTF-16 code units of [s]. A
    string is held here as the bytes of its (generalised) UTF-8 encoding: a
    byte that starts a sequence of one, two or three bytes stands for one
    code unit, a byte that starts a sequence of four for the two units of a
    surrogate pair, and a continuation byte for none. *)
Definition utf16_units (c : ascii) : nat :=
  let n := nat_of_ascii c in
  if (n <? 128)%nat then 1%nat
  else if (n <? 192)%nat then 0%nat
  else if (n <? 240)%nat then 1%nat
  else 2%nat.

Fixpoint js_length (s : string) : nat :=
  match s with
  | EmptyString => 0%nat
  | String c rest => (utf16_units c + js_length rest)%nat
  end.

(** Truthiness of a string of the request body. *)
Definition truthy_string (o : option string) : bool :=
  match o with
  | Some EmptyString => false
  | Some _ => true
  | None => false
  end.

Module AuthRoutes.
Section Routes.
Variable env : Env.
Variable bcrypt_compare : string -> string -> bool.
Variable bcrypt_hash : string -> string.

Definition session_user (u : AuthUser) : SessionUser :=
  mkSessionUser (id u) (username u) (email u) (fullName u)
    (map roleName (roles u)) (map permissionName (permissions u)).

(** [POST /api/auth/login] *)
Definition login (body_username body_password : option string) (s : LoginSession)
    : M (Reply * LoginSession) :=
  try_catch
    (if negb (truthy_string body_username) || negb (truthy_string body_password) then
       ret (mkReply 400 false "Username and password are required" None, s)
     else
       authResult <-
         AuthService.authenticateUser env bcrypt_compare
           (string_or_empty body_username) (string_or_empty body_password) ;;
       if negb (success authResult) then
         ret (mkReply 401 false (string_or_empty (message authResult)) None, s)
       else
         match user authResult with
         | None => ret (mkReply 401 false "Authentication failed" None, s)
         | Some u =>
             t <- Date_now ;;
             ret (mkReply 200 true "Login successful"
                    (Some (session_user u, lastLoginTs u)),
                  mkLoginSession (Some (id u)) (Some (session_user u)) (Some t))
         end)
    (fun _ => ret (mkReply 500 false "Internal server error" None, s)).


(** [POST /api/auth/change-password], behind [requireAuth]: [current] is
    [req.user]. The [UPDATE] also stamps [updated_ts], a column that nothing
    here reads. *)
Definition changePassword (current : AuthUser)
    (currentPassword newPassword : option string) : M Reply :=
  try_catch
    (if negb (truthy_string currentPassword) || negb (truthy_string newPassword) then
       ret (mkReply 400 false "Current password and new password are required" None)
     else if (js_length (string_or_empty newPassword) <? 8)%nat then
       ret (mkReply 400 false "New password must be at least 8 characters long" None)
     else
       result <-
         query (select (fun d =>
           map au_password_hash
             (filter (fun u => au_id u =? id current) (AdminUsers d)))) ;;
       match result with
       | [] => ret (mkReply 404 false "User not found" None)
       | password_hash :: _ =>
           isCurrentPasswordValid <-
             AuthService.verifyPassword bcrypt_compare
               (string_or_empty currentPassword) password_hash ;;
           if negb isCurrentPasswordValid then
             ret (mkReply 400 false "Current password is incorrect" None)
           else
             newPasswordHash <-
               AuthService.hashPassword bcrypt_hash (string_or_empty newPassword) ;;
             query (update (fun d =>
               with_AdminUsers
                 (sql_update (fun u => au_id u =? id current)
                    (set_password_hash newPasswordHash) (AdminUsers d)) d)) ;;;
             ret (mkReply 200 true "Password changed successfully" None)
       end)
    (fun _ => ret (mkReply 500 false "Internal server error" None)).
End Routes.

(** The guards in front of [POST /api/auth/register]. *)
Definition register_guard (req : Request) : M (Response * Request) :=
  Middleware.guarded (Middleware.requirePermission "user.create") req.
End AuthRoutes.

(** ** Login attempts over time *)

Section Attempts.
Variable env : Env.
Variable bcrypt_compare : string -> string -> bool.
Variable name : string.

(** One call of [authenticateUser] for [name], made at instant [t]. *)
Definition attempt (t : Z) (password : string) (w : World)
    : Outcome AuthResult * World :=
  AuthService.authenticateUser env bcrypt_compare name password (tick t w).

(** Consecutive calls, each at its instant and with its password. *)
Fixpoint attempts (tries : list (Z * string)) (w : World)
    : list (Outcome AuthResult) * World :=
  match tries with
  | [] => ([], w)
  | (t, password) :: rest =>
      let (r, w1) := attempt t password w in
      let (rs, w2) := attempts rest w1 in
      (r :: rs, w2)
  end.
End Attempts.

(** ** A sample installation *)

Module Scenario.
(** A stand-in for [bcrypt.compare]. *)
Definition bcrypt (password hash : string) : bool :=
  String.eqb ("$2b$12$" ++ password)%string hash.

Definition env : Env := mkEnv None None.

Definition alice : AdminUser :=
  mkAdminUser 1 "alice" "alice@school.edu" "Alice Tan" "$2b$12$correct horse"
    true false 0 None None.
Definition bob : AdminUser :=
  mkAdminUser 2 "bob" "bob@school.edu" "Bob Lim" "$2b$12$hunter2"
    true false 4 None (Some 500000).
Definition carol : AdminUser :=
  mkAdminUser 3 "carol" "carol@school.edu" "Carol Wong" "$2b$12$s3cret"
    true false 5 (Some 1900000) None.

Definition Editor : Role := mkRole 3 "Editor" "Can manage news" true false 60 (Some 30).
Definition Teacher : Role := mkRole 4 "Teacher" "Can create news" true true 30 (Some 45).

Definition news_create : PermissionRow := mkPermissionRow 11 "news.create" "Create news articles" true.
Definition news_publish : PermissionRow := mkPermissionRow 15 "news.publish" "Publish/unpublish news" true.
Definition events_create : PermissionRow := mkPermissionRow 16 "events.create" "Create events" true.

Definition database : Database :=
  mkDatabase
    [alice; bob; carol]
    [Editor; Teacher]
    [news_create; news_publish; events_create]
    [mkUserRoleRow 1 3 true; mkUserRoleRow 2 3 true; mkUserRoleRow 2 4 true;
     mkUserRoleRow 3 4 false]
    [mkRolePermissionRow 3 11 true; mkRolePermissionRow 3 15 false;
     mkRolePermissionRow 4 11 true; mkRolePermissionRow 4 16 true].

Definition world : World := mkWorld database 1000000 [].

(** Five wrong guesses for [alice], ten seconds apart. *)
Definition five_wrong_tries : list (Z * string) :=
  [(1000000, "123456"); (1010000, "password"); (1020000, "alice");
   (1030000, "qwerty"); (1040000, "letmein")].

(** A session of [uid] whose last activity was at [t]. *)
Definition request (uid t : Z) : Request :=
  mkRequest (Some (mkSession (Some uid) (Some t))) None.
End Scenario.

(** A registration in the sample installation: [bcrypt_hash] is the
    stand-in for [bcrypt.hash] that goes with [Scenario.bcrypt]. *)
Module Signup.
Definition bcrypt_hash (password : string) : string :=
  ("$2b$12$" ++ password)%string.

Definition dave : RegisterData :=
  mkRegisterData "dave" "dave@school.edu" "open sesame" "Dave Ng" 1.
End Signup.

(** ** Seed data

    The names of the [INSERT INTO Permissions] of the seed script. *)
Module Seed.
Definition permission_names : list string :=
  ["users.create"; "users.read"; "users.update"; "users.delete"; "users.manage";
   "roles.create"; "roles.read"; "roles.update"; "roles.delete"; "roles.manage";
   "news.create"; "news.read"; "news.update"; "news.delete"; "news.publish";
   "events.create"; "events.read"; "events.update"; "events.delete";
   "events.publish"; "events.manage_signups";
   "gallery.create"; "gallery.read"; "gallery.update"; "gallery.delete";
   "content.read"; "content.update";
   "settings.read"; "settings.update";
   "audit.read"; "reports.view"].

(** The names of the [INSERT INTO Roles] of the seed script. *)
Definition role_names : list string :=
  ["Super Admin"; "Administrator"; "Editor"; "Teacher"; "Viewer"].
End Seed.

(** ** Vocabulary of the statements *)

Definition InvalidCredentials (r : Outcome AuthResult) : Prop :=
  r = Ok (failure "Invalid credentials").

Definition AccountLocked (remaining_minutes : Z) (r : Outcome AuthResult) : Prop :=
  r = Ok (failure (locked_message remaining_minutes)).

(** The row of an account after one more failed attempt was recorded at time
    [t], [attempts] being the counter read before: the counter goes up by
    one, and the lock is set when the new count reaches [max]. *)
Definition record_failed_attempt (max lockout t attempts : Z) (x : AdminUser) : AdminUser :=
  if attempts + 1 >=? max
  then set_locked_until_ts (Some (t + lockout))
         (set_failed_login_attempts (attempts + 1) x)
  else set_failed_login_attempts (attempts + 1) x.

(** Keys are distinct, and every value carries its key as id. *)
Definition keyed {V : Type} (id_of : V -> Z) (m : JsMap.t V) : Prop :=
  NoDup (JsMap.keys m) /\ map id_of (JsMap.values m) = JsMap.keys m.

(** An identity without duplicate role ids or permission ids. *)
Definition distinct_ids (usr : AuthUser) : Prop :=
  NoDup (map role_id_of (roles usr))
  /\ NoDup (map permission_id_of (permissions usr)).

(** An identity handed out by the resolution: built from a result set, by
    [getUserById], or by a successful [authenticateUser]. *)
Definition resolved_identity (usr : AuthUser) : Prop :=
  (exists results w w', buildUserFromResults results w = (Ok usr, w'))
  \/ (exists userId w w' b,
        Middleware.getUserById userId w = (Ok (b, Some usr), w'))
  \/ (exists env bcrypt_compare name password w w' res,
        AuthService.authenticateUser env bcrypt_compare name password w
        = (Ok res, w')
        /\ user res = Some usr).

(** [r] is an active role assigned to user [uid] through some [UserRoles]
    row, and its [inactivity_timeout_minutes] is the positive [minutes]. *)
Definition role_timeout (d : Database) (uid : Z) (r : Role) (minutes : Z) : Prop :=
  (exists au, In au (AdminUsers d) /\ au_id au = uid)
  /\ (exists ur, In ur (UserRoles d) /\ ur_user_id ur = uid
                 /\ ur_role_id ur = r_id r)
  /\ In r (Roles d)
  /\ r_is_active r = true
  /\ r_inactivity_timeout_minutes r = Some minutes
  /\ 0 < minutes.

(** As [role_timeout], for an active account and through an active
    assignment. *)
Definition active_role_timeout (d : Database) (uid : Z) (r : Role) (minutes : Z) : Prop :=
  (exists au, In au (AdminUsers d) /\ au_id au = uid /\ au_is_active au = true)
  /\ (exists ur, In ur (UserRoles d) /\ ur_user_id ur = uid
                 /\ ur_role_id ur = r_id r /\ ur_is_active ur = true)
  /\ In r (Roles d)
  /\ r_is_active r = true
  /\ r_inactivity_timeout_minutes r = Some minutes
  /\ 0 < minutes.

(** The database with the [IS_ACTIVE] flag of every assignment and the
    [IS_GRANTED] flag of every grant rewritten by [active] and [granted]. *)
Definition with_flags (active : UserRoleRow -> bool) (granted : RolePermissionRow -> bool)
    (d : Database) : Database :=
  mkDatabase (AdminUsers d) (Roles d) (Permissions d)
    (map (fun ur => mkUserRoleRow (ur_user_id ur) (ur_role_id ur) (active ur))
       (UserRoles d))
    (map (fun rp => mkRolePermissionRow (rp_role_id rp) (rp_permission_id rp) (granted rp))
       (RolePermissions d)).

Definition session_expired : Response :=
  Json 401 false "Session expired due to inactivity".

(** [r] is an active role that some [UserRoles] row, of whatever [IS_ACTIVE],
    assigns to an active account with id [uid]. *)
Definition role_reached (d : Database) (uid : Z) (r : Role) : Prop :=
  exists au ur,
    In au (AdminUsers d) /\ au_id au = uid /\ au_is_active au = true
    /\ In ur (UserRoles d) /\ ur_user_id ur = uid
    /\ In r (Roles d) /\ r_id r = ur_role_id ur /\ r_is_active r = true.

(** [p] is an active permission that some [RolePermissions] row, of whatever
    [IS_GRANTED], attaches to a role reached by [uid]. *)
Definition permission_reached (d : Database) (uid : Z) (p : PermissionRow) : Prop :=
  exists r rp,
    role_reached d uid r
    /\ In rp (RolePermissions d) /\ rp_role_id rp = r_id r
    /\ In p (Permissions d) /\ p_id p = rp_permission_id rp
    /\ p_is_active p = true.

(** [p] is a permission that a granted [RolePermissions] row attaches to an
    active role that an active [UserRoles] row assigns to an active account
    with id [uid]. *)
Definition permission_granted (d : Database) (uid : Z) (p : PermissionRow) : Prop :=
  exists au ur r rp,
    In au (AdminUsers d) /\ au_id au = uid /\ au_is_active au = true
    /\ In ur (UserRoles d) /\ ur_user_id ur = uid /\ ur_is_active ur = true
    /\ In r (Roles d) /\ r_id r = ur_role_id ur /\ r_is_active r = true
    /\ In rp (RolePermissions d) /\ rp_role_id rp = r_id r
    /\ rp_is_granted rp = true
    /\ In p (Permissions d) /\ p_id p = rp_permission_id rp.

(** As [permission_granted], naming the role the grant goes through. *)
Definition granted_through (d : Database) (uid rid : Z) (p : PermissionRow) : Prop :=
  exists au ur r rp,
    In au (AdminUsers d) /\ au_id au = uid /\ au_is_active au = true
    /\ In ur (UserRoles d) /\ ur_user_id ur = uid /\ ur_role_id ur = rid
    /\ ur_is_active ur = true
    /\ In r (Roles d) /\ r_id r = rid /\ r_is_active r = true
    /\ In rp (RolePermissions d) /\ rp_role_id rp = rid
    /\ rp_is_granted rp = true
    /\ In p (Permissions d) /\ p_id p = rp_permission_id rp.

(** The [AdminUsers] row that [registerUser] inserts for [userData]. *)
Definition registered_row (bcrypt_hash : string -> string) (identity : Z)
    (userData : RegisterData) : AdminUser :=
  mkAdminUser identity (reg_username userData) (reg_email userData)
    (reg_fullName userData) (bcrypt_hash (reg_password userData))
    true false 0 None None.

(** No account of [d] stands in the way of registering [userData]: none has
    its username or its email. *)
Definition registrable (d : Database) (userData : RegisterData) : Prop :=
  forall u, In u (AdminUsers d) ->
            au_username u <> reg_username userData
            /\ au_email u <> reg_email userData.

(** The answer of a login attempt that was refused because of the lock. *)
Definition answered_locked (r : Outcome AuthResult) : Prop :=
  exists minutes, AccountLocked minutes r.

(** * Properties *)

(** ** Running a computation when the storage does not fail *)

Lemma query_no_fault {A : Type} (q : Database -> A * Database) (w : World) :
  faults w = [] ->
  query q w = (Ok (fst (q (db w))), mkWorld (snd (q (db w))) (now w) []).
Proof.
  intros H. unfold query. rewrite H. destruct (q (db w)); reflexivity.
Qed.

Lemma query_fault {A : Type} (q : Database -> A * Database) (w : World) fs :
  faults w = true :: fs ->
  query q w = (Throw "RequestError", mkWorld (db w) (now w) fs).
Proof.
  intros H. unfold query. rewrite H. reflexivity.
Qed.

Lemma world_eta (w : World) : mkWorld (db w) (now w) (faults w) = w.
Proof. destruct w; reflexivity. Qed.

(** ** Shape of the joined result set *)

Section JoinFacts.
Context {A B : Type}.
Variable on : A -> B -> bool.

Lemma left_join_app (l1 l2 : list A) (r : list B) :
  left_join on (l1 ++ l2) r = left_join on l1 r ++ left_join on l2 r.
Proof. unfold left_join. apply flat_map_app. Qed.

Lemma left_join_cons (a : A) (l : list A) (r : list B) :
  left_join on (a :: l) r = left_join on [a] r ++ left_join on l r.
Proof. apply (left_join_app [a] l). Qed.

Lemma left_join_fst (l : list A) (r : list B) (x : A * option B) :
  In x (left_join on l r) -> In (fst x) l.
Proof.
  unfold left_join. rewrite in_flat_map. intros [a [Ha Hx]].
  destruct (filter (on a) r) as [|b ms] eqn:E.
  - destruct Hx as [<-|[]]. exact Ha.
  - apply in_map_iff in Hx. destruct Hx as [b' [<- _]]. exact Ha.
Qed.

Lemma left_join_nonempty (l : list A) (r : list B) :
  l <> [] -> left_join on l r <> [].
Proof.
  destruct l as [|a l]; [congruence|]. intros _.
  rewrite left_join_cons. unfold left_join at 1. simpl.
  destruct (filter (on a) r); simpl; discriminate.
Qed.

End JoinFacts.

Lemma join_from_cons (u : AdminUser) (us : list AdminUser) (d : Database) :
  join_from (u :: us) d = join_from [u] d ++ join_from us d.
Proof.
  unfold join_from.
  rewrite (left_join_cons on_ur u us), !left_join_app. reflexivity.
Qed.

Lemma join_from_user (us : list AdminUser) (d : Database) (j : Joined) :
  In j (join_from us d) -> In (user_of j) us.
Proof.
  unfold join_from. intros H.
  apply left_join_fst in H. apply left_join_fst in H.
  apply left_join_fst in H. apply left_join_fst in H.
  destruct j as [[[[au ur] r] rp] p]. exact H.
Qed.

Lemma join_from_nonempty (u : AdminUser) (d : Database) :
  join_from [u] d <> [].
Proof.
  unfold join_from. repeat apply left_join_nonempty. discriminate.
Qed.

Lemma filter_all {A : Type} (f : A -> bool) (l : list A) :
  (forall x, In x l -> f x = true) -> filter f l = l.
Proof.
  induction l as [|a l IH]; simpl; intros H; [reflexivity|].
  rewrite (H a (or_introl eq_refl)). f_equal. apply IH. auto.
Qed.

Lemma filter_none {A : Type} (f : A -> bool) (l : list A) :
  (forall x, In x l -> f x = false) -> filter f l = [].
Proof.
  induction l as [|a l IH]; simpl; intros H; [reflexivity|].
  rewrite (H a (or_introl eq_refl)). apply IH. auto.
Qed.

(** The first record of a result set restricted by a condition on the user
    columns belongs to the first user that satisfies the condition. *)
Lemma where_user_first (cond : AdminUser -> bool) (us : list AdminUser) (d : Database) :
  match find cond us with
  | None => filter (fun j => cond (user_of j)) (join_from us d) = []
  | Some u =>
      exists j rest,
        filter (fun j => cond (user_of j)) (join_from us d) = j :: rest
        /\ user_of j = u
  end.
Proof.
  induction us as [|a us IH]; simpl; [reflexivity|].
  rewrite join_from_cons, filter_app.
  destruct (cond a) eqn:Ea.
  - rewrite (filter_all (fun j => cond (user_of j)) (join_from [a] d)).
    + pose proof (join_from_nonempty a d) as Hne.
      destruct (join_from [a] d) as [|j js] eqn:Ej; [congruence|].
      exists j, (js ++ filter (fun j0 => cond (user_of j0)) (join_from us d)).
      split; [reflexivity|].
      assert (Hin : In j (join_from [a] d)) by (rewrite Ej; left; reflexivity).
      apply join_from_user in Hin. destruct Hin as [H|[]]. symmetry; exact H.
    + intros x Hx. apply join_from_user in Hx. destruct Hx as [<-|[]]. exact Ea.
  - rewrite (filter_none (fun j => cond (user_of j)) (join_from [a] d)).
    + simpl. exact IH.
    + intros x Hx. apply join_from_user in Hx. destruct Hx as [<-|[]]. exact Ea.
Qed.

Lemma select_login_first (name : string) (d : Database) :
  match find (where_login name) (AdminUsers d) with
  | None => select_login name d = []
  | Some u =>
      exists j rest,
        select_login name d = project true j :: rest /\ user_of j = u
  end.
Proof.
  unfold select_login.
  pose proof (where_user_first (where_login name) (AdminUsers d) d) as H.
  destruct (find (where_login name) (AdminUsers d)) as [u|].
  - destruct H as (j & rest & -> & Hu).
    exists j, (map (project true) rest). split; [reflexivity|exact Hu].
  - rewrite H. reflexivity.
Qed.

Lemma select_by_id_first (uid : Z) (d : Database) :
  match find (where_id_active uid) (AdminUsers d) with
  | None => select_by_id uid d = []
  | Some u =>
      exists j rest,
        select_by_id uid d = project false j :: rest /\ user_of j = u
  end.
Proof.
  unfold select_by_id.
  pose proof (where_user_first (where_id_active uid) (AdminUsers d) d) as H.
  destruct (find (where_id_active uid) (AdminUsers d)) as [u|].
  - destruct H as (j & rest & -> & Hu).
    exists j, (map (project false) rest). split; [reflexivity|exact Hu].
  - rewrite H. reflexivity.
Qed.

Lemma project_user_columns (b : bool) (j : Joined) :
  row_id (project b j) = au_id (user_of j)
  /\ row_is_active (project b j) = au_is_active (user_of j)
  /\ row_locked_until_ts (project b j) = au_locked_until_ts (user_of j)
  /\ row_failed_login_attempts (project b j) = au_failed_login_attempts (user_of j)
  /\ row_password_hash (project true j) = Some (au_password_hash (user_of j)).
Proof. destruct j as [[[[au ur] r] rp] p]. simpl. auto. Qed.

(** An [UPDATE] that leaves the login columns alone does not change which
    user a login name resolves to. *)
Lemma find_sql_update (P cond : AdminUser -> bool) (f : AdminUser -> AdminUser)
    (us : list AdminUser) :
  (forall x, P (f x) = P x) ->
  find P (sql_update cond f us)
  = option_map (fun x => if cond x then f x else x) (find P us).
Proof.
  intros HP. unfold sql_update.
  induction us as [|a us IH]; simpl; [reflexivity|].
  assert (E : P (if cond a then f a else a) = P a)
    by (destruct (cond a); [apply HP|reflexivity]).
  rewrite E. destruct (P a); [reflexivity|exact IH].
Qed.

(** ** The branches of [authenticateUser] *)

Section AuthBranches.
Variable env : Env.
Variable bcrypt_compare : string -> string -> bool.

Let authenticateUser := AuthService.authenticateUser env bcrypt_compare.
Let MAX_LOGIN_ATTEMPTS := AuthService.MAX_LOGIN_ATTEMPTS env.
Let LOCKOUT_TIME := AuthService.LOCKOUT_TIME env.

Ltac run_login w Hf u Hfind :=
  unfold authenticateUser, AuthService.authenticateUser, try_catch, bind;
  rewrite (query_no_fault _ w Hf); unfold select; simpl fst; simpl snd;
  pose proof (select_login_first u (db w)) as Hrows;
  rewrite Hfind in Hrows.

Lemma auth_no_user (name password : string) (w : World) :
  faults w = [] ->
  find (where_login name) (AdminUsers (db w)) = None ->
  authenticateUser name password w = (Ok (failure "Invalid credentials"), w).
Proof.
  intros Hf Hfind. run_login w Hf name Hfind.
  rewrite Hrows. unfold ret. rewrite <- Hf, world_eta. reflexivity.
Qed.

Lemma auth_locked (name password : string) (w : World) (u : AdminUser) (lu : Z) :
  faults w = [] ->
  find (where_login name) (AdminUsers (db w)) = Some u ->
  au_locked_until_ts u = Some lu ->
  now w < lu ->
  authenticateUser name password w
  = (Ok (failure (locked_message (Math_ceil_div (lu - now w) 60000))), w).
Proof.
  intros Hf Hfind Hlu Hlt. run_login w Hf name Hfind.
  destruct Hrows as (j & rest & -> & Hu).
  destruct (project_user_columns true j) as (_ & _ & Hl & _).
  unfold Date_now, ret. simpl. rewrite Hl, Hu, Hlu. simpl.
  apply Z.ltb_lt in Hlt. rewrite Hlt.
  rewrite <- Hf, world_eta. reflexivity.
Qed.

Lemma auth_disabled (name password : string) (w : World) (u : AdminUser) :
  faults w = [] ->
  find (where_login name) (AdminUsers (db w)) = Some u ->
  AuthService.is_locked_at (au_locked_until_ts u) (now w) = false ->
  au_is_active u = false ->
  authenticateUser name password w = (Ok (failure "Account is disabled"), w).
Proof.
  intros Hf Hfind Hlock Hact. run_login w Hf name Hfind.
  destruct Hrows as (j & rest & -> & Hu).
  destruct (project_user_columns true j) as (_ & Ha & Hl & _).
  unfold Date_now, ret. simpl. rewrite Hl, Ha, Hu, Hlock, Hact. simpl.
  rewrite <- Hf, world_eta. reflexivity.
Qed.

Lemma auth_wrong_password (name password : string) (w : World) (u : AdminUser) :
  faults w = [] ->
  find (where_login name) (AdminUsers (db w)) = Some u ->
  AuthService.is_locked_at (au_locked_until_ts u) (now w) = false ->
  au_is_active u = true ->
  bcrypt_compare password (au_password_hash u) = false ->
  authenticateUser name password w
  = (Ok (failure "Invalid credentials"),
     mkWorld
       (with_AdminUsers
          (sql_update (fun x => au_id x =? au_id u)
             (record_failed_attempt MAX_LOGIN_ATTEMPTS LOCKOUT_TIME (now w)
                (au_failed_login_attempts u))
             (AdminUsers (db w)))
          (db w))
       (now w) []).
Proof.
  intros Hf Hfind Hlock Hact Hpw. run_login w Hf name Hfind.
  destruct Hrows as (j & rest & -> & Hu).
  destruct (project_user_columns true j) as (Hi & Ha & Hl & Hn & Hh).
  unfold Date_now, ret, AuthService.verifyPassword, ret. simpl.
  rewrite Hl, Ha, Hh, Hi, Hn, Hu, Hlock, Hact. simpl. rewrite Hpw. simpl.
  unfold AuthService.handleFailedLogin, record_failed_attempt,
    MAX_LOGIN_ATTEMPTS, LOCKOUT_TIME.
  destruct (au_failed_login_attempts u + 1 >=? AuthService.MAX_LOGIN_ATTEMPTS env);
    unfold bind, Date_now; simpl; reflexivity.
Qed.
End AuthBranches.

(** ** The [Map]s of [buildUserFromResults] *)

Lemma JsMap_has_false {V : Type} (m : JsMap.t V) (k : Z) :
  JsMap.has m k = false -> ~ In k (JsMap.keys m).
Proof.
  induction m as [|[k' v'] m IH]; simpl; intros H; [tauto|].
  apply orb_false_iff in H. destruct H as [Hk Hm].
  intros [->|Hin]; [rewrite Z.eqb_refl in Hk; discriminate|].
  exact (IH Hm Hin).
Qed.

Lemma JsMap_set_absent {V : Type} (m : JsMap.t V) (k : Z) (v : V) :
  JsMap.has m k = false -> JsMap.set m k v = m ++ [(k, v)].
Proof.
  induction m as [|[k' v'] m IH]; simpl; intros H; [reflexivity|].
  apply orb_false_iff in H. destruct H as [Hk Hm].
  rewrite Hk, (IH Hm). reflexivity.
Qed.

Lemma NoDup_snoc {A : Type} (l : list A) (a : A) :
  NoDup l -> ~ In a l -> NoDup (l ++ [a]).
Proof.
  induction 1 as [|x l Hx Hl IH]; simpl; intros Ha.
  - constructor; [tauto|constructor].
  - constructor.
    + rewrite in_app_iff. simpl. intros [H|[H|[]]]; [tauto|subst; tauto].
    + apply IH. tauto.
Qed.

Lemma keyed_set_absent {V : Type} (id_of : V -> Z) (m : JsMap.t V) (k : Z) (v : V) :
  keyed id_of m -> JsMap.has m k = false -> id_of v = k ->
  keyed id_of (JsMap.set m k v).
Proof.
  intros [Hnd Hid] Hk Hv. rewrite (JsMap_set_absent m k v Hk).
  unfold keyed, JsMap.keys, JsMap.values in *.
  rewrite !map_app. simpl. split.
  - apply NoDup_snoc; [exact Hnd|]. apply JsMap_has_false. exact Hk.
  - rewrite Hid, Hv. reflexivity.
Qed.

Lemma add_role_keyed (m : JsMap.t UserRole) (row : Row) :
  keyed role_id_of m -> keyed role_id_of (add_role m row).
Proof.
  intros Hm. unfold add_role.
  destruct (row_role_id row) as [rid|]; [|exact Hm].
  destruct (truthy (Some rid)); simpl; [|exact Hm].
  destruct (JsMap.has m rid) eqn:E; simpl; [exact Hm|].
  apply keyed_set_absent; [exact Hm|exact E|reflexivity].
Qed.

Lemma add_permission_keyed (m : JsMap.t Permission) (row : Row) :
  keyed permission_id_of m -> keyed permission_id_of (add_permission m row).
Proof.
  intros Hm. unfold add_permission.
  destruct (row_permission_id row) as [pid|]; [|exact Hm].
  destruct (truthy (Some pid)); simpl; [|exact Hm].
  destruct (JsMap.has m pid) eqn:E; simpl; [exact Hm|].
  apply keyed_set_absent; [exact Hm|exact E|reflexivity].
Qed.

Lemma fold_left_invariant {A B : Type} (P : A -> Prop) (f : A -> B -> A) (l : list B) :
  (forall a b, P a -> P (f a b)) -> forall a, P a -> P (fold_left f l a).
Proof.
  intros Hf. induction l as [|b l IH]; simpl; intros a Ha; [exact Ha|].
  apply IH, Hf, Ha.
Qed.

Lemma keyed_empty {V : Type} (id_of : V -> Z) : keyed id_of (@JsMap.empty V).
Proof. split; [constructor|reflexivity]. Qed.

Lemma buildUserFromResults_distinct (results : list Row) (w w' : World) (usr : AuthUser) :
  buildUserFromResults results w = (Ok usr, w') -> distinct_ids usr.
Proof.
  destruct results as [|r rs]; [discriminate|].
  unfold buildUserFromResults, ret. intros H. inversion H; subst; clear H.
  unfold distinct_ids. cbn [roles permissions].
  pose proof (fold_left_invariant (keyed role_id_of) add_role (r :: rs)
                add_role_keyed _ (keyed_empty role_id_of)) as [Hr1 Hr2].
  pose proof (fold_left_invariant (keyed permission_id_of) add_permission (r :: rs)
                add_permission_keyed _ (keyed_empty permission_id_of)) as [Hp1 Hp2].
  simpl fold_left in Hr1, Hr2, Hp1, Hp2.
  rewrite Hr2, Hp2. split; assumption.
Qed.

Lemma buildUserFromResults_total (r : Row) (rs : list Row) (w : World) :
  exists usr, buildUserFromResults (r :: rs) w = (Ok usr, w) /\ id usr = row_id r.
Proof. eexists. split; reflexivity. Qed.

(** ** Where a resolved identity comes from *)

Lemma getUserById_built (uid : Z) (w w' : World) (b : bool) (usr : AuthUser) :
  Middleware.getUserById uid w = (Ok (b, Some usr), w') ->
  exists results w1 w2, buildUserFromResults results w1 = (Ok usr, w2).
Proof.
  unfold Middleware.getUserById, try_catch, bind.
  destruct (query (select (select_by_id uid)) w) as [[rows|e] w1].
  - destruct rows as [|r rs].
    + unfold ret. intros H. inversion H.
    + destruct (buildUserFromResults (r :: rs) w1) as [[usr'|e] w2] eqn:E.
      * unfold ret. intros H. inversion H; subst. eauto.
      * unfold ret. intros H. inversion H.
  - unfold ret. intros H. inversion H.
Qed.

Lemma authenticateUser_built (env : Env) (cmp : string -> string -> bool)
    (name password : string) (w w' : World) (res : AuthResult) (usr : AuthUser) :
  AuthService.authenticateUser env cmp name password w = (Ok res, w') ->
  user res = Some usr ->
  exists results w1 w2, buildUserFromResults results w1 = (Ok usr, w2).
Proof.
  unfold AuthService.authenticateUser, try_catch, bind.
  destruct (query (select (select_login name)) w) as [[rows|e] w1];
    [|unfold ret; intros H; inversion H; subst; discriminate].
  destruct rows as [|r rs];
    [unfold ret; intros H; inversion H; subst; discriminate|].
  unfold Date_now.
  destruct (AuthService.is_locked_at (row_locked_until_ts r) (now w1));
    [unfold ret; intros H; inversion H; subst; discriminate|].
  destruct (negb (row_is_active r));
    [unfold ret; intros H; inversion H; subst; discriminate|].
  unfold AuthService.verifyPassword, ret at 1.
  destruct (negb (cmp password (string_or_empty (row_password_hash r)))).
  - destruct (AuthService.handleFailedLogin env (row_id r)
                (row_failed_login_attempts r) w1) as [[[]|e] w2];
      unfold ret; intros H; inversion H; subst; discriminate.
  - match goal with
    | |- context [query ?q w1] => destruct (query q w1) as [[[]|e] w2]
    end; [|unfold ret; intros H; inversion H; subst; discriminate].
    destruct (buildUserFromResults (r :: rs) w2) as [[usr'|e] w3] eqn:E;
      unfold ret; intros H Hu; inversion H; subst; simpl in Hu.
    + inversion Hu; subst. eauto.
    + discriminate.
Qed.

Section AuthSuccess.
Variable env : Env.
Variable bcrypt_compare : string -> string -> bool.

Lemma auth_success (name password : string) (w : World) (u : AdminUser) :
  faults w = [] ->
  find (where_login name) (AdminUsers (db w)) = Some u ->
  AuthService.is_locked_at (au_locked_until_ts u) (now w) = false ->
  au_is_active u = true ->
  bcrypt_compare password (au_password_hash u) = true ->
  exists usr,
    AuthService.authenticateUser env bcrypt_compare name password w
    = (Ok (mkAuthResult true (Some usr) None),
       mkWorld
         (with_AdminUsers
            (sql_update (fun x => au_id x =? au_id u)
               (AuthService.reset_login (now w)) (AdminUsers (db w)))
            (db w))
         (now w) [])
    /\ id usr = au_id u.
Proof.
  intros Hf Hfind Hlock Hact Hpw.
  unfold AuthService.authenticateUser, try_catch, bind.
  rewrite (query_no_fault _ w Hf). unfold select. simpl fst. simpl snd.
  pose proof (select_login_first name (db w)) as Hrows.
  rewrite Hfind in Hrows. destruct Hrows as (j & rest & -> & Hu).
  destruct (project_user_columns true j) as (Hi & Ha & Hl & Hn & Hh).
  unfold Date_now, ret, AuthService.verifyPassword, ret. simpl.
  rewrite Hl, Ha, Hh, Hi, Hu, Hlock, Hact. simpl. rewrite Hpw. simpl.
  eexists. split; [reflexivity|].
  destruct j as [[[[au ur] r] rp] p]; simpl in *; subst; reflexivity.
Qed.
End AuthSuccess.

(** ** Queries that return leave the database as the statement says *)

Lemma query_select_ok {A : Type} (f : Database -> A) (w w1 : World) (a : A) :
  query (select f) w = (Ok a, w1) ->
  a = f (db w) /\ db w1 = db w /\ now w1 = now w.
Proof.
  unfold query, select.
  destruct (faults w) as [|[|] fs]; intros H; inversion H; subst; auto.
Qed.

Lemma query_update_ok (g : Database -> Database) (w w1 : World) (a : unit) :
  query (update g) w = (Ok a, w1) ->
  db w1 = g (db w) /\ now w1 = now w.
Proof.
  unfold query, update.
  destruct (faults w) as [|[|] fs]; intros H; inversion H; subst; auto.
Qed.

Lemma where_login_record_failed_attempt (name : string) (max lockout t n : Z) (x : AdminUser) :
  where_login name (record_failed_attempt max lockout t n x) = where_login name x.
Proof.
  unfold record_failed_attempt. destruct (n + 1 >=? max); reflexivity.
Qed.


(** A successful call went through the last branch of [authenticateUser]. *)
Lemma auth_success_inv (env : Env) (cmp : string -> string -> bool)
    (name password : string) (w w' : World) (res : AuthResult) :
  AuthService.authenticateUser env cmp name password w = (Ok res, w') ->
  success res = true ->
  exists u,
    find (where_login name) (AdminUsers (db w)) = Some u
    /\ AuthService.is_locked_at (au_locked_until_ts u) (now w) = false
    /\ au_is_active u = true
    /\ cmp password (au_password_hash u) = true
    /\ db w' = with_AdminUsers
                 (sql_update (fun x => au_id x =? au_id u)
                    (AuthService.reset_login (now w)) (AdminUsers (db w)))
                 (db w).
Proof.
  unfold AuthService.authenticateUser, try_catch, bind.
  destruct (query (select (select_login name)) w) as [[rows|e] w1] eqn:Eq;
    [|unfold ret; intros H; inversion H; subst; discriminate].
  apply query_select_ok in Eq. destruct Eq as (-> & Hdb & Hnow).
  pose proof (select_login_first name (db w)) as Hrows.
  destruct (find (where_login name) (AdminUsers (db w))) as [u|];
    [|rewrite Hrows; unfold ret; intros H; inversion H; subst; discriminate].
  destruct Hrows as (j & rest & -> & Hu).
  destruct (project_user_columns true j) as (Hi & Ha & Hl & Hn & Hh).
  unfold Date_now, AuthService.verifyPassword, ret.
  rewrite Hl, Ha, Hh, Hi, Hn, Hu, Hnow. simpl string_or_empty.
  destruct (AuthService.is_locked_at (au_locked_until_ts u) (now w)) eqn:El;
    [intros H; inversion H; subst; discriminate|].
  destruct (au_is_active u) eqn:Eact;
    cbv beta iota delta [negb string_or_empty];
    [|intros H; inversion H; subst; discriminate].
  destruct (cmp password (au_password_hash u)) eqn:Epw; cbv beta iota.
  - match goal with
    | |- context [query ?q w1] =>
        destruct (query q w1) as [[[]|e] w2] eqn:Eu
    end; [|intros H; inversion H; subst; discriminate].
    apply query_update_ok in Eu. destruct Eu as (Hdb2 & _).
    unfold buildUserFromResults, ret. intros H Hs.
    injection H as _ <-.
    exists u. repeat split; try reflexivity; try assumption.
    rewrite Hdb2, Hdb. reflexivity.
  - destruct (AuthService.handleFailedLogin env (au_id u)
                (au_failed_login_attempts u) w1) as [[[]|e] w2];
      intros H; inversion H; subst; discriminate.
Qed.

(** * The claims *)

(** ** Failed attempts and lockout *)





(** ** Successful login *)

(** C6. Whenever [authenticateUser] reports success, whatever counter and
    lock the account held before, the database the call leaves behind holds
    for that account a failed-attempt counter of 0, no [locked_until_ts] and
    [last_login_ts] equal to the current time; [UserModel.updateLastLogin]
    writes the same values and clears [IS_LOCKED]. *)
Theorem successful_login_resets_counter_and_lock
    (env : Env) (bcrypt_compare : string -> string -> bool)
    (name password : string) (w w' : World) (res : AuthResult) :
  AuthService.authenticateUser env bcrypt_compare name password w = (Ok res, w') ->
  success res = true ->
  (exists u u',
     find (where_login name) (AdminUsers (db w)) = Some u
     /\ find (where_login name) (AdminUsers (db w')) = Some u'
     /\ au_id u' = au_id u
     /\ au_failed_login_attempts u' = 0
     /\ au_locked_until_ts u' = None
     /\ au_last_login_ts u' = Some (now w)
     /\ (forall x, In x (AdminUsers (db w')) -> au_id x = au_id u ->
           au_failed_login_attempts x = 0
           /\ au_locked_until_ts x = None
           /\ au_last_login_ts x = Some (now w)))
  /\ (forall (userId : Z) (w0 : World),
        faults w0 = [] ->
        exists w1,
          UserModel.updateLastLogin userId w0 = (Ok tt, w1)
          /\ forall x, In x (AdminUsers (db w1)) -> au_id x = userId ->
               au_failed_login_attempts x = 0
               /\ au_is_locked x = false
               /\ au_locked_until_ts x = None
               /\ au_last_login_ts x = Some (now w0)).
Proof.
  intros Hrun Hs. split.
  - destruct (auth_success_inv env bcrypt_compare name password w Hrun Hs)
      as (u & Hfind & _ & _ & _ & Hdb).
    exists u, (AuthService.reset_login (now w) u).
    split; [exact Hfind|]. rewrite Hdb. cbn [AdminUsers with_AdminUsers].
    split.
    { rewrite find_sql_update by reflexivity.
      rewrite Hfind. cbn [option_map]. rewrite Z.eqb_refl. reflexivity. }
    repeat split; try reflexivity;
      unfold sql_update in H; apply in_map_iff in H;
      destruct H as (y & <- & _);
      destruct (au_id y =? au_id u) eqn:E; try reflexivity;
      simpl in H0; apply Z.eqb_neq in E; contradiction.
  - intros userId w0 Hf.
    unfold UserModel.updateLastLogin, bind, Date_now.
    rewrite query_no_fault by exact Hf.
    eexists. split; [reflexivity|].
    cbn [db update fst snd AdminUsers with_AdminUsers].
    intros x Hx Hid. unfold sql_update in Hx. apply in_map_iff in Hx.
    destruct Hx as (y & <- & _).
    destruct (au_id y =? userId) eqn:E; [repeat split; reflexivity|].
    simpl in Hid. apply Z.eqb_neq in E. contradiction.
Qed.

Lemma successful_login_resets_counter_and_lock_witness :
  exists u',
    find (where_login "bob")
      (AdminUsers (db (snd (AuthService.authenticateUser Scenario.env
                              Scenario.bcrypt "bob" "hunter2" Scenario.world))))
    = Some u'
    /\ au_failed_login_attempts u' = 0
    /\ au_locked_until_ts u' = None
    /\ au_last_login_ts u' = Some 1000000.
Proof.
  destruct (AuthService.authenticateUser Scenario.env Scenario.bcrypt
              "bob" "hunter2" Scenario.world) as [[res|e] w'] eqn:E;
    [|vm_compute in E; discriminate].
  assert (Hs : success res = true)
    by (vm_compute in E; injection E as <- _; reflexivity).
  pose proof (successful_login_resets_counter_and_lock _ _ _ _ _ E Hs)
    as ((u & u' & _ & Hfind & _ & Hn & Hl & Ht & _) & _).
  exists u'. simpl snd.
  split; [exact Hfind|]. split; [exact Hn|]. split; [exact Hl|exact Ht].
Defined.

(** ** Uniform failure for unknown account and wrong password *)

(** C7, as the code has it. An attempt for a name that matches no account and
    an attempt with a wrong password for an existing account that is active
    and not locked return the same failure, 'Invalid credentials'. *)
Theorem unknown_user_and_wrong_password_look_alike
    (env : Env) (bcrypt_compare : string -> string -> bool)
    (name1 password1 : string) (w1 : World)
    (name2 password2 : string) (w2 : World) (u : AdminUser) :
  faults w1 = [] ->
  find (where_login name1) (AdminUsers (db w1)) = None ->
  faults w2 = [] ->
  find (where_login name2) (AdminUsers (db w2)) = Some u ->
  au_is_active u = true ->
  AuthService.is_locked_at (au_locked_until_ts u) (now w2) = false ->
  bcrypt_compare password2 (au_password_hash u) = false ->
  fst (AuthService.authenticateUser env bcrypt_compare name1 password1 w1)
  = fst (AuthService.authenticateUser env bcrypt_compare name2 password2 w2)
  /\ InvalidCredentials
       (fst (AuthService.authenticateUser env bcrypt_compare name1 password1 w1)).
Proof.
  intros Hf1 Hnone Hf2 Hfind Hact Hlock Hpw.
  rewrite (auth_no_user env bcrypt_compare name1 password1 w1 Hf1 Hnone).
  rewrite (auth_wrong_password env bcrypt_compare name2 password2 w2
             Hf2 Hfind Hlock Hact Hpw).
  split; reflexivity.
Qed.

Lemma unknown_user_and_wrong_password_look_alike_witness :
  fst (AuthService.authenticateUser Scenario.env Scenario.bcrypt
         "mallory" "guess" Scenario.world)
  = fst (AuthService.authenticateUser Scenario.env Scenario.bcrypt
           "alice" "guess" Scenario.world).
Proof.
  exact (proj1 (@unknown_user_and_wrong_password_look_alike Scenario.env
                  Scenario.bcrypt "mallory" "guess" Scenario.world
                  "alice" "guess" Scenario.world Scenario.alice
                  eq_refl eq_refl eq_refl eq_refl eq_refl eq_refl eq_refl)).
Defined.

(** C7 as stated fails: for the existing account [carol], whose lock has not
    elapsed, a wrong password is answered with the 'Account is locked'
    message, which the unknown name [mallory] never gets. *)
Lemma locked_account_reveals_that_it_exists :
  find (where_login "mallory") (AdminUsers Scenario.database) = None
  /\ find (where_login "carol") (AdminUsers Scenario.database) = Some Scenario.carol
  /\ Scenario.bcrypt "guess" (au_password_hash Scenario.carol) = false
  /\ fst (AuthService.authenticateUser Scenario.env Scenario.bcrypt
            "mallory" "guess" Scenario.world)
     = Ok (failure "Invalid credentials")
  /\ fst (AuthService.authenticateUser Scenario.env Scenario.bcrypt
            "carol" "guess" Scenario.world)
     = Ok (failure "Account is locked. Try again in 15 minutes.")
  /\ fst (AuthService.authenticateUser Scenario.env Scenario.bcrypt
            "mallory" "guess" Scenario.world)
     <> fst (AuthService.authenticateUser Scenario.env Scenario.bcrypt
               "carol" "guess" Scenario.world).
Proof.
  repeat split; try reflexivity. vm_compute. discriminate.
Qed.

(** ** Consecutive failed attempts *)

Section ConsecutiveAttempts.
Variable env : Env.
Variable bcrypt_compare : string -> string -> bool.
Variable name : string.

Let MAX := AuthService.MAX_LOGIN_ATTEMPTS env.
Let LOCKOUT := AuthService.LOCKOUT_TIME env.

(** The password of a try is wrong for [u], and [u] is not locked when the
    try is made. *)
Let wrong_try (u : AdminUser) (tp : Z * string) : Prop :=
  bcrypt_compare (snd tp) (au_password_hash u) = false
  /\ AuthService.is_locked_at (au_locked_until_ts u) (fst tp) = false.

Lemma attempts_app (l1 l2 : list (Z * string)) (w : World) :
  attempts env bcrypt_compare name (l1 ++ l2) w
  = let (r1, w1) := attempts env bcrypt_compare name l1 w in
    let (r2, w2) := attempts env bcrypt_compare name l2 w1 in
    (r1 ++ r2, w2).
Proof.
  revert w. induction l1 as [|[t p] l1 IH]; intros w; simpl.
  - destruct (attempts env bcrypt_compare name l2 w); reflexivity.
  - destruct (attempt env bcrypt_compare name t p w) as [r w1].
    rewrite IH.
    destruct (attempts env bcrypt_compare name l1 w1) as [r1 w2].
    destruct (attempts env bcrypt_compare name l2 w2) as [r2 w3].
    reflexivity.
Qed.

Lemma attempt_wrong (t : Z) (password : string) (w : World) (u : AdminUser) :
  faults w = [] ->
  find (where_login name) (AdminUsers (db w)) = Some u ->
  au_is_active u = true ->
  wrong_try u (t, password) ->
  exists w',
    attempt env bcrypt_compare name t password w
    = (Ok (failure "Invalid credentials"), w')
    /\ faults w' = []
    /\ find (where_login name) (AdminUsers (db w'))
       = Some (record_failed_attempt MAX LOCKOUT t (au_failed_login_attempts u) u).
Proof.
  intros Hf Hfind Hact [Hpw Hlock]. unfold attempt.
  rewrite (auth_wrong_password env bcrypt_compare name password (tick t w)
             (u := u)); try assumption.
  eexists. split; [reflexivity|]. split; [reflexivity|].
  cbn [db tick now AdminUsers with_AdminUsers].
  rewrite find_sql_update by (intros x; apply where_login_record_failed_attempt).
  rewrite Hfind. cbn [option_map]. rewrite Z.eqb_refl. reflexivity.
Qed.

Lemma set_failed_login_attempts_same (u : AdminUser) (n : Z) :
  n = au_failed_login_attempts u -> set_failed_login_attempts n u = u.
Proof. intros ->. destruct u; reflexivity. Qed.

Lemma wrong_attempts_below_max (tries : list (Z * string)) :
  forall (w : World) (u : AdminUser),
    faults w = [] ->
    find (where_login name) (AdminUsers (db w)) = Some u ->
    au_is_active u = true ->
    Forall (wrong_try u) tries ->
    au_failed_login_attempts u + Z.of_nat (List.length tries) < MAX ->
    exists w',
      attempts env bcrypt_compare name tries w
      = (repeat (Ok (failure "Invalid credentials")) (List.length tries), w')
      /\ faults w' = []
      /\ find (where_login name) (AdminUsers (db w'))
         = Some (set_failed_login_attempts
                   (au_failed_login_attempts u + Z.of_nat (List.length tries)) u).
Proof.
  induction tries as [|[t p] tries IH]; intros w u Hf Hfind Hact Hall Hlt.
  - exists w. split; [reflexivity|]. split; [exact Hf|].
    rewrite set_failed_login_attempts_same by (simpl; lia). exact Hfind.
  - inversion Hall as [|? ? Hhd Htl]; subst.
    destruct (attempt_wrong w Hf Hfind Hact Hhd) as (w1 & Hrun & Hf1 & Hfind1).
    assert (Hbelow : (au_failed_login_attempts u + 1 >=? MAX) = false).
    { rewrite Z.geb_leb. apply Z.leb_gt. simpl List.length in Hlt. lia. }
    unfold record_failed_attempt in Hfind1. rewrite Hbelow in Hfind1.
    destruct (IH w1 _ Hf1 Hfind1) as (w2 & Hrest & Hf2 & Hfind2).
    + exact Hact.
    + exact Htl.
    + simpl au_failed_login_attempts. simpl List.length in Hlt. lia.
    + exists w2. simpl attempts. rewrite Hrun, Hrest.
      split; [reflexivity|]. split; [exact Hf2|].
      rewrite Hfind2. simpl au_failed_login_attempts. f_equal.
      unfold set_failed_login_attempts. simpl. f_equal.
      simpl List.length. lia.
Qed.
End ConsecutiveAttempts.

(** C2, as the code has it. With [MAX_LOGIN_ATTEMPTS] = 5, an active account
    with no failed attempt on record and five consecutive attempts with a
    wrong password: each of the five, the fifth included, returns 'Invalid
    credentials'; the fifth stores the lock, [locked_until_ts] = its time plus
    [LOCKOUT_TIME]; it is the next attempt, made before that instant, that
    returns 'Account is locked', with ceil((locked_until - now) / 60 s)
    minutes, which is 15 for the default lockout when no time has passed. *)
Theorem fifth_wrong_attempt_locks_and_the_sixth_reports_it
    (env : Env) (bcrypt_compare : string -> string -> bool)
    (name : string) (w : World) (u : AdminUser)
    (tries : list (Z * string)) (t5 : Z) (p5 : string) :
  AuthService.MAX_LOGIN_ATTEMPTS env = 5 ->
  faults w = [] ->
  find (where_login name) (AdminUsers (db w)) = Some u ->
  au_is_active u = true ->
  au_failed_login_attempts u = 0 ->
  List.length tries = 4%nat ->
  Forall (fun tp =>
            bcrypt_compare (snd tp) (au_password_hash u) = false
            /\ AuthService.is_locked_at (au_locked_until_ts u) (fst tp) = false)
         (tries ++ [(t5, p5)]) ->
  exists w5,
    attempts env bcrypt_compare name (tries ++ [(t5, p5)]) w
    = (repeat (Ok (failure "Invalid credentials")) 5, w5)
    /\ find (where_login name) (AdminUsers (db w5))
       = Some (set_locked_until_ts (Some (t5 + AuthService.LOCKOUT_TIME env))
                 (set_failed_login_attempts 5 u))
    /\ (forall t6 p6,
          t6 < t5 + AuthService.LOCKOUT_TIME env ->
          AccountLocked
            (Math_ceil_div (t5 + AuthService.LOCKOUT_TIME env - t6) 60000)
            (fst (attempt env bcrypt_compare name t6 p6 w5)))
    /\ Math_ceil_div (AuthService.LOCKOUT_TIME (mkEnv None None)) 60000 = 15.
Proof.
  intros Hmax Hf Hfind Hact Hzero Hlen Hall.
  apply Forall_app in Hall. destruct Hall as [Hfour Hfifth].
  inversion Hfifth as [|? ? H5 _]; subst.
  destruct (@wrong_attempts_below_max env bcrypt_compare name tries w u
              Hf Hfind Hact Hfour) as (w4 & Hrun4 & Hf4 & Hfind4).
  { rewrite Hzero, Hlen, Hmax. reflexivity. }
  rewrite Hzero, Hlen in Hfind4. simpl Z.add in Hfind4.
  destruct (@attempt_wrong env bcrypt_compare name t5 p5 w4 _ Hf4 Hfind4)
    as (w5 & Hrun5 & Hf5 & Hfind5).
  { exact Hact. }
  { exact H5. }
  unfold record_failed_attempt in Hfind5. rewrite Hmax in Hfind5.
  simpl in Hfind5.
  exists w5. rewrite attempts_app, Hrun4. simpl attempts. rewrite Hrun5, Hlen.
  split; [reflexivity|]. split; [exact Hfind5|]. split; [|reflexivity].
  intros t6 p6 Hlt. unfold AccountLocked, attempt.
  rewrite (auth_locked env bcrypt_compare name p6 (tick t6 w5)
             (u := set_locked_until_ts (Some (t5 + AuthService.LOCKOUT_TIME env))
                     (set_failed_login_attempts 5 u))
             (lu := t5 + AuthService.LOCKOUT_TIME env));
    try reflexivity; assumption.
Qed.

Lemma fifth_wrong_attempt_locks_and_the_sixth_reports_it_witness :
  exists w5,
    attempts Scenario.env Scenario.bcrypt "alice" Scenario.five_wrong_tries
      Scenario.world
    = (repeat (Ok (failure "Invalid credentials")) 5, w5)
    /\ AccountLocked 15
         (fst (attempt Scenario.env Scenario.bcrypt "alice" 1045000
                 "correct horse" w5)).
Proof.
  assert (Hall : Forall (fun tp =>
            Scenario.bcrypt (snd tp) (au_password_hash Scenario.alice) = false
            /\ AuthService.is_locked_at (au_locked_until_ts Scenario.alice)
                 (fst tp) = false)
            (firstn 4 Scenario.five_wrong_tries ++ [(1040000, "letmein")]))
    by (repeat constructor).
  pose proof (@fifth_wrong_attempt_locks_and_the_sixth_reports_it
                Scenario.env Scenario.bcrypt "alice" Scenario.world
                Scenario.alice (firstn 4 Scenario.five_wrong_tries)
                1040000 "letmein"
                eq_refl eq_refl eq_refl eq_refl eq_refl eq_refl Hall)
    as (w5 & Hrun & _ & Hsixth & _).
  exists w5. split; [exact Hrun|].
  exact (Hsixth 1045000 "correct horse" eq_refl).
Defined.

(** C2 as stated fails: on [alice], active and without failed attempts, the
    fifth consecutive wrong password is answered with 'Invalid credentials',
    not with 'Account is locked'. *)
Lemma fifth_wrong_attempt_is_not_answered_AccountLocked :
  AuthService.MAX_LOGIN_ATTEMPTS Scenario.env = 5
  /\ find (where_login "alice") (AdminUsers Scenario.database) = Some Scenario.alice
  /\ au_is_active Scenario.alice = true
  /\ au_failed_login_attempts Scenario.alice = 0
  /\ Forall (fun tp => Scenario.bcrypt (snd tp) (au_password_hash Scenario.alice) = false)
       Scenario.five_wrong_tries
  /\ nth_error (fst (attempts Scenario.env Scenario.bcrypt "alice"
                       Scenario.five_wrong_tries Scenario.world)) 4
     = Some (Ok (failure "Invalid credentials"))
  /\ forall r remaining_minutes,
       nth_error (fst (attempts Scenario.env Scenario.bcrypt "alice"
                         Scenario.five_wrong_tries Scenario.world)) 4
       = Some r ->
       ~ AccountLocked remaining_minutes r.
Proof.
  repeat split; try reflexivity.
  - repeat constructor.
  - intros r m Hr Hlocked. vm_compute in Hr. injection Hr as <-.
    unfold AccountLocked, locked_message in Hlocked. simpl in Hlocked.
    discriminate.
Qed.

(** ** De-duplication *)

(** C9. A resolved identity, from [getUserById] or from [authenticateUser],
    holds no role id twice and no permission id twice, however many rows of
    the join carry the same role or permission. *)
Theorem resolved_identity_has_no_duplicate_ids (usr : AuthUser) :
  resolved_identity usr -> distinct_ids usr.
Proof.
  intros [H|[H|H]].
  - destruct H as (results & w & w' & H).
    exact (buildUserFromResults_distinct results w H).
  - destruct H as (uid & w & w' & b & H).
    destruct (getUserById_built uid w H) as (results & w1 & w2 & Hb).
    exact (buildUserFromResults_distinct results w1 Hb).
  - destruct H as (env & cmp & name & password & w & w' & res & H & Hu).
    destruct (authenticateUser_built env cmp name password w H Hu)
      as (results & w1 & w2 & Hb).
    exact (buildUserFromResults_distinct results w1 Hb).
Qed.

Lemma resolved_identity_has_no_duplicate_ids_witness :
  exists usr,
    fst (Middleware.getUserById 2 Scenario.world) = Ok (true, Some usr)
    /\ map (fun r => row_permission_id r) (select_by_id 2 Scenario.database)
       = [Some 11; Some 15; Some 11; Some 16]
    /\ map permission_id_of (permissions usr) = [11; 15; 16]
    /\ distinct_ids usr.
Proof.
  destruct (Middleware.getUserById 2 Scenario.world) as [[[b [usr|]]|e] w'] eqn:E;
    try (vm_compute in E; discriminate).
  exists usr. split.
  - vm_compute in E. injection E as <- _ _. reflexivity.
  - split; [reflexivity|]. split.
    + vm_compute in E. injection E as _ <- _. reflexivity.
    + apply resolved_identity_has_no_duplicate_ids.
      right. left. exists 2, Scenario.world, w', b. exact E.
Defined.

(** ** The two representations of the lock *)

Lemma sql_update_keeps_is_locked (cond : AdminUser -> bool) (f : AdminUser -> AdminUser)
    (us : list AdminUser) :
  (forall x, au_is_locked (f x) = au_is_locked x) ->
  map au_is_locked (sql_update cond f us) = map au_is_locked us.
Proof.
  intros Hf. unfold sql_update. rewrite map_map. apply map_ext.
  intros x. destruct (cond x); [apply Hf|reflexivity].
Qed.

Lemma handleFailedLogin_keeps_is_locked (env : Env) (userId currentAttempts : Z) (w : World) :
  map au_is_locked
    (AdminUsers (db (snd (AuthService.handleFailedLogin env userId currentAttempts w))))
  = map au_is_locked (AdminUsers (db w)).
Proof.
  unfold AuthService.handleFailedLogin.
  destruct (currentAttempts + 1 >=? AuthService.MAX_LOGIN_ATTEMPTS env);
    unfold bind, Date_now, query, update;
    destruct (faults w) as [|[|] fs]; simpl; try reflexivity;
    apply sql_update_keeps_is_locked; reflexivity.
Qed.

Lemma query_throw_db {A : Type} (q : Database -> A * Database) (w w1 : World) (e : string) :
  query q w = (Throw e, w1) -> db w1 = db w.
Proof.
  unfold query. destruct (faults w) as [|[|] fs]; intros H;
    try (destruct (q (db w)); discriminate).
  inversion H; reflexivity.
Qed.

Lemma authenticateUser_keeps_is_locked (env : Env) (cmp : string -> string -> bool)
    (name password : string) (w : World) :
  map au_is_locked
    (AdminUsers (db (snd (AuthService.authenticateUser env cmp name password w))))
  = map au_is_locked (AdminUsers (db w)).
Proof.
  unfold AuthService.authenticateUser, try_catch, bind.
  destruct (query (select (select_login name)) w) as [[rows|e] w1] eqn:Eq.
  - apply query_select_ok in Eq. destruct Eq as (-> & Hdb & _).
    destruct (select_login name (db w)) as [|r rs]; [simpl; rewrite Hdb; reflexivity|].
    unfold Date_now.
    destruct (AuthService.is_locked_at (row_locked_until_ts r) (now w1));
      [simpl; rewrite Hdb; reflexivity|].
    destruct (negb (row_is_active r)); [simpl; rewrite Hdb; reflexivity|].
    unfold AuthService.verifyPassword, ret at 1.
    destruct (negb (cmp password (string_or_empty (row_password_hash r)))).
    + pose proof (handleFailedLogin_keeps_is_locked env (row_id r)
                    (row_failed_login_attempts r) w1) as Hkeep.
      destruct (AuthService.handleFailedLogin env (row_id r)
                  (row_failed_login_attempts r) w1) as [[[]|e] w2];
        simpl in *; rewrite Hkeep, Hdb; reflexivity.
    + match goal with
      | |- context [query ?q w1] => destruct (query q w1) as [[[]|e] w2] eqn:Eu
      end.
      * apply query_update_ok in Eu. destruct Eu as (Hdb2 & _).
        simpl. rewrite Hdb2. cbn [AdminUsers with_AdminUsers].
        rewrite sql_update_keeps_is_locked by reflexivity.
        rewrite Hdb. reflexivity.
      * apply query_throw_db in Eu. simpl. rewrite Eu, Hdb. reflexivity.
  - apply query_throw_db in Eq. simpl. rewrite Eq. reflexivity.
Qed.

(** The counterpart in [UserModel] does set the flag, and by default locks
    for an hour. *)
Lemma incrementFailedLogins_sets_is_locked (env : Env) (userId : Z) (w : World) :
  faults w = [] ->
  exists w',
    UserModel.incrementFailedLogins env userId w = (Ok tt, w')
    /\ (forall x, In x (AdminUsers (db w)) -> au_id x = userId ->
          env_or (env_MAX_LOGIN_ATTEMPTS env) 5 <= au_failed_login_attempts x + 1 ->
          exists x', In x' (AdminUsers (db w'))
                     /\ au_id x' = userId
                     /\ au_failed_login_attempts x' = au_failed_login_attempts x + 1
                     /\ au_is_locked x' = true
                     /\ au_locked_until_ts x'
                        = Some (now w + env_or (env_LOCKOUT_TIME env) 3600000)).
Proof.
  intros Hf. unfold UserModel.incrementFailedLogins, bind, Date_now.
  rewrite query_no_fault by exact Hf.
  eexists. split; [reflexivity|].
  cbn [db update fst snd AdminUsers with_AdminUsers].
  intros x Hx Hid Hmax. eexists. split.
  - unfold sql_update. apply in_map. exact Hx.
  - apply Z.eqb_eq in Hid. rewrite Hid.
    assert (E : (au_failed_login_attempts x + 1
                 >=? env_or (env_MAX_LOGIN_ATTEMPTS env) 5) = true)
      by (rewrite Z.geb_leb; apply Z.leb_le; exact Hmax).
    rewrite E. apply Z.eqb_eq in Hid. repeat split; try reflexivity; exact Hid.
Qed.

Lemma isUserLocked_unflagged (v : AdminUser) (w : World) :
  au_is_locked v = false -> UserModel.isUserLocked v w = (Ok false, w).
Proof. intros H. unfold UserModel.isUserLocked. rewrite H. reflexivity. Qed.

(** C10, as amended. [handleFailedLogin], and [authenticateUser] as a whole,
    never touch [IS_LOCKED], and [UserModel.isUserLocked] answers false for
    every row whose [IS_LOCKED] is false, whatever its [LOCKED_UNTIL_TS]. So
    an account with the flag unset that the failed-attempt path of
    [AuthService] locks is refused by [authenticateUser] as locked until the
    lock time, while [UserModel.isUserLocked] reports it as not locked. *)
Theorem lock_of_AuthService_is_not_seen_by_isUserLocked
    (env : Env) (bcrypt_compare : string -> string -> bool)
    (name password : string) (w : World) (u : AdminUser) :
  faults w = [] ->
  find (where_login name) (AdminUsers (db w)) = Some u ->
  au_is_active u = true ->
  AuthService.is_locked_at (au_locked_until_ts u) (now w) = false ->
  bcrypt_compare password (au_password_hash u) = false ->
  AuthService.MAX_LOGIN_ATTEMPTS env <= au_failed_login_attempts u + 1 ->
  au_is_locked u = false ->
  (forall userId currentAttempts w0,
      map au_is_locked
        (AdminUsers (db (snd (AuthService.handleFailedLogin env userId
                                currentAttempts w0))))
      = map au_is_locked (AdminUsers (db w0)))
  /\ (forall name0 password0 w0,
        map au_is_locked
          (AdminUsers (db (snd (AuthService.authenticateUser env bcrypt_compare
                                  name0 password0 w0))))
        = map au_is_locked (AdminUsers (db w0)))
  /\ (forall v w0, au_is_locked v = false ->
        UserModel.isUserLocked v w0 = (Ok false, w0))
  /\ exists w' u',
       AuthService.authenticateUser env bcrypt_compare name password w
       = (Ok (failure "Invalid credentials"), w')
       /\ find (where_login name) (AdminUsers (db w')) = Some u'
       /\ au_locked_until_ts u' = Some (now w + AuthService.LOCKOUT_TIME env)
       /\ au_is_locked u' = false
       /\ (forall t p,
             t < now w + AuthService.LOCKOUT_TIME env ->
             AccountLocked
               (Math_ceil_div (now w + AuthService.LOCKOUT_TIME env - t) 60000)
               (fst (attempt env bcrypt_compare name t p w')))
       /\ (forall w0, UserModel.isUserLocked u' w0 = (Ok false, w0)).
Proof.
  intros Hf Hfind Hact Hlock Hpw Hmax Hflag.
  split; [intros; apply handleFailedLogin_keeps_is_locked|].
  split; [intros; apply authenticateUser_keeps_is_locked|].
  split; [intros v w0; apply isUserLocked_unflagged|].
  pose proof (auth_wrong_password env bcrypt_compare name password w
                Hf Hfind Hlock Hact Hpw) as Hrun.
  eexists. eexists. split; [exact Hrun|].
  cbn [db AdminUsers with_AdminUsers].
  rewrite find_sql_update by (intros x; apply where_login_record_failed_attempt).
  rewrite Hfind. cbn [option_map]. rewrite Z.eqb_refl.
  unfold record_failed_attempt.
  assert (E : (au_failed_login_attempts u + 1 >=? AuthService.MAX_LOGIN_ATTEMPTS env) = true)
    by (rewrite Z.geb_leb; apply Z.leb_le; exact Hmax).
  rewrite E. split; [reflexivity|]. split; [reflexivity|].
  split; [exact Hflag|]. split.
  - intros t p Hlt. unfold AccountLocked, attempt.
    rewrite (auth_locked env bcrypt_compare name p
               (tick t (mkWorld _ (now w) []))
               (u := set_locked_until_ts
                       (Some (now w + AuthService.LOCKOUT_TIME env))
                       (set_failed_login_attempts
                          (au_failed_login_attempts u + 1) u))
               (lu := now w + AuthService.LOCKOUT_TIME env));
      try reflexivity; try assumption.
    cbn [db tick AdminUsers with_AdminUsers].
    rewrite find_sql_update by (intros x; reflexivity).
    rewrite Hfind. cbn [option_map]. rewrite Z.eqb_refl. reflexivity.
  - intros w0. apply isUserLocked_unflagged. exact Hflag.
Qed.

Lemma lock_of_AuthService_is_not_seen_by_isUserLocked_witness :
  exists w' u',
    AuthService.authenticateUser Scenario.env Scenario.bcrypt "bob" "guess"
      Scenario.world
    = (Ok (failure "Invalid credentials"), w')
    /\ find (where_login "bob") (AdminUsers (db w')) = Some u'
    /\ au_locked_until_ts u' = Some 1900000
    /\ AccountLocked 15
         (fst (attempt Scenario.env Scenario.bcrypt "bob" 1000001 "hunter2" w'))
    /\ UserModel.isUserLocked u' (tick 1000001 w') = (Ok false, tick 1000001 w').
Proof.
  pose proof (@lock_of_AuthService_is_not_seen_by_isUserLocked Scenario.env
                Scenario.bcrypt "bob" "guess" Scenario.world Scenario.bob
                eq_refl eq_refl eq_refl eq_refl eq_refl)
    as H.
  destruct H as (_ & _ & _ & w' & u' & Hrun & Hfind & Hlu & _ & Hlocked & Hmodel).
  - vm_compute. discriminate.
  - reflexivity.
  - exists w', u'. split; [exact Hrun|]. split; [exact Hfind|].
    split; [exact Hlu|]. split; [exact (Hlocked 1000001 "hunter2" eq_refl)|].
    apply Hmodel.
Defined.

(** C10 as stated fails for an account whose [IS_LOCKED] is set. In the
    sample installation [UserModel.incrementFailedLogins] brings the counter
    of [bob] to 5 and flags the row, locked until 4600000. After that lock
    has run out, a wrong password given to [authenticateUser] at 5000000
    locks the account through [handleFailedLogin] until 5900000, the flag
    staying as it was. [authenticateUser] then refuses the right password
    because of the lock, and [UserModel.isUserLocked] reports the account as
    locked too. *)
Lemma flagged_account_locked_by_AuthService_is_reported_locked :
  exists w1 w2 u2,
    UserModel.incrementFailedLogins Scenario.env 2 Scenario.world = (Ok tt, w1)
    /\ AuthService.authenticateUser Scenario.env Scenario.bcrypt "bob" "guess"
         (tick 5000000 w1)
       = (Ok (failure "Invalid credentials"), w2)
    /\ find (where_login "bob") (AdminUsers (db w2)) = Some u2
    /\ au_is_locked u2 = true
    /\ au_locked_until_ts u2 = Some 5900000
    /\ fst (AuthService.authenticateUser Scenario.env Scenario.bcrypt "bob" "hunter2"
              (tick 5000001 w2))
       = Ok (failure (locked_message 15))
    /\ UserModel.isUserLocked u2 (tick 5000001 w2) = (Ok true, tick 5000001 w2).
Proof.
  eexists. eexists. eexists.
  split; [reflexivity|]. split; [vm_compute; reflexivity|].
  split; [vm_compute; reflexivity|].
  split; [reflexivity|]. split; [reflexivity|]. split; reflexivity.
Qed.

(** ** Session validation and storage faults *)

Lemma query_head_ok {A : Type} (q : Database -> A * Database) (w : World) :
  hd false (faults w) = false ->
  query q w
  = (Ok (fst (q (db w))), mkWorld (snd (q (db w))) (now w) (tl (faults w))).
Proof.
  unfold query. destruct (faults w) as [|[|] fs]; simpl; intros H;
    try discriminate; destruct (q (db w)); reflexivity.
Qed.

Lemma getInactivityTimeout_fault (userId : Z) (w : World) (fs : list bool) :
  faults w = true :: fs ->
  Middleware.getInactivityTimeout userId w = (Ok 0, mkWorld (db w) (now w) fs).
Proof.
  intros H. unfold Middleware.getInactivityTimeout, try_catch, bind.
  rewrite (query_fault _ w H). reflexivity.
Qed.

Lemma getInactivityTimeout_ok (userId : Z) (w : World) :
  hd false (faults w) = false ->
  Middleware.getInactivityTimeout userId w
  = (Ok (if truthy (Middleware.select_min_timeout userId (db w))
         then number_of (Middleware.select_min_timeout userId (db w)) * 60 * 1000
         else 0),
     mkWorld (db w) (now w) (tl (faults w))).
Proof.
  intros H. unfold Middleware.getInactivityTimeout, try_catch, bind.
  rewrite (query_head_ok _ w H). reflexivity.
Qed.

Lemma getUserById_fault (userId : Z) (w : World) (fs : list bool) :
  faults w = true :: fs ->
  Middleware.getUserById userId w = (Ok (false, None), mkWorld (db w) (now w) fs).
Proof.
  intros H. unfold Middleware.getUserById, try_catch, bind.
  rewrite (query_fault _ w H). reflexivity.
Qed.

Lemma getUserById_found (userId : Z) (w : World) (u : AdminUser) :
  hd false (faults w) = false ->
  find (where_id_active userId) (AdminUsers (db w)) = Some u ->
  exists usr,
    Middleware.getUserById userId w
    = (Ok (true, Some usr), mkWorld (db w) (now w) (tl (faults w)))
    /\ id usr = au_id u.
Proof.
  intros H Hfind. unfold Middleware.getUserById, try_catch, bind.
  rewrite (query_head_ok _ w H). unfold select. simpl fst. simpl snd.
  pose proof (select_by_id_first userId (db w)) as Hrows.
  rewrite Hfind in Hrows. destruct Hrows as (j & rest & -> & Hu).
  unfold buildUserFromResults, ret. eexists. split; [reflexivity|].
  destruct j as [[[[au ur] r] rp] p]; simpl in *; subst; reflexivity.
Qed.

Lemma getUserById_missing (userId : Z) (w : World) :
  hd false (faults w) = false ->
  find (where_id_active userId) (AdminUsers (db w)) = None ->
  Middleware.getUserById userId w
  = (Ok (false, None), mkWorld (db w) (now w) (tl (faults w))).
Proof.
  intros H Hfind. unfold Middleware.getUserById, try_catch, bind.
  rewrite (query_head_ok _ w H). unfold select. simpl fst. simpl snd.
  pose proof (select_by_id_first userId (db w)) as Hrows.
  rewrite Hfind in Hrows. rewrite Hrows. reflexivity.
Qed.

(** [requireAuth] once the timeout is known, for a session bound to a user. *)
Lemma requireAuth_bound (req : Request) (s : Session) (uid : Z) (w : World) :
  session req = Some s ->
  userId s = Some uid ->
  uid <> 0 ->
  Middleware.requireAuth req w
  = match Middleware.getInactivityTimeout uid w with
    | (Ok inactivityTimeout, w1) =>
        if (inactivityTimeout >? 0)
           && (now w1 - or_default (lastActivity s) (now w1) >? inactivityTimeout)
        then (Ok (Json 401 false "Session expired due to inactivity",
                  mkRequest None (req_user req)), w1)
        else
          match Middleware.getUserById uid w1 with
          | (Ok (true, Some usr), w2) =>
              (Ok (Next, mkRequest (Some (mkSession (Some uid) (Some (now w1))))
                           (Some usr)), w2)
          | (Ok _, w2) =>
              (Ok (Json 401 false "User not found or inactive",
                   mkRequest (Some (mkSession (Some uid) (Some (now w1))))
                     (req_user req)), w2)
          | (Throw _, w2) => (Ok (Json 500 false "Authentication error", req), w2)
          end
    | (Throw _, w1) => (Ok (Json 500 false "Authentication error", req), w1)
    end.
Proof.
  intros Hs Hu Hnz. unfold Middleware.requireAuth, try_catch, bind.
  rewrite Hs, Hu. unfold truthy, number_of.
  apply Z.eqb_neq in Hnz. rewrite Hnz. cbv beta iota delta [negb].
  destruct (Middleware.getInactivityTimeout uid w) as [[tm|e] w1]; [|reflexivity].
  unfold Date_now.
  destruct ((tm >? 0) && (now w1 - or_default (lastActivity s) (now w1) >? tm));
    [reflexivity|].
  destruct (Middleware.getUserById uid w1) as [[[[|] [usr|]]|e] w2]; reflexivity.
Qed.

(** C8. When the query of [getInactivityTimeout] fails, the timeout is taken
    to be 0, that is none: [requireAuth] does not reject the session for
    inactivity, whatever the time since its last activity, and lets the
    request through with [lastActivity] refreshed when the user resolves.
    Other storage errors are not let through: a failing query of
    [getUserById] ends the request with 401, and a failing query of
    [authenticateUser] with the failure 'Authentication failed'. *)
Theorem timeout_lookup_failure_fails_open
    (req : Request) (s : Session) (uid : Z) (w : World) (fs : list bool) :
  session req = Some s ->
  userId s = Some uid ->
  uid <> 0 ->
  faults w = true :: fs ->
  hd false fs = false ->
  Middleware.getInactivityTimeout uid w = (Ok 0, mkWorld (db w) (now w) fs)
  /\ (forall u,
        find (where_id_active uid) (AdminUsers (db w)) = Some u ->
        exists usr,
          Middleware.requireAuth req w
          = (Ok (Next,
                 mkRequest (Some (mkSession (Some uid) (Some (now w)))) (Some usr)),
             mkWorld (db w) (now w) (tl fs))
          /\ id usr = uid)
  /\ (forall resp req' w',
        Middleware.requireAuth req w = (Ok (resp, req'), w') ->
        resp <> Json 401 false "Session expired due to inactivity")
  /\ (forall w0 fs0,
        faults w0 = false :: true :: fs0 ->
        exists msg req' w',
          Middleware.requireAuth req w0 = (Ok (Json 401 false msg, req'), w'))
  /\ (forall env bcrypt_compare name password w0 fs0,
        faults w0 = true :: fs0 ->
        fst (AuthService.authenticateUser env bcrypt_compare name password w0)
        = Ok (failure "Authentication failed")).
Proof.
  intros Hs Hu Hnz Hfault Hnext.
  pose proof (getInactivityTimeout_fault uid w Hfault) as Htm.
  split; [exact Htm|]. split; [|split; [|split]].
  - intros u Hfind.
    rewrite (requireAuth_bound req w Hs Hu Hnz), Htm. simpl andb. cbv iota.
    destruct (@getUserById_found uid (mkWorld (db w) (now w) fs) u Hnext Hfind)
      as (usr & Hget & Hid).
    rewrite Hget. exists usr. split; [reflexivity|].
    rewrite Hid. apply find_some in Hfind. destruct Hfind as [_ Hw].
    unfold where_id_active in Hw. apply andb_true_iff in Hw.
    destruct Hw as [Hw _]. apply Z.eqb_eq in Hw. exact Hw.
  - intros resp req' w'.
    rewrite (requireAuth_bound req w Hs Hu Hnz), Htm. simpl andb. cbv iota.
    destruct (Middleware.getUserById uid (mkWorld (db w) (now w) fs))
      as [[[[|] [usr|]]|e] w2];
      intros H; inversion H; subst; discriminate.
  - intros w0 fs0 Hf0.
    rewrite (requireAuth_bound req w0 Hs Hu Hnz).
    rewrite getInactivityTimeout_ok by (rewrite Hf0; reflexivity).
    match goal with
    | |- context [if ?c then _ else _] => destruct c
    end; [eexists; eexists; eexists; reflexivity|].
    rewrite (@getUserById_fault uid _ fs0) by (simpl; rewrite Hf0; reflexivity).
    eexists. eexists. eexists. reflexivity.
  - intros env cmp name password w0 fs0 Hf0.
    unfold AuthService.authenticateUser, try_catch, bind.
    rewrite (query_fault _ w0 Hf0). reflexivity.
Qed.

Lemma timeout_lookup_failure_fails_open_witness :
  exists usr,
    Middleware.requireAuth (Scenario.request 1 1)
      (mkWorld Scenario.database 2000000 [true])
    = (Ok (Next, mkRequest (Some (mkSession (Some 1) (Some 2000000))) (Some usr)),
       mkWorld Scenario.database 2000000 [])
    /\ fst (Middleware.requireAuth (Scenario.request 1 1)
              (mkWorld Scenario.database 2000000 []))
       = Ok (Json 401 false "Session expired due to inactivity", mkRequest None None).
Proof.
  pose proof (@timeout_lookup_failure_fails_open (Scenario.request 1 1)
                (mkSession (Some 1) (Some 1)) 1
                (mkWorld Scenario.database 2000000 [true]) []
                eq_refl eq_refl) as H.
  destruct H as (_ & Hnext & _); try reflexivity; [discriminate|].
  destruct (Hnext Scenario.alice eq_refl) as (usr & Hrun & _).
  exists usr. split; [exact Hrun|reflexivity].
Defined.

(** ** The inactivity timeout *)

Lemma inner_join_In {A B : Type} (on : A -> B -> bool) (l : list A) (r : list B)
    (a : A) (b : B) :
  In (a, b) (inner_join on l r) <-> In a l /\ In b r /\ on a b = true.
Proof.
  unfold inner_join. rewrite in_flat_map. split.
  - intros (a' & Ha & Hin). apply in_map_iff in Hin.
    destruct Hin as (b' & Heq & Hb). inversion Heq; subst.
    apply filter_In in Hb. tauto.
  - intros (Ha & Hb & Hon). exists a. split; [exact Ha|].
    apply in_map_iff. exists b. split; [reflexivity|].
    apply filter_In. tauto.
Qed.

Lemma fold_min_spec (xs : list Z) :
  forall x,
    (fold_left Z.min xs x = x \/ In (fold_left Z.min xs x) xs)
    /\ fold_left Z.min xs x <= x
    /\ forall y, In y xs -> fold_left Z.min xs x <= y.
Proof.
  induction xs as [|a xs IH]; intros x; simpl.
  - split; [left; reflexivity|]. split; [lia|]. intros y [].
  - destruct (IH (Z.min x a)) as (Hin & Hle & Hall).
    split; [|split].
    + destruct Hin as [Hin|Hin]; [|right; right; exact Hin].
      rewrite Hin. destruct (Z.min_spec x a) as [[_ ->]|[_ ->]]; auto.
    + lia.
    + intros y [<-|Hy]; [lia|apply Hall, Hy].
Qed.

Lemma sql_min_spec (l : list Z) :
  match sql_min l with
  | None => l = []
  | Some m => In m l /\ forall y, In y l -> m <= y
  end.
Proof.
  destruct l as [|x xs]; simpl; [reflexivity|].
  destruct (fold_min_spec xs x) as (Hin & Hle & Hall). split.
  - destruct Hin as [->|Hin]; auto.
  - intros y [<-|Hy]; [exact Hle|apply Hall, Hy].
Qed.

Lemma timeout_rows_minutes (uid : Z) (d : Database) (m : Z) :
  In m (map (fun j => number_of (r_inactivity_timeout_minutes (snd j)))
          (Middleware.timeout_rows uid d))
  <-> exists r, role_timeout d uid r m.
Proof.
  unfold Middleware.timeout_rows, role_timeout, Middleware.positive_minutes.
  rewrite in_map_iff. split.
  - intros ([[au ur] r] & Hm & Hin). simpl in Hm.
    apply filter_In in Hin. destruct Hin as [Hin Hcond].
    apply inner_join_In in Hin. destruct Hin as (Hl & Hr & Hon).
    apply inner_join_In in Hl. destruct Hl as (Hau & Hur & Hon1).
    simpl in Hon. unfold on_ur in Hon1.
    apply Z.eqb_eq in Hon, Hon1.
    apply andb_true_iff in Hcond. destruct Hcond as [Hcond Hpos].
    apply andb_true_iff in Hcond. destruct Hcond as [Hid Hact].
    apply Z.eqb_eq in Hid.
    destruct (r_inactivity_timeout_minutes r) as [m'|] eqn:Em; [|discriminate].
    simpl in Hm. subst m'. apply Z.gtb_lt in Hpos.
    exists r. repeat split; try assumption.
    + exists au. auto.
    + exists ur. repeat split; [assumption|lia|assumption].
  - intros (r & (au & Hau & Hid) & (ur & Hur & Huid & Hrid) & Hr & Hact & Hm & Hpos).
    exists (au, ur, r). simpl. rewrite Hm. split; [reflexivity|].
    apply filter_In. split.
    + apply inner_join_In. split; [|split; [exact Hr|]].
      * apply inner_join_In. split; [exact Hau|]. split; [exact Hur|].
        unfold on_ur. apply Z.eqb_eq. lia.
      * simpl. apply Z.eqb_eq. exact Hrid.
    + rewrite Hact, Hm. apply Z.eqb_eq in Hid. rewrite Hid. simpl.
      apply Z.gtb_lt. exact Hpos.
Qed.

Lemma getUserById_keeps_world (uid : Z) (w w2 : World) (o : Outcome (bool * option AuthUser)) :
  faults w = [] ->
  Middleware.getUserById uid w = (o, w2) ->
  w2 = w /\ exists b ou, o = Ok (b, ou).
Proof.
  intros Hf Hg.
  assert (Hw : mkWorld (db w) (now w) (tl (faults w)) = w)
    by (rewrite Hf; simpl; rewrite <- Hf; apply world_eta).
  assert (Hhd : hd false (faults w) = false) by (rewrite Hf; reflexivity).
  destruct (find (where_id_active uid) (AdminUsers (db w))) as [u|] eqn:Efind.
  - destruct (getUserById_found uid w Hhd Efind) as (usr & Hg' & _).
    rewrite Hw, Hg in Hg'. inversion Hg'; subst. eauto.
  - pose proof (getUserById_missing uid w Hhd Efind) as Hg'.
    rewrite Hw, Hg in Hg'. inversion Hg'; subst. eauto.
Qed.

Lemma requireAuth_with_timeout (req : Request) (s : Session) (uid timeout : Z) (w : World) :
  faults w = [] ->
  session req = Some s -> userId s = Some uid -> uid <> 0 ->
  Middleware.getInactivityTimeout uid w = (Ok timeout, w) ->
  if (0 <? timeout) && (timeout <? now w - or_default (lastActivity s) (now w))
  then Middleware.requireAuth req w
       = (Ok (session_expired, mkRequest None (req_user req)), w)
  else exists resp req',
         Middleware.requireAuth req w = (Ok (resp, req'), w)
         /\ resp <> session_expired
         /\ session req' = Some (mkSession (Some uid) (Some (now w))).
Proof.
  intros Hf Hs Hu Huid Hrun.
  rewrite (requireAuth_bound req w Hs Hu Huid), Hrun.
  rewrite Z.gtb_ltb, (Z.gtb_ltb (now w - or_default (lastActivity s) (now w))).
  destruct ((0 <? timeout)
            && (timeout <? now w - or_default (lastActivity s) (now w)));
    [reflexivity|].
  destruct (Middleware.getUserById uid w) as [o w2] eqn:Eg.
  destruct (getUserById_keeps_world uid w Hf Eg) as (-> & b & ou & ->).
  destruct b, ou; eexists; eexists;
    (split; [reflexivity|split; [discriminate|reflexivity]]).
Qed.

(** What the query of [getInactivityTimeout] computes, for every database:
    the least positive value over the rows [role_timeout] describes. *)
Lemma getInactivityTimeout_least_role_timeout (uid : Z) (w : World) :
  faults w = [] ->
  exists timeout,
    Middleware.getInactivityTimeout uid w = (Ok timeout, w)
    /\ (forall r m, role_timeout (db w) uid r m -> 0 < timeout <= m * 60 * 1000)
    /\ ((exists r m, role_timeout (db w) uid r m /\ timeout = m * 60 * 1000)
        \/ ((forall r m, ~ role_timeout (db w) uid r m) /\ timeout = 0))
    /\ (forall req s,
          session req = Some s -> userId s = Some uid -> uid <> 0 ->
          if (0 <? timeout)
             && (timeout <? now w - or_default (lastActivity s) (now w))
          then Middleware.requireAuth req w
               = (Ok (session_expired, mkRequest None (req_user req)), w)
          else exists resp req',
                 Middleware.requireAuth req w = (Ok (resp, req'), w)
                 /\ resp <> session_expired
                 /\ session req' = Some (mkSession (Some uid) (Some (now w)))).
Proof.
  intros Hf.
  assert (Hw : mkWorld (db w) (now w) (tl (faults w)) = w)
    by (rewrite Hf; simpl; rewrite <- Hf; apply world_eta).
  assert (Hhd : hd false (faults w) = false) by (rewrite Hf; reflexivity).
  pose proof (getInactivityTimeout_ok uid w Hhd) as Hrun. rewrite Hw in Hrun.
  unfold Middleware.select_min_timeout in Hrun.
  pose proof (sql_min_spec
                (map (fun j => number_of (r_inactivity_timeout_minutes (snd j)))
                   (Middleware.timeout_rows uid (db w)))) as Hmin.
  pose proof (timeout_rows_minutes uid (db w)) as Hrows.
  destruct (sql_min _) as [m0|] eqn:Emin.
  - destruct Hmin as [Hin Hleast].
    apply Hrows in Hin. destruct Hin as (r0 & Hr0).
    assert (Hpos : 0 < m0) by (destruct Hr0 as (_ & _ & _ & _ & _ & H); exact H).
    assert (Hnz : (m0 =? 0) = false) by (apply Z.eqb_neq; lia).
    unfold truthy, number_of in Hrun. rewrite Hnz in Hrun.
    cbv beta iota delta [negb] in Hrun.
    exists (m0 * 60 * 1000). split; [exact Hrun|]. split; [|split].
    + intros r m Hr.
      assert (m0 <= m) by (apply Hleast, Hrows; exists r; exact Hr). lia.
    + left. exists r0, m0. split; [exact Hr0|reflexivity].
    + intros req s Hs Hu Huid.
      exact (@requireAuth_with_timeout req s uid _ w Hf Hs Hu Huid Hrun).
  - simpl in Hrun. exists 0. split; [exact Hrun|].
    assert (Hnone : forall r m, ~ role_timeout (db w) uid r m).
    { intros r m Hr.
      assert (Hin : In m (map (fun j => number_of (r_inactivity_timeout_minutes (snd j)))
                            (Middleware.timeout_rows uid (db w))))
        by (apply Hrows; exists r; exact Hr).
      rewrite Hmin in Hin. destruct Hin. }
    split; [|split].
    + intros r m Hr. destruct (Hnone r m Hr).
    + right. split; [exact Hnone|reflexivity].
    + intros req s Hs Hu Huid.
      exact (@requireAuth_with_timeout req s uid _ w Hf Hs Hu Huid Hrun).
Qed.

Lemma role_timeout_active (d : Database) (uid : Z) (r : Role) (m : Z) :
  (forall au, In au (AdminUsers d) -> au_id au = uid -> au_is_active au = true) ->
  (forall ur, In ur (UserRoles d) -> ur_user_id ur = uid -> ur_is_active ur = true) ->
  role_timeout d uid r m <-> active_role_timeout d uid r m.
Proof.
  intros Hau Hur. unfold role_timeout, active_role_timeout. split.
  - intros ((au & Hin & Hid) & (ur & Hinr & Huid & Hrid) & H).
    split; [exists au; auto|]. split; [exists ur; auto 6|exact H].
  - intros ((au & Hin & Hid & _) & (ur & Hinr & Huid & Hrid & _) & H).
    split; [exists au; auto|]. split; [exists ur; auto|exact H].
Qed.

(** C5, as amended. For an active user all of whose role assignments are
    active, the timeout of [requireAuth] is 60000 ms times the least positive
    [inactivity_timeout_minutes] among the active roles assigned to the
    user, the flag [INACTIVITY_LOCK_ENABLED] of a role playing no part; it
    is 0 when no such role has a positive value. A session is ended for
    inactivity exactly when the timeout is positive and the time since its
    last activity exceeds it; with timeout 0 it never is, however long ago
    the last activity was. *)
Theorem inactivity_timeout_is_least_positive_role_timeout (uid : Z) (w : World) :
  faults w = [] ->
  (forall au, In au (AdminUsers (db w)) -> au_id au = uid -> au_is_active au = true) ->
  (forall ur, In ur (UserRoles (db w)) -> ur_user_id ur = uid ->
              ur_is_active ur = true) ->
  exists timeout,
    Middleware.getInactivityTimeout uid w = (Ok timeout, w)
    /\ (forall r m, active_role_timeout (db w) uid r m ->
                    0 < timeout <= m * 60 * 1000)
    /\ ((exists r m, active_role_timeout (db w) uid r m /\ timeout = m * 60 * 1000)
        \/ ((forall r m, ~ active_role_timeout (db w) uid r m) /\ timeout = 0))
    /\ (forall req s,
          session req = Some s -> userId s = Some uid -> uid <> 0 ->
          if (0 <? timeout)
             && (timeout <? now w - or_default (lastActivity s) (now w))
          then Middleware.requireAuth req w
               = (Ok (session_expired, mkRequest None (req_user req)), w)
          else exists resp req',
                 Middleware.requireAuth req w = (Ok (resp, req'), w)
                 /\ resp <> session_expired
                 /\ session req' = Some (mkSession (Some uid) (Some (now w)))).
Proof.
  intros Hf Hau Hur.
  destruct (getInactivityTimeout_least_role_timeout uid w Hf)
    as (timeout & Hrun & Hle & Hmin & Hreq).
  exists timeout. split; [exact Hrun|]. split; [|split; [|exact Hreq]].
  - intros r m H. apply (Hle r m).
    apply (@role_timeout_active (db w) uid r m Hau Hur). exact H.
  - destruct Hmin as [(r & m & Hr & ->)|[Hnone ->]].
    + left. exists r, m. split; [|reflexivity].
      apply (@role_timeout_active (db w) uid r m Hau Hur). exact Hr.
    + right. split; [|reflexivity]. intros r m H. apply (Hnone r m).
      apply (@role_timeout_active (db w) uid r m Hau Hur). exact H.
Qed.

Lemma inactivity_timeout_is_least_positive_role_timeout_witness :
  Middleware.getInactivityTimeout 2 Scenario.world = (Ok (30 * 60 * 1000), Scenario.world)
  /\ active_role_timeout Scenario.database 2 Scenario.Editor 30
  /\ active_role_timeout Scenario.database 2 Scenario.Teacher 45.
Proof.
  assert (Hau : forall au, In au (AdminUsers (db Scenario.world)) ->
                           au_id au = 2 -> au_is_active au = true).
  { intros au [<-|[<-|[<-|[]]]] _; reflexivity. }
  assert (Hur : forall ur, In ur (UserRoles (db Scenario.world)) ->
                           ur_user_id ur = 2 -> ur_is_active ur = true).
  { intros ur [<-|[<-|[<-|[<-|[]]]]] E; try reflexivity; discriminate E. }
  destruct (@inactivity_timeout_is_least_positive_role_timeout 2 Scenario.world
              eq_refl Hau Hur) as (timeout & Hrun & Hle & Hmin & _).
  assert (HE : active_role_timeout Scenario.database 2 Scenario.Editor 30).
  { unfold active_role_timeout. repeat split; try reflexivity.
    - exists Scenario.bob. split; [simpl; tauto|split; reflexivity].
    - exists (mkUserRoleRow 2 3 true). simpl. tauto.
    - simpl. tauto. }
  assert (HT : active_role_timeout Scenario.database 2 Scenario.Teacher 45).
  { unfold active_role_timeout. repeat split; try reflexivity.
    - exists Scenario.bob. split; [simpl; tauto|split; reflexivity].
    - exists (mkUserRoleRow 2 4 true). simpl. tauto.
    - simpl. tauto. }
  split; [|split; assumption].
  rewrite Hrun. f_equal. f_equal.
  pose proof (Hle _ _ HE) as H1.
  destruct Hmin as [(r & m & Hr & ->)|[Hnone _]]; [|destruct (Hnone _ _ HE)].
  assert (m = 30 \/ m = 45) as [->| ->].
  { destruct Hr as (_ & _ & Hin & _ & Hm & _). simpl in Hin.
    destruct Hin as [<-|[<-|[]]]; simpl in Hm; inversion Hm; auto. }
  - reflexivity.
  - lia.
Defined.

(** C5 as stated fails: the only role of [alice], [Editor], has the
    inactivity policy disabled ([INACTIVITY_LOCK_ENABLED] = 0), yet her
    session is given a timeout of 30 minutes and is ended for inactivity once
    more than that has passed since its last activity. *)
Lemma session_expires_though_no_role_enables_the_policy :
  (forall ur r,
      In ur (UserRoles Scenario.database) -> ur_user_id ur = 1 ->
      In r (Roles Scenario.database) -> r_id r = ur_role_id ur ->
      r_inactivity_lock_enabled r = false)
  /\ Middleware.getInactivityTimeout 1 Scenario.world = (Ok 1800000, Scenario.world)
  /\ Middleware.requireAuth (Scenario.request 1 1)
       (mkWorld Scenario.database 2000000 [])
     = (Ok (Json 401 false "Session expired due to inactivity", mkRequest None None),
        mkWorld Scenario.database 2000000 []).
Proof.
  split; [|split; reflexivity].
  intros ur r Hur Hu Hr Hid. simpl in Hur, Hr.
  destruct Hur as [<-|[<-|[<-|[<-|[]]]]]; simpl in Hu, Hid; try discriminate;
    destruct Hr as [<-|[<-|[]]]; simpl in Hid; try discriminate; reflexivity.
Qed.

(** ** Revoked grants and removed assignments *)

Lemma filter_map_commute {A B : Type} (h : A -> B) (f : B -> bool) (l : list A) :
  filter f (map h l) = map h (filter (fun a => f (h a)) l).
Proof.
  induction l as [|a l IH]; simpl; [reflexivity|].
  destruct (f (h a)); simpl; rewrite IH; reflexivity.
Qed.

Lemma left_join_map {A A' B B' : Type} (hl : A -> A') (hr : B -> B')
    (on : A -> B -> bool) (on' : A' -> B' -> bool) (l : list A) (r : list B) :
  (forall a b, on' (hl a) (hr b) = on a b) ->
  left_join on' (map hl l) (map hr r)
  = map (fun x => (hl (fst x), option_map hr (snd x))) (left_join on l r).
Proof.
  intros Hon.
  induction l as [|a l IH]; [reflexivity|].
  change (map hl (a :: l)) with (hl a :: map hl l).
  rewrite (left_join_cons on' (hl a)), (left_join_cons on a), map_app, IH.
  f_equal. unfold left_join. cbn [flat_map]. rewrite !app_nil_r.
  rewrite filter_map_commute.
  rewrite (filter_ext (fun b => on' (hl a) (hr b)) (on a)) by (intros b; apply Hon).
  destruct (filter (on a) r) as [|b bs]; [reflexivity|].
  cbn [map fst snd option_map]. f_equal. rewrite !map_map. reflexivity.
Qed.

Lemma left_join_map_r {A B B' : Type} (hr : B -> B')
    (on : A -> B -> bool) (on' : A -> B' -> bool) (l : list A) (r : list B) :
  (forall a b, on' a (hr b) = on a b) ->
  left_join on' l (map hr r)
  = map (fun x => (fst x, option_map hr (snd x))) (left_join on l r).
Proof.
  intros Hon.
  pose proof (left_join_map (fun a => a) hr on on' l r Hon) as E.
  rewrite map_id in E. exact E.
Qed.

Lemma left_join_map_l {A A' B : Type} (hl : A -> A')
    (on : A -> B -> bool) (on' : A' -> B -> bool) (l : list A) (r : list B) :
  (forall a b, on' (hl a) b = on a b) ->
  left_join on' (map hl l) r
  = map (fun x => (hl (fst x), snd x)) (left_join on l r).
Proof.
  intros Hon.
  pose proof (left_join_map hl (fun b => b) on on' l r Hon) as E.
  rewrite map_id in E. rewrite E. apply map_ext.
  intros [a [b|]]; reflexivity.
Qed.

(** The join only reads the key columns of [UserRoles] and
    [RolePermissions]: rewriting their flags changes no record of the result
    set, so neither [getUserById] nor [authenticateUser] can tell a revoked
    grant or a removed assignment from a live one. *)
Lemma resolution_ignores_grant_and_assignment_flags
    (active : UserRoleRow -> bool) (granted : RolePermissionRow -> bool)
    (d : Database) :
  (forall userId, select_by_id userId (with_flags active granted d) = select_by_id userId d)
  /\ (forall name, select_login name (with_flags active granted d) = select_login name d).
Proof.
  assert (Hjoin : exists h : Joined -> Joined,
             join_from (AdminUsers d) (with_flags active granted d)
             = map h (join_from (AdminUsers d) d)
             /\ (forall j, user_of (h j) = user_of j)
             /\ (forall b j, project b (h j) = project b j)).
  { unfold join_from, with_flags.
    cbn [UserRoles Roles RolePermissions Permissions].
    rewrite (left_join_map_r _ on_ur on_ur) by reflexivity.
    rewrite (left_join_map_l _ on_r on_r)
      by (intros [au [ur|]] r; reflexivity).
    rewrite (left_join_map _ _ on_rp on_rp)
      by (intros [[au ur] [r|]] rp; reflexivity).
    rewrite (left_join_map_l _ on_p on_p)
      by (intros [[[au ur] r] [rp|]] p; reflexivity).
    eexists. split; [reflexivity|].
    split; [intros [[[[au ur] r] rp] p]|intros b [[[[au ur] r] rp] p]];
      reflexivity. }
  destruct Hjoin as (h & Hjoin & Huser & Hproj).
  split; intros x; unfold select_by_id, select_login;
    change (AdminUsers (with_flags active granted d)) with (AdminUsers d);
    rewrite Hjoin, filter_map_commute, map_map.
  - rewrite (filter_ext (fun a => where_id_active x (user_of (h a)))
               (fun j => where_id_active x (user_of j)))
      by (intros j; rewrite Huser; reflexivity).
    apply map_ext. intros j. apply Hproj.
  - rewrite (filter_ext (fun a => where_login x (user_of (h a)))
               (fun j => where_login x (user_of j)))
      by (intros j; rewrite Huser; reflexivity).
    apply map_ext. intros j. apply Hproj.
Qed.


(** C1 at a failing input. In the sample installation the grant of
    [news.publish] to [Editor] is revoked ([IS_GRANTED] = 0) and the only
    assignment of [carol], to [Teacher], is inactive. [UserModel.getUserPermissions]
    leaves both out, but the identity resolved by [getUserById] and by
    [authenticateUser] still holds the revoked permission for [alice] and
    the role and its permissions for [carol]; and after
    [removeRoleFromUser] has deactivated the assignment of [alice] to
    [Editor], the next [getUserById] still returns that role. *)
Theorem revoked_grant_and_removed_role_still_resolved :
  (forall rp, In rp (RolePermissions Scenario.database) ->
              rp_permission_id rp = 15 -> rp_is_granted rp = false)
  /\ (forall ur, In ur (UserRoles Scenario.database) ->
                 ur_user_id ur = 3 -> ur_is_active ur = false)
  /\ UserModel.getUserPermissions 1 Scenario.world
     = (Ok ["news.create"], Scenario.world)
  /\ UserModel.getUserPermissions 3 Scenario.world = (Ok [], Scenario.world)
  /\ (exists usr,
        fst (Middleware.getUserById 1 Scenario.world) = Ok (true, Some usr)
        /\ AuthService.hasPermission usr "news.publish" = true)
  /\ (exists usr,
        fst (AuthService.authenticateUser Scenario.env Scenario.bcrypt
               "alice" "correct horse" Scenario.world)
        = Ok (mkAuthResult true (Some usr) None)
        /\ AuthService.hasPermission usr "news.publish" = true)
  /\ (exists usr,
        fst (Middleware.getUserById 3 Scenario.world) = Ok (true, Some usr)
        /\ AuthService.hasRole usr ["Teacher"] = true
        /\ AuthService.hasPermission usr "events.create" = true)
  /\ (exists w1 usr,
        RoleService.removeRoleFromUser 3 1 Scenario.world = (Ok (true, None), w1)
        /\ (forall ur, In ur (UserRoles (db w1)) ->
                       ur_user_id ur = 1 -> ur_is_active ur = false)
        /\ fst (Middleware.getUserById 1 w1) = Ok (true, Some usr)
        /\ AuthService.hasRole usr ["Editor"] = true
        /\ UserModel.getUserPermissions 1 w1 = (Ok [], w1)).
Proof.
  split.
  { intros rp Hin Hid. simpl in Hin.
    destruct Hin as [<-|[<-|[<-|[<-|[]]]]]; simpl in Hid; try discriminate;
      reflexivity. }
  split.
  { intros ur Hin Hid. simpl in Hin.
    destruct Hin as [<-|[<-|[<-|[<-|[]]]]]; simpl in Hid; try discriminate;
      reflexivity. }
  split; [reflexivity|]. split; [reflexivity|].
  split; [eexists; split; reflexivity|].
  split; [eexists; split; reflexivity|].
  split; [eexists; split; [reflexivity|split; reflexivity]|].
  eexists. eexists. split; [reflexivity|]. split.
  { intros ur Hin Hid. simpl in Hin.
    destruct Hin as [<-|[<-|[<-|[<-|[]]]]]; simpl in Hid; try discriminate;
      reflexivity. }
  split; [reflexivity|]. split; reflexivity.
Qed.

(** * Further properties of the code *)

(** ** What the resolution returns *)

Lemma left_join_Some {A B : Type} (on : A -> B -> bool) (l : list A) (r : list B)
    (a : A) (b : B) :
  In (a, Some b) (left_join on l r) <-> In a l /\ In b r /\ on a b = true.
Proof.
  unfold left_join. rewrite in_flat_map. split.
  - intros [a' [Ha Hx]].
    destruct (filter (on a') r) as [|b' ms] eqn:E.
    + destruct Hx as [Hx|[]]. discriminate.
    + apply in_map_iff in Hx. destruct Hx as [b'' [Heq Hin]].
      inversion Heq; subst. rewrite <- E in Hin.
      apply filter_In in Hin. tauto.
  - intros (Ha & Hb & Hon). exists a. split; [exact Ha|].
    assert (Hin : In b (filter (on a) r)) by (apply filter_In; tauto).
    destruct (filter (on a) r) as [|b' ms]; [destruct Hin|].
    apply in_map_iff. exists b. tauto.
Qed.

Lemma left_join_total {A B : Type} (on : A -> B -> bool) (l : list A) (r : list B)
    (a : A) :
  In a l -> exists ob, In (a, ob) (left_join on l r).
Proof.
  intros Ha. unfold left_join.
  destruct (filter (on a) r) as [|b ms] eqn:E.
  - exists None. apply in_flat_map. exists a. split; [exact Ha|].
    rewrite E. left. reflexivity.
  - exists (Some b). apply in_flat_map. exists a. split; [exact Ha|].
    rewrite E. left. reflexivity.
Qed.

Lemma JsMap_has_true {V : Type} (m : JsMap.t V) (k : Z) :
  JsMap.has m k = true -> In k (JsMap.keys m).
Proof.
  unfold JsMap.has, JsMap.keys. intros H. apply existsb_exists in H.
  destruct H as ([k' v] & Hin & Hk). simpl in Hk. apply Z.eqb_eq in Hk. subst.
  apply in_map_iff. exists (k, v). auto.
Qed.

Section MapKeys.
Context {V : Type}.
Variable key_of : Row -> option Z.
Variable value_of : Z -> Row -> V.

(** The shape shared by [add_role] and [add_permission]. *)
Let add (m : JsMap.t V) (row : Row) : JsMap.t V :=
  match key_of row with
  | Some k =>
      if truthy (Some k) && negb (JsMap.has m k)
      then JsMap.set m k (value_of k row)
      else m
  | None => m
  end.

Lemma add_keys (m : JsMap.t V) (row : Row) (k : Z) :
  In k (JsMap.keys (add m row))
  <-> In k (JsMap.keys m) \/ (key_of row = Some k /\ k <> 0).
Proof.
  unfold add. destruct (key_of row) as [k0|] eqn:Ek.
  - unfold truthy. destruct (k0 =? 0) eqn:Ez; simpl.
    + apply Z.eqb_eq in Ez. split; [tauto|].
      intros [H|[H Hnz]]; [exact H|]. inversion H; subst. contradiction.
    + apply Z.eqb_neq in Ez. destruct (JsMap.has m k0) eqn:Eh; simpl.
      * split; [tauto|]. intros [H|[H _]]; [exact H|].
        inversion H; subst. apply JsMap_has_true. exact Eh.
      * rewrite JsMap_set_absent by exact Eh.
        unfold JsMap.keys. rewrite map_app, in_app_iff. simpl. split.
        -- intros [H|[<-|[]]]; auto.
        -- intros [H|[H _]]; [auto|]. inversion H; subst. auto.
  - split; [tauto|]. intros [H|[H _]]; [exact H|discriminate].
Qed.

Lemma fold_add_keys (rows : list Row) :
  forall (m : JsMap.t V) (k : Z),
    In k (JsMap.keys (fold_left add rows m))
    <-> In k (JsMap.keys m)
        \/ exists row, In row rows /\ key_of row = Some k /\ k <> 0.
Proof.
  induction rows as [|row rows IH]; intros m k; simpl.
  - split; [tauto|]. intros [H|(row & [] & _)]. exact H.
  - rewrite IH, add_keys. split.
    + intros [[H|H]|(row' & Hin & Hk)]; [tauto| |].
      * right. exists row. tauto.
      * right. exists row'. tauto.
    + intros [H|(row' & [<-|Hin] & Hk)]; [tauto|tauto|].
      right. exists row'. tauto.
Qed.
End MapKeys.

Lemma buildUserFromResults_ids (results : list Row) (w w' : World) (usr : AuthUser) :
  buildUserFromResults results w = (Ok usr, w') ->
  (forall k, In k (map role_id_of (roles usr))
             <-> exists row, In row results /\ row_role_id row = Some k /\ k <> 0)
  /\ (forall k, In k (map permission_id_of (permissions usr))
                <-> exists row, In row results /\ row_permission_id row = Some k
                                /\ k <> 0).
Proof.
  destruct results as [|r rs]; [discriminate|].
  unfold buildUserFromResults, ret. intros H. inversion H; subst; clear H.
  cbn [roles permissions].
  pose proof (fold_left_invariant (keyed role_id_of) add_role (r :: rs)
                add_role_keyed _ (keyed_empty role_id_of)) as [_ Hr].
  pose proof (fold_left_invariant (keyed permission_id_of) add_permission (r :: rs)
                add_permission_keyed _ (keyed_empty permission_id_of)) as [_ Hp].
  simpl fold_left in Hr, Hp. rewrite Hr, Hp. split; intros k.
  - pose proof (fold_add_keys row_role_id
                  (fun k row => mkUserRole k (string_or_empty (row_role_name row))
                                  (row_role_description row))
                  (r :: rs) JsMap.empty k) as H.
    simpl fold_left in H. unfold add_role. rewrite H. simpl. tauto.
  - pose proof (fold_add_keys row_permission_id
                  (fun k row => mkPermission k
                                  (string_or_empty (row_permission_name row))
                                  (row_permission_description row))
                  (r :: rs) JsMap.empty k) as H.
    simpl fold_left in H. unfold add_permission. rewrite H. simpl. tauto.
Qed.

Lemma joined_role (us : list AdminUser) (d : Database) (au : AdminUser) (r : Role) :
  (exists our orp op, In (au, our, Some r, orp, op) (join_from us d))
  <-> In au us
      /\ exists ur, In ur (UserRoles d) /\ au_id au = ur_user_id ur
                    /\ In r (Roles d) /\ ur_role_id ur = r_id r
                    /\ r_is_active r = true.
Proof.
  unfold join_from. split.
  - intros (our & orp & op & H).
    apply left_join_fst in H. apply left_join_fst in H. simpl in H.
    apply left_join_Some in H. destruct H as (H1 & Hr & Hon).
    destruct our as [ur|]; [|discriminate].
    apply left_join_Some in H1. destruct H1 as (Hau & Hur & Hon1).
    unfold on_r, on_some in Hon. simpl in Hon.
    apply andb_true_iff in Hon. destruct Hon as [Hid Hact].
    apply Z.eqb_eq in Hid. apply Z.eqb_eq in Hon1.
    split; [exact Hau|]. exists ur. tauto.
  - intros (Hau & ur & Hur & Hid & Hr & Hrid & Hact).
    assert (H1 : In (au, Some ur) (left_join on_ur us (UserRoles d))).
    { apply left_join_Some. split; [exact Hau|]. split; [exact Hur|].
      apply Z.eqb_eq. exact Hid. }
    assert (H2 : In (au, Some ur, Some r)
                   (left_join on_r (left_join on_ur us (UserRoles d)) (Roles d))).
    { apply left_join_Some. split; [exact H1|]. split; [exact Hr|].
      unfold on_r, on_some. simpl. rewrite Hact.
      apply Z.eqb_eq in Hrid. rewrite Hrid. reflexivity. }
    destruct (left_join_total on_rp _ (RolePermissions d) _ H2) as [orp H3].
    destruct (left_join_total on_p _ (Permissions d) _ H3) as [op H4].
    exists (Some ur), orp, op. exact H4.
Qed.

Lemma joined_permission (us : list AdminUser) (d : Database) (au : AdminUser)
    (p : PermissionRow) :
  (exists our or orp, In (au, our, or, orp, Some p) (join_from us d))
  <-> exists r rp,
        (exists our orp op, In (au, our, Some r, orp, op) (join_from us d))
        /\ In rp (RolePermissions d) /\ r_id r = rp_role_id rp
        /\ In p (Permissions d) /\ rp_permission_id rp = p_id p
        /\ p_is_active p = true.
Proof.
  unfold join_from. split.
  - intros (our & or & orp & H).
    apply left_join_Some in H. destruct H as (H3 & Hp & Hon).
    destruct orp as [rp|]; [|discriminate].
    unfold on_p, on_some in Hon. simpl in Hon.
    apply andb_true_iff in Hon. destruct Hon as [Hpid Hact].
    apply Z.eqb_eq in Hpid.
    pose proof H3 as H3'.
    apply left_join_Some in H3. destruct H3 as (H2 & Hrp & Hon).
    destruct or as [r|]; [|discriminate].
    unfold on_rp, on_some in Hon. simpl in Hon. apply Z.eqb_eq in Hon.
    exists r, rp. split; [|tauto].
    destruct (left_join_total on_p _ (Permissions d) _ H3') as [op H4].
    exists our, (Some rp), op. exact H4.
  - intros (r & rp & (our & orp & op & H) & Hrp & Hrid & Hp & Hpid & Hact).
    apply left_join_fst in H. apply left_join_fst in H. simpl in H.
    assert (H3 : In (au, our, Some r, Some rp)
                   (left_join on_rp
                      (left_join on_r (left_join on_ur us (UserRoles d)) (Roles d))
                      (RolePermissions d))).
    { apply left_join_Some. split; [exact H|]. split; [exact Hrp|].
      unfold on_rp, on_some. simpl. apply Z.eqb_eq. exact Hrid. }
    exists our, (Some r), (Some rp).
    apply left_join_Some. split; [exact H3|]. split; [exact Hp|].
    unfold on_p, on_some. simpl. rewrite Hact.
    apply Z.eqb_eq in Hpid. rewrite Hpid. reflexivity.
Qed.

Lemma select_by_id_role (uid : Z) (d : Database) (k : Z) :
  (exists row, In row (select_by_id uid d) /\ row_role_id row = Some k)
  <-> exists r, role_reached d uid r /\ r_id r = k.
Proof.
  unfold select_by_id, role_reached. split.
  - intros (row & Hin & Hk). apply in_map_iff in Hin.
    destruct Hin as ([[[[au our] or] orp] op] & <- & Hj).
    apply filter_In in Hj. destruct Hj as [Hj Hw]. simpl in Hw, Hk.
    destruct or as [r|]; [|discriminate]. simpl in Hk. inversion Hk; subst.
    assert (H : exists our orp op,
               In (au, our, Some r, orp, op) (join_from (AdminUsers d) d))
      by eauto.
    apply joined_role in H.
    destruct H as (Hau & ur & Hur & Hid & Hr & Hrid & Hact).
    unfold where_id_active in Hw. apply andb_true_iff in Hw.
    destruct Hw as [Hu Ha]. apply Z.eqb_eq in Hu.
    exists r. split; [|reflexivity]. exists au, ur.
    repeat split; try assumption; lia.
  - intros (r & (au & ur & Hau & Hid & Ha & Hur & Huid & Hr & Hrid & Hact) & <-).
    destruct (proj2 (joined_role (AdminUsers d) d au r)) as (our & orp & op & Hj).
    { split; [exact Hau|]. exists ur. repeat split; try assumption; lia. }
    exists (project false (au, our, Some r, orp, op)). split; [|reflexivity].
    apply in_map. apply filter_In. split; [exact Hj|].
    simpl. unfold where_id_active. rewrite Ha.
    apply Z.eqb_eq in Hid. rewrite Hid. reflexivity.
Qed.

Lemma select_by_id_permission (uid : Z) (d : Database) (k : Z) :
  (exists row, In row (select_by_id uid d) /\ row_permission_id row = Some k)
  <-> exists p, permission_reached d uid p /\ p_id p = k.
Proof.
  unfold select_by_id, permission_reached, role_reached. split.
  - intros (row & Hin & Hk). apply in_map_iff in Hin.
    destruct Hin as ([[[[au our] or] orp] op] & <- & Hj).
    apply filter_In in Hj. destruct Hj as [Hj Hw]. simpl in Hw, Hk.
    destruct op as [p|]; [|discriminate]. simpl in Hk. inversion Hk; subst.
    assert (H : exists our or orp,
               In (au, our, or, orp, Some p) (join_from (AdminUsers d) d))
      by eauto.
    apply joined_permission in H.
    destruct H as (r & rp & Hrole & Hrp & Hrid & Hp & Hpid & Hact).
    apply joined_role in Hrole.
    destruct Hrole as (Hau & ur & Hur & Hid & Hr & Hurid & Hract).
    unfold where_id_active in Hw. apply andb_true_iff in Hw.
    destruct Hw as [Hu Ha]. apply Z.eqb_eq in Hu.
    exists p. split; [|reflexivity]. exists r, rp.
    split; [exists au, ur; repeat split; try assumption; lia|].
    repeat split; try assumption; lia.
  - intros (p & (r & rp & (au & ur & Hau & Hid & Ha & Hur & Huid & Hr & Hrid & Hact)
                 & Hrp & Hrpid & Hp & Hpid & Hpact) & <-).
    destruct (proj2 (joined_permission (AdminUsers d) d au p))
      as (our & or & orp & Hj).
    { exists r, rp. split.
      - apply joined_role. split; [exact Hau|]. exists ur.
        repeat split; try assumption; lia.
      - repeat split; try assumption; lia. }
    exists (project false (au, our, or, orp, Some p)). split; [|reflexivity].
    apply in_map. apply filter_In. split; [exact Hj|].
    simpl. unfold where_id_active. rewrite Ha.
    apply Z.eqb_eq in Hid. rewrite Hid. reflexivity.
Qed.

Lemma getUserById_rows (uid : Z) (w w' : World) (b : bool) (usr : AuthUser) :
  Middleware.getUserById uid w = (Ok (b, Some usr), w') ->
  exists w1, buildUserFromResults (select_by_id uid (db w)) w1 = (Ok usr, w1).
Proof.
  unfold Middleware.getUserById, try_catch, bind.
  destruct (query (select (select_by_id uid)) w) as [[rows|e] w1] eqn:Eq.
  - apply query_select_ok in Eq. destruct Eq as (-> & _ & _).
    destruct (select_by_id uid (db w)) as [|r rs].
    + unfold ret. intros H. inversion H.
    + unfold buildUserFromResults, ret. intros H. inversion H; subst.
      exists w'. reflexivity.
  - unfold ret. intros H. inversion H.
Qed.

Lemma getUserById_resolves_ids (uid : Z) (w w' : World) (b : bool) (usr : AuthUser) :
  Middleware.getUserById uid w = (Ok (b, Some usr), w') ->
  (forall k, In k (map role_id_of (roles usr))
             <-> k <> 0 /\ exists r, role_reached (db w) uid r /\ r_id r = k)
  /\ (forall k, In k (map permission_id_of (permissions usr))
                <-> k <> 0 /\ exists p, permission_reached (db w) uid p
                                        /\ p_id p = k).
Proof.
  intros H. destruct (getUserById_rows uid w H) as (w1 & Hb).
  destruct (buildUserFromResults_ids _ w1 Hb) as [Hr Hp].
  split; intros k.
  - rewrite Hr, <- select_by_id_role. split.
    + intros (row & Hin & Hk & Hnz). split; [exact Hnz|eauto].
    + intros (Hnz & row & Hin & Hk). eauto.
  - rewrite Hp, <- select_by_id_permission. split.
    + intros (row & Hin & Hk & Hnz). split; [exact Hnz|eauto].
    + intros (Hnz & row & Hin & Hk). eauto.
Qed.

(** X1. The identity [getUserById] resolves holds exactly the non-zero ids
    of the active roles that a [UserRoles] row of the user points to, and
    exactly the non-zero ids of the active permissions that a
    [RolePermissions] row attaches to one of these roles; the flags
    [IS_ACTIVE] of the assignment and [IS_GRANTED] of the grant play no
    part. *)
Theorem getUserById_resolves_exactly_the_reached_ids
    (uid : Z) (w w' : World) (b : bool) (usr : AuthUser) :
  Middleware.getUserById uid w = (Ok (b, Some usr), w') ->
  (forall k, In k (map role_id_of (roles usr))
             <-> k <> 0 /\ exists r, role_reached (db w) uid r /\ r_id r = k)
  /\ (forall k, In k (map permission_id_of (permissions usr))
                <-> k <> 0 /\ exists p, permission_reached (db w) uid p
                                        /\ p_id p = k).
Proof. apply getUserById_resolves_ids. Qed.

Lemma getUserById_resolves_exactly_the_reached_ids_witness :
  exists usr,
    fst (Middleware.getUserById 3 Scenario.world) = Ok (true, Some usr)
    /\ (In 4 (map role_id_of (roles usr))
        <-> 4 <> 0 /\ exists r, role_reached Scenario.database 3 r /\ r_id r = 4).
Proof.
  destruct (Middleware.getUserById 3 Scenario.world) as [[[b [usr|]]|e] w'] eqn:E;
    try (vm_compute in E; discriminate).
  exists usr. split.
  - vm_compute in E. injection E as <- _ _. reflexivity.
  - exact (proj1 (@getUserById_resolves_exactly_the_reached_ids 3 Scenario.world
                    w' b usr E) 4).
Defined.

(** ** Guards *)

Lemma select_by_id_permission_row (uid : Z) (d : Database) (row : Row) (k : Z) :
  In row (select_by_id uid d) -> row_permission_id row = Some k ->
  exists p, permission_reached d uid p /\ p_id p = k
            /\ row_permission_name row = Some (p_permission_name p).
Proof.
  unfold select_by_id, permission_reached, role_reached.
  intros Hin Hk. apply in_map_iff in Hin.
  destruct Hin as ([[[[au our] or] orp] op] & <- & Hj).
  apply filter_In in Hj. destruct Hj as [Hj Hw]. simpl in Hw, Hk.
  destruct op as [p|]; [|discriminate]. simpl in Hk. inversion Hk; subst.
  assert (H : exists our or orp,
             In (au, our, or, orp, Some p) (join_from (AdminUsers d) d))
    by eauto.
  apply joined_permission in H.
  destruct H as (r & rp & Hrole & Hrp & Hrid & Hp & Hpid & Hact).
  apply joined_role in Hrole.
  destruct Hrole as (Hau & ur & Hur & Hid & Hr & Hurid & Hract).
  unfold where_id_active in Hw. apply andb_true_iff in Hw.
  destruct Hw as [Hu Ha]. apply Z.eqb_eq in Hu.
  exists p. split; [|split; reflexivity]. exists r, rp.
  split; [exists au, ur; repeat split; try assumption; lia|].
  repeat split; try assumption; lia.
Qed.

(** Every permission of the [Map] was taken from a record of the result. *)
Lemma fold_add_permission_from_rows (rows0 rows : list Row) :
  forall m : JsMap.t Permission,
    (forall row, In row rows -> In row rows0) ->
    (forall v, In v (JsMap.values m) ->
       exists row, In row rows0
                   /\ row_permission_id row = Some (permission_id_of v)
                   /\ permissionName v = string_or_empty (row_permission_name row)) ->
    forall v, In v (JsMap.values (fold_left add_permission rows m)) ->
      exists row, In row rows0
                  /\ row_permission_id row = Some (permission_id_of v)
                  /\ permissionName v = string_or_empty (row_permission_name row).
Proof.
  induction rows as [|row rows IH]; intros m Hincl Hm; [exact Hm|].
  simpl. apply IH; [intros r Hr; apply Hincl; right; exact Hr|].
  intros v Hv. unfold add_permission in Hv.
  destruct (row_permission_id row) as [pid|] eqn:Ek; [|apply Hm, Hv].
  destruct (truthy (Some pid) && negb (JsMap.has m pid)) eqn:Ec; [|apply Hm, Hv].
  apply andb_true_iff in Ec. destruct Ec as [_ Eh].
  apply negb_true_iff in Eh.
  rewrite JsMap_set_absent in Hv by exact Eh.
  unfold JsMap.values in Hv. rewrite map_app, in_app_iff in Hv.
  destruct Hv as [Hv|[<-|[]]]; [apply Hm, Hv|].
  exists row. split; [apply Hincl; left; reflexivity|]. split; [exact Ek|reflexivity].
Qed.

Lemma hasPermission_reached (uid : Z) (w w' : World) (b : bool) (usr : AuthUser)
    (name : string) :
  Middleware.getUserById uid w = (Ok (b, Some usr), w') ->
  AuthService.hasPermission usr name = true ->
  exists p, permission_reached (db w) uid p /\ p_permission_name p = name.
Proof.
  intros H Hhas. destruct (getUserById_rows uid w H) as (w1 & Hb).
  unfold AuthService.hasPermission in Hhas. apply existsb_exists in Hhas.
  destruct Hhas as (v & Hv & Hname). apply String.eqb_eq in Hname.
  destruct (select_by_id uid (db w)) as [|r rs] eqn:Erows; [discriminate|].
  unfold buildUserFromResults, ret in Hb. inversion Hb; subst usr; clear Hb.
  cbn [permissions] in Hv.
  destruct (fold_add_permission_from_rows (r :: rs) (r :: rs) JsMap.empty
              (fun _ Hin => Hin)
              (fun v (Hin : In v (JsMap.values JsMap.empty)) => match Hin with end)
              v Hv) as (row & Hin & Hk & Hn).
  rewrite <- Erows in Hin.
  destruct (select_by_id_permission_row uid (db w) row Hin Hk)
    as (p & Hp & _ & Hrow).
  exists p. split; [exact Hp|]. rewrite Hrow in Hn. simpl in Hn. congruence.
Qed.

Lemma getInactivityTimeout_reads_only (uid : Z) (w : World) :
  exists timeout w1,
    Middleware.getInactivityTimeout uid w = (Ok timeout, w1) /\ db w1 = db w.
Proof.
  unfold Middleware.getInactivityTimeout, try_catch, bind, query, select, ret.
  destruct (faults w) as [|[|] fs]; eexists; eexists; split; reflexivity.
Qed.

Lemma getUserById_reads_only (uid : Z) (w : World) :
  db (snd (Middleware.getUserById uid w)) = db w.
Proof.
  unfold Middleware.getUserById, try_catch, bind.
  destruct (query (select (select_by_id uid)) w) as [[rows|e] w1] eqn:Eq.
  - apply query_select_ok in Eq. destruct Eq as (_ & Hdb & _).
    destruct rows as [|r rs]; simpl; exact Hdb.
  - apply query_throw_db in Eq. simpl. exact Eq.
Qed.

(** A request that [requireAuth] lets through carries a bound session and
    the identity that [getUserById] resolved on the unchanged database. *)
Lemma requireAuth_Next (req req' : Request) (w w' : World) :
  Middleware.requireAuth req w = (Ok (Next, req'), w') ->
  exists s uid usr w0,
    session req = Some s /\ userId s = Some uid /\ uid <> 0
    /\ db w0 = db w /\ db w' = db w
    /\ Middleware.getUserById uid w0 = (Ok (true, Some usr), w')
    /\ req_user req' = Some usr
    /\ session req' = Some (mkSession (Some uid) (Some (now w0))).
Proof.
  intros H.
  destruct (session req) as [s|] eqn:Es.
  2:{ unfold Middleware.requireAuth, try_catch, bind, throw in H.
      rewrite Es in H. inversion H. }
  destruct (userId s) as [uid|] eqn:Eu.
  2:{ unfold Middleware.requireAuth, try_catch, bind, ret in H.
      rewrite Es, Eu in H. simpl in H. inversion H. }
  destruct (Z.eq_dec uid 0) as [->|Hnz].
  { unfold Middleware.requireAuth, try_catch, bind, ret in H.
    rewrite Es, Eu in H. simpl in H. inversion H. }
  rewrite (requireAuth_bound req w Es Eu Hnz) in H.
  destruct (getInactivityTimeout_reads_only uid w) as (tm & w1 & Htm & Hdb1).
  rewrite Htm in H.
  destruct ((tm >? 0) && (now w1 - or_default (lastActivity s) (now w1) >? tm));
    [inversion H|].
  pose proof (getUserById_reads_only uid w1) as Hdb2.
  destruct (Middleware.getUserById uid w1) as [[[[|] [usr|]]|e] w2] eqn:Eg;
    inversion H; subst.
  exists s, uid, usr, w1. simpl in Hdb2.
  repeat split; try assumption; try reflexivity. congruence.
Qed.

(** X2. A request passes [requireAuth] followed by
    [requirePermission(name)] only if the session is bound to a user and an
    active permission named exactly [name] is attached to an active role
    assigned to that active user; both guards leave the database as it
    was. *)
Theorem guards_let_through_only_reached_permissions
    (name : string) (req req' : Request) (w w' : World) :
  Middleware.guarded (Middleware.requirePermission name) req w
  = (Ok (Next, req'), w') ->
  db w' = db w
  /\ exists s uid p,
       session req = Some s /\ userId s = Some uid /\ uid <> 0
       /\ permission_reached (db w) uid p
       /\ p_permission_name p = name.
Proof.
  unfold Middleware.guarded, bind.
  destruct (Middleware.requireAuth req w) as [[[resp req1]|e] w1] eqn:Ea;
    [|intros H; inversion H].
  destruct resp as [st ok msg|]; [unfold ret; intros H; inversion H|].
  unfold ret. intros H. inversion H; subst; clear H.
  destruct (requireAuth_Next req w Ea)
    as (s & uid & usr & w0 & Hs & Hu & Hnz & Hdb0 & Hdb & Hget & Husr & _).
  split; [exact Hdb|]. exists s, uid.
  match goal with
  | H : Middleware.requirePermission name req' = Next |- _ => rename H into Hperm
  end.
  unfold Middleware.requirePermission in Hperm. rewrite Husr in Hperm.
  destruct (AuthService.hasPermission usr name) eqn:Ehas; [|discriminate].
  destruct (hasPermission_reached uid w0 name Hget Ehas) as (p & Hp & Hn).
  exists p. rewrite Hdb0 in Hp. auto.
Qed.

Lemma guards_let_through_only_reached_permissions_witness :
  exists req' w',
    Middleware.guarded (Middleware.requirePermission "news.create")
      (Scenario.request 1 999000) Scenario.world
    = (Ok (Next, req'), w')
    /\ exists p, permission_reached Scenario.database 1 p
                 /\ p_permission_name p = "news.create".
Proof.
  destruct (Middleware.guarded (Middleware.requirePermission "news.create")
              (Scenario.request 1 999000) Scenario.world)
    as [[[[st ok msg|] req']|e] w'] eqn:E;
    try (vm_compute in E; discriminate).
  exists req', w'. split; [reflexivity|].
  destruct (@guards_let_through_only_reached_permissions "news.create"
              (Scenario.request 1 999000) req' Scenario.world w' E)
    as (_ & s & uid & p & Hs & Hu & _ & Hp & Hn).
  inversion Hs; subst s. inversion Hu; subst uid.
  exists p. split; assumption.
Defined.

(** X3. The guards of [POST /api/auth/register] ask for the permission
    'user.create'. When every name in the [Permissions] table is one of the
    names the seed script inserts (which has 'users.create'), no request
    passes them, whatever the users, roles and assignments. *)
Theorem register_guard_rejects_under_seed_permissions
    (req req' : Request) (w w' : World) (resp : Response) :
  (forall p, In p (Permissions (db w)) ->
             In (p_permission_name p) Seed.permission_names) ->
  AuthRoutes.register_guard req w = (Ok (resp, req'), w') ->
  resp <> Next.
Proof.
  intros Hseed Hrun ->.
  destruct (@guards_let_through_only_reached_permissions "user.create"
              req req' w w' Hrun)
    as (_ & s & uid & p & _ & _ & _ & Hp & Hn).
  destruct Hp as (r & rp & _ & _ & _ & Hin & _).
  apply Hseed in Hin. rewrite Hn in Hin. simpl in Hin.
  repeat (destruct Hin as [Hin|Hin]; [discriminate|]). exact Hin.
Qed.

Lemma register_guard_rejects_under_seed_permissions_witness :
  exists resp req' w',
    AuthRoutes.register_guard (Scenario.request 1 999000) Scenario.world
    = (Ok (resp, req'), w')
    /\ resp <> Next.
Proof.
  destruct (AuthRoutes.register_guard (Scenario.request 1 999000) Scenario.world)
    as [[[resp req']|e] w'] eqn:E; [|vm_compute in E; discriminate].
  exists resp, req', w'. split; [reflexivity|].
  refine (@register_guard_rejects_under_seed_permissions
            (Scenario.request 1 999000) req' Scenario.world w' resp _ E).
  intros p Hin. simpl in Hin.
  destruct Hin as [<-|[<-|[<-|[]]]]; simpl; tauto.
Defined.

(** ** What the session middleware never does *)

Lemma getUserById_never_throws (uid : Z) (w : World) :
  exists r w1, Middleware.getUserById uid w = (Ok r, w1).
Proof.
  unfold Middleware.getUserById, try_catch, bind.
  destruct (query (select (select_by_id uid)) w) as [[rows|e] w1];
    [|eexists; eexists; reflexivity].
  destruct rows as [|r rs]; eexists; eexists; reflexivity.
Qed.

(** X4. Whatever the storage does, [requireAuth] on a request that has a
    session neither throws nor answers 500: it lets the request through or
    answers 401; [optionalAuth] always hands the request on; and neither of
    them changes the database. *)
Theorem session_middleware_never_throws_nor_writes (req : Request) (w : World) :
  (session req <> None ->
   exists resp req' w',
     Middleware.requireAuth req w = (Ok (resp, req'), w')
     /\ db w' = db w
     /\ (resp = Next \/ exists msg, resp = Json 401 false msg))
  /\ (exists req' w',
        Middleware.optionalAuth req w = (Ok req', w') /\ db w' = db w).
Proof.
  split.
  - intros Hs. destruct (session req) as [s|] eqn:Es; [clear Hs|congruence].
    destruct (truthy (userId s)) eqn:Et.
    + destruct (userId s) as [uid|] eqn:Eu; [|discriminate].
      assert (Hnz : uid <> 0).
      { intros ->. simpl in Et. discriminate. }
      rewrite (requireAuth_bound req w Es Eu Hnz).
      destruct (getInactivityTimeout_reads_only uid w) as (tm & w1 & Htm & Hdb1).
      rewrite Htm.
      destruct ((tm >? 0) && (now w1 - or_default (lastActivity s) (now w1) >? tm)).
      * eexists. eexists. eexists. split; [reflexivity|]. split; [exact Hdb1|].
        right. eexists. reflexivity.
      * pose proof (getUserById_reads_only uid w1) as Hdb2.
        destruct (getUserById_never_throws uid w1) as ([b ou] & w2 & Hg).
        rewrite Hg in *. simpl in Hdb2.
        destruct b, ou; eexists; eexists; eexists;
          (split; [reflexivity|split; [congruence|]]);
          try (left; reflexivity); right; eexists; reflexivity.
    + unfold Middleware.requireAuth, try_catch, bind, ret. rewrite Es, Et. simpl.
      eexists. eexists. eexists. split; [reflexivity|]. split; [reflexivity|].
      right. eexists. reflexivity.
  - unfold Middleware.optionalAuth, try_catch, bind.
    destruct (session req) as [s|]; [|eexists; eexists; split; reflexivity].
    destruct (truthy (userId s)); [|eexists; eexists; split; reflexivity].
    pose proof (getUserById_reads_only (number_of (userId s)) w) as Hdb.
    destruct (getUserById_never_throws (number_of (userId s)) w)
      as ([b ou] & w1 & Hg).
    rewrite Hg in *. simpl in Hdb.
    destruct b, ou; eexists; eexists; (split; [reflexivity|exact Hdb]).
Qed.

Lemma session_middleware_never_throws_nor_writes_witness :
  exists resp req' w',
    Middleware.requireAuth (Scenario.request 1 999000)
      (mkWorld Scenario.database 1000000 [true; true])
    = (Ok (resp, req'), w')
    /\ db w' = Scenario.database
    /\ (resp = Next \/ exists msg, resp = Json 401 false msg).
Proof.
  refine (proj1 (@session_middleware_never_throws_nor_writes
                   (Scenario.request 1 999000)
                   (mkWorld Scenario.database 1000000 [true; true])) _).
  discriminate.
Defined.

Lemma getInactivityTimeout_at_any_time (uid t : Z) (w : World) :
  faults w = [] ->
  exists timeout,
    Middleware.getInactivityTimeout uid w = (Ok timeout, w)
    /\ Middleware.getInactivityTimeout uid (tick t w) = (Ok timeout, tick t w)
    /\ 0 <= timeout.
Proof.
  intros Hf.
  assert (Hw : mkWorld (db w) (now w) (tl (faults w)) = w)
    by (rewrite Hf; simpl; rewrite <- Hf; apply world_eta).
  pose proof (getInactivityTimeout_ok uid w) as H1.
  pose proof (getInactivityTimeout_ok uid (tick t w)) as H2.
  rewrite Hf in H1. simpl in H2. rewrite Hf in H2. simpl in H1, H2.
  specialize (H1 eq_refl). specialize (H2 eq_refl).
  rewrite Hf in Hw. simpl in Hw. rewrite Hw in H1.
  assert (Ht : mkWorld (db w) t [] = tick t w) by (unfold tick; rewrite Hf; reflexivity).
  rewrite Ht in H2.
  eexists. split; [exact H1|]. split; [exact H2|].
  pose proof (sql_min_spec
                (map (fun j => number_of (r_inactivity_timeout_minutes (snd j)))
                   (Middleware.timeout_rows uid (db w)))) as Hmin.
  unfold Middleware.select_min_timeout.
  destruct (sql_min _) as [m|]; [|simpl; lia].
  unfold truthy. destruct (m =? 0); simpl; [lia|].
  destruct Hmin as [Hin _]. apply timeout_rows_minutes in Hin.
  destruct Hin as (r & _ & _ & _ & _ & _ & Hpos). lia.
Qed.

Lemma buildUserFromResults_same (rows : list Row) (w1 w1' w2 w2' : World)
    (a b : AuthUser) :
  buildUserFromResults rows w1 = (Ok a, w1') ->
  buildUserFromResults rows w2 = (Ok b, w2') ->
  a = b.
Proof.
  destruct rows as [|r rs]; [discriminate|].
  unfold buildUserFromResults, ret. intros H1 H2.
  inversion H1. inversion H2. reflexivity.
Qed.

(** X5. [optionalAuth] does not look at the inactivity timeout: for a session
    bound to an active user it sets [lastActivity] to the current time however
    long the session has been idle. A request on which [requireAuth] would
    have ended the session for inactivity is thereby given a fresh window:
    after [optionalAuth], [requireAuth] lets it through until the timeout has
    passed again. *)
Theorem optionalAuth_refreshes_an_idle_session
    (req : Request) (s : Session) (uid : Z) (w : World) (u : AdminUser) :
  faults w = [] ->
  session req = Some s -> userId s = Some uid -> uid <> 0 ->
  find (where_id_active uid) (AdminUsers (db w)) = Some u ->
  exists usr timeout,
    Middleware.optionalAuth req w
    = (Ok (mkRequest (Some (mkSession (Some uid) (Some (now w)))) (Some usr)), w)
    /\ Middleware.getInactivityTimeout uid w = (Ok timeout, w)
    /\ forall t,
         now w <= t -> t - now w <= timeout \/ timeout = 0 ->
         Middleware.requireAuth
           (mkRequest (Some (mkSession (Some uid) (Some (now w)))) (Some usr))
           (tick t w)
         = (Ok (Next, mkRequest (Some (mkSession (Some uid) (Some t))) (Some usr)),
            tick t w).
Proof.
  intros Hf Hs Hu Hnz Hfind.
  assert (Hw : mkWorld (db w) (now w) (tl (faults w)) = w)
    by (rewrite Hf; simpl; rewrite <- Hf; apply world_eta).
  assert (Hhd : hd false (faults w) = false) by (rewrite Hf; reflexivity).
  destruct (getUserById_found uid w Hhd Hfind) as (usr & Hget & _).
  rewrite Hw in Hget.
  exists usr.
  assert (Hopt : Middleware.optionalAuth req w
                 = (Ok (mkRequest (Some (mkSession (Some uid) (Some (now w))))
                          (Some usr)), w)).
  { unfold Middleware.optionalAuth, try_catch, bind. rewrite Hs, Hu.
    unfold truthy, number_of. apply Z.eqb_neq in Hnz. rewrite Hnz.
    cbv beta iota delta [negb]. rewrite Hget. reflexivity. }
  assert (Hget_t : forall t, Middleware.getUserById uid (tick t w)
                             = (Ok (true, Some usr), tick t w)).
  { intros t.
    destruct (@getUserById_found uid (tick t w) u) as (usr' & Hget' & _);
      [simpl; rewrite Hf; reflexivity|exact Hfind|].
    destruct (getUserById_rows uid w Hget) as (w1 & Hb1).
    destruct (getUserById_rows uid (tick t w) Hget') as (w2 & Hb2).
    rewrite (buildUserFromResults_same _ _ _ Hb1 Hb2).
    rewrite Hget'. unfold tick. simpl. rewrite Hf. reflexivity. }
  destruct (getInactivityTimeout_at_any_time uid 0 w Hf) as (tm & Htm & _ & Hpos).
  exists tm. split; [exact Hopt|]. split; [exact Htm|].
  intros t Hle Hwin.
  destruct (getInactivityTimeout_at_any_time uid t w Hf) as (tm' & Htm' & Htmt & _).
  assert (tm' = tm) by congruence. subst tm'.
  rewrite (requireAuth_bound _ (tick t w)
             (s := mkSession (Some uid) (Some (now w))) (uid := uid))
    by (try reflexivity; exact Hnz).
  rewrite Htmt. simpl lastActivity. simpl now.
  assert (Hnot : ((tm >? 0) && (t - or_default (Some (now w)) t >? tm)) = false).
  { unfold or_default. apply andb_false_iff.
    destruct (now w =? 0) eqn:E0.
    - right. rewrite Z.gtb_ltb. apply Z.ltb_ge. lia.
    - destruct Hwin as [Hwin| ->].
      + right. rewrite Z.gtb_ltb. apply Z.ltb_ge. lia.
      + left. reflexivity. }
  rewrite Hnot, Hget_t. reflexivity.
Qed.

Lemma optionalAuth_refreshes_an_idle_session_witness :
  fst (Middleware.requireAuth (Scenario.request 1 1)
         (mkWorld Scenario.database 2000000 []))
  = Ok (session_expired, mkRequest None None)
  /\ exists req1 req2,
       Middleware.optionalAuth (Scenario.request 1 1)
         (mkWorld Scenario.database 2000000 [])
       = (Ok req1, mkWorld Scenario.database 2000000 [])
       /\ fst (Middleware.requireAuth req1 (mkWorld Scenario.database 2000001 []))
          = Ok (Next, req2).
Proof.
  split; [reflexivity|].
  destruct (@optionalAuth_refreshes_an_idle_session (Scenario.request 1 1)
              (mkSession (Some 1) (Some 1)) 1
              (mkWorld Scenario.database 2000000 []) Scenario.alice
              eq_refl eq_refl eq_refl) as (usr & tm & Hopt & Htm & Hnext);
    [discriminate|reflexivity|].
  assert (Htm30 : tm = 1800000) by (vm_compute in Htm; congruence).
  exists (mkRequest (Some (mkSession (Some 1) (Some 2000000))) (Some usr)),
         (mkRequest (Some (mkSession (Some 1) (Some 2000001))) (Some usr)).
  split; [exact Hopt|].
  assert (Hwin : 2000001 - 2000000 <= tm \/ tm = 0) by (left; lia).
  exact (f_equal fst (Hnext 2000001 ltac:(simpl; lia) Hwin)).
Defined.

(** ** Login and the session it opens *)

Lemma find_exists {A : Type} (P : A -> bool) (l : list A) (x : A) :
  In x l -> P x = true -> exists y, find P l = Some y.
Proof.
  intros Hin HP. destruct (find P l) as [y|] eqn:E; [eauto|].
  pose proof (find_none P l E x Hin). congruence.
Qed.


Lemma truthy_string_nonempty (x : string) : x <> EmptyString -> truthy_string (Some x) = true.
Proof. destruct x; [congruence|reflexivity]. Qed.




Lemma authenticateUser_never_throws (env : Env) (cmp : string -> string -> bool)
    (name password : string) (w : World) :
  exists res w', AuthService.authenticateUser env cmp name password w = (Ok res, w').
Proof.
  unfold AuthService.authenticateUser, try_catch.
  match goal with
  | |- context [let (_, _) := ?m w in _] => destruct (m w) as [[a|e] w1]
  end; eexists; eexists; reflexivity.
Qed.

(** X7. The login route always answers, and it touches the session only
    when it answers success: every rejected login (missing field, unknown
    name, wrong password, locked or disabled account, storage error) leaves
    the session exactly as it was; a successful one binds it to the id of
    the identity that [authenticateUser] returned. *)
Theorem login_binds_the_session_only_on_success
    (env : Env) (bcrypt_compare : string -> string -> bool)
    (body_username body_password : option string) (s : LoginSession) (w : World) :
  exists reply s' w',
    AuthRoutes.login env bcrypt_compare body_username body_password s w
    = (Ok (reply, s'), w')
    /\ (reply_success reply = false -> s' = s /\ reply_status reply <> 200)
    /\ (reply_success reply = true ->
        reply_status reply = 200
        /\ exists res usr,
             AuthService.authenticateUser env bcrypt_compare
               (string_or_empty body_username) (string_or_empty body_password) w
             = (Ok res, w')
             /\ success res = true /\ user res = Some usr
             /\ ls_userId s' = Some (id usr)
             /\ ls_lastActivity s' = Some (now w')).
Proof.
  unfold AuthRoutes.login, try_catch, bind.
  destruct (negb (truthy_string body_username) || negb (truthy_string body_password)).
  - unfold ret. eexists. eexists. eexists. split; [reflexivity|].
    split; [intros _; split; [reflexivity|discriminate]|discriminate].
  - destruct (authenticateUser_never_throws env bcrypt_compare
                (string_or_empty body_username) (string_or_empty body_password) w)
      as (res & w' & Hrun).
    rewrite Hrun. destruct (success res) eqn:Es; cbv beta iota delta [negb].
    + destruct (user res) as [usr|] eqn:Eu; unfold Date_now, ret.
      * eexists. eexists. eexists. split; [reflexivity|].
        split; [discriminate|]. intros _. split; [reflexivity|].
        exists res, usr. repeat split; assumption.
      * eexists. eexists. eexists. split; [reflexivity|].
        split; [intros _; split; [reflexivity|discriminate]|discriminate].
    + unfold ret. eexists. eexists. eexists. split; [reflexivity|].
      split; [intros _; split; [reflexivity|discriminate]|discriminate].
Qed.

Lemma login_binds_the_session_only_on_success_witness :
  exists reply,
    AuthRoutes.login Scenario.env Scenario.bcrypt (Some "carol") (Some "s3cret")
      (mkLoginSession None None None) Scenario.world
    = (Ok (reply, mkLoginSession None None None), Scenario.world)
    /\ reply_status reply = 401.
Proof.
  destruct (@login_binds_the_session_only_on_success Scenario.env Scenario.bcrypt
              (Some "carol") (Some "s3cret") (mkLoginSession None None None)
              Scenario.world) as (reply & s' & w' & Hrun & Hfail & _).
  exists reply.
  assert (Hs : reply_success reply = false)
    by (vm_compute in Hrun; injection Hrun as <- _ _; reflexivity).
  destruct (Hfail Hs) as [-> _].
  assert (Hw : w' = Scenario.world)
    by (vm_compute in Hrun; injection Hrun as _ <-; reflexivity).
  subst w'. split; [exact Hrun|].
  vm_compute in Hrun. injection Hrun as <-. reflexivity.
Defined.

(** ** The lock as [UserModel] sees it *)

Lemma hd_error_filter {A : Type} (P : A -> bool) (l : list A) :
  hd_error (filter P l) = find P l.
Proof.
  induction l as [|a l IH]; simpl; [reflexivity|].
  destruct (P a); [reflexivity|exact IH].
Qed.

Lemma findById_find (uid : Z) (w : World) :
  faults w = [] ->
  UserModel.findById uid w
  = (Ok (find (where_id_active uid) (AdminUsers (db w))), w).
Proof.
  intros Hf. unfold UserModel.findById, bind, ret.
  rewrite query_no_fault by exact Hf. unfold select. simpl.
  rewrite hd_error_filter. rewrite <- Hf, world_eta. reflexivity.
Qed.

(** X8. [isUserLocked] decides on the row it is handed. Without the flag
    [IS_LOCKED] the answer is false. With the flag and no [LOCKED_UNTIL_TS]
    the answer is true at every time. With the flag and a timestamp the
    answer is true up to and including that instant (where the test of
    [authenticateUser] already says not locked), and false afterwards; in
    that last case the call also unlocks the account in the database: flag
    cleared, timestamp removed, failed-attempt counter back to 0. *)
Theorem isUserLocked_by_flag_and_expiry (user : AdminUser) (w : World) :
  faults w = [] ->
  (au_is_locked user = false -> UserModel.isUserLocked user w = (Ok false, w))
  /\ (au_is_locked user = true -> au_locked_until_ts user = None ->
      UserModel.isUserLocked user w = (Ok true, w))
  /\ (forall lu,
        au_is_locked user = true -> au_locked_until_ts user = Some lu ->
        now w <= lu ->
        UserModel.isUserLocked user w = (Ok true, w)
        /\ AuthService.is_locked_at (Some lu) lu = false)
  /\ (forall lu,
        au_is_locked user = true -> au_locked_until_ts user = Some lu ->
        lu < now w ->
        exists w',
          UserModel.isUserLocked user w = (Ok false, w')
          /\ now w' = now w
          /\ (forall x, In x (AdminUsers (db w')) -> au_id x = au_id user ->
                au_is_locked x = false /\ au_locked_until_ts x = None
                /\ au_failed_login_attempts x = 0)
          /\ (forall x, In x (AdminUsers (db w)) -> au_id x <> au_id user ->
                In x (AdminUsers (db w')))).
Proof.
  intros Hf. unfold UserModel.isUserLocked, bind, Date_now, ret.
  split; [intros ->; reflexivity|].
  split; [intros -> ->; reflexivity|]. split.
  - intros lu -> -> Hle. cbv beta iota delta [negb]. split.
    + assert (E : (now w >? lu) = false) by (rewrite Z.gtb_ltb; apply Z.ltb_ge; lia).
      rewrite E. reflexivity.
    + simpl. apply Z.ltb_irrefl.
  - intros lu -> -> Hlt. cbv beta iota delta [negb].
    assert (E : (now w >? lu) = true) by (rewrite Z.gtb_ltb; apply Z.ltb_lt; lia).
    rewrite E. unfold UserModel.unlockUser.
    rewrite query_no_fault by exact Hf.
    eexists. split; [reflexivity|]. split; [reflexivity|].
    cbn [db update fst snd AdminUsers with_AdminUsers]. split.
    + intros x Hx Hid. unfold sql_update in Hx. apply in_map_iff in Hx.
      destruct Hx as (y & <- & _).
      destruct (au_id y =? au_id user) eqn:Ey; [repeat split; reflexivity|].
      simpl in Hid. apply Z.eqb_neq in Ey. contradiction.
    + intros x Hx Hid. unfold sql_update. apply in_map_iff. exists x.
      apply Z.eqb_neq in Hid. rewrite Hid. auto.
Qed.

Lemma isUserLocked_by_flag_and_expiry_witness :
  UserModel.isUserLocked (set_is_locked true Scenario.carol)
    (tick 1900000 Scenario.world)
  = (Ok true, tick 1900000 Scenario.world)
  /\ exists w',
       UserModel.isUserLocked (set_is_locked true Scenario.carol)
         (tick 1900001 Scenario.world)
       = (Ok false, w')
       /\ find (where_login "carol") (AdminUsers (db w'))
          = Some (set_failed_login_attempts 0
                    (set_locked_until_ts None Scenario.carol)).
Proof.
  destruct (@isUserLocked_by_flag_and_expiry (set_is_locked true Scenario.carol)
              (tick 1900000 Scenario.world) eq_refl) as (_ & _ & Hin & _).
  destruct (@isUserLocked_by_flag_and_expiry (set_is_locked true Scenario.carol)
              (tick 1900001 Scenario.world) eq_refl) as (_ & _ & _ & Hout).
  split.
  - exact (proj1 (Hin 1900000 eq_refl eq_refl ltac:(simpl; lia))).
  - destruct (Hout 1900000 eq_refl eq_refl ltac:(simpl; lia)) as (w' & Hrun & _).
    exists w'. split; [exact Hrun|].
    vm_compute in Hrun. injection Hrun as <-. reflexivity.
Defined.

Lemma where_id_active_found (uid : Z) (l : list AdminUser) (u : AdminUser) :
  find (where_id_active uid) l = Some u -> au_id u = uid /\ au_is_active u = true.
Proof.
  intros H. apply find_some in H. destruct H as [_ H].
  unfold where_id_active in H. apply andb_true_iff in H.
  destruct H as [H1 H2]. apply Z.eqb_eq in H1. auto.
Qed.

(** X9. [incrementFailedLogins] and [isUserLocked] together: the call that
    brings the counter of an active account to the maximum sets the flag and
    the lock time; [isUserLocked] on the row read back answers true until
    the lock time has passed, and the first call after that answers false
    and leaves the account unlocked with its counter at 0. *)
Theorem UserModel_lock_expires_into_a_fresh_counter
    (env : Env) (uid : Z) (w : World) (u : AdminUser) :
  faults w = [] ->
  find (where_id_active uid) (AdminUsers (db w)) = Some u ->
  env_or (env_MAX_LOGIN_ATTEMPTS env) 5 <= au_failed_login_attempts u + 1 ->
  exists w1 u1,
    UserModel.incrementFailedLogins env uid w = (Ok tt, w1)
    /\ UserModel.findById uid w1 = (Ok (Some u1), w1)
    /\ au_failed_login_attempts u1 = au_failed_login_attempts u + 1
    /\ au_is_locked u1 = true
    /\ au_locked_until_ts u1 = Some (now w + env_or (env_LOCKOUT_TIME env) 3600000)
    /\ (forall t, t <= now w + env_or (env_LOCKOUT_TIME env) 3600000 ->
          UserModel.isUserLocked u1 (tick t w1) = (Ok true, tick t w1))
    /\ (forall t, now w + env_or (env_LOCKOUT_TIME env) 3600000 < t ->
          exists w2 u2,
            UserModel.isUserLocked u1 (tick t w1) = (Ok false, w2)
            /\ UserModel.findById uid w2 = (Ok (Some u2), w2)
            /\ au_failed_login_attempts u2 = 0
            /\ au_is_locked u2 = false
            /\ au_locked_until_ts u2 = None).
Proof.
  intros Hf Hfind Hmax.
  destruct (where_id_active_found _ _ Hfind) as [Hid Hact].
  assert (E : (au_failed_login_attempts u + 1
               >=? env_or (env_MAX_LOGIN_ATTEMPTS env) 5) = true)
    by (rewrite Z.geb_leb; apply Z.leb_le; exact Hmax).
  unfold UserModel.incrementFailedLogins, bind, Date_now.
  rewrite query_no_fault by exact Hf.
  cbn [db update fst snd].
  set (f := fun u0 : AdminUser =>
              set_locked_until_ts
                (if au_failed_login_attempts u0 + 1
                    >=? env_or (env_MAX_LOGIN_ATTEMPTS env) 5
                 then Some (now w + env_or (env_LOCKOUT_TIME env) 3600000)
                 else au_locked_until_ts u0)
                (set_is_locked
                   (if au_failed_login_attempts u0 + 1
                       >=? env_or (env_MAX_LOGIN_ATTEMPTS env) 5
                    then true else au_is_locked u0)
                   (set_failed_login_attempts (au_failed_login_attempts u0 + 1) u0))).
  set (w1 := mkWorld
               (with_AdminUsers
                  (sql_update (fun u0 => au_id u0 =? uid) f (AdminUsers (db w)))
                  (db w)) (now w) []).
  assert (Hfind1 : find (where_id_active uid) (AdminUsers (db w1)) = Some (f u)).
  { unfold w1. cbn [db AdminUsers with_AdminUsers].
    rewrite find_sql_update by reflexivity.
    rewrite Hfind. simpl. apply Z.eqb_eq in Hid. rewrite Hid. reflexivity. }
  exists w1, (f u). split; [reflexivity|].
  split; [rewrite findById_find by reflexivity; rewrite Hfind1; reflexivity|].
  assert (Hflag : au_is_locked (f u) = true) by (unfold f; rewrite E; reflexivity).
  assert (Hlu : au_locked_until_ts (f u)
                = Some (now w + env_or (env_LOCKOUT_TIME env) 3600000))
    by (unfold f; rewrite E; reflexivity).
  split; [reflexivity|]. split; [exact Hflag|]. split; [exact Hlu|].
  split.
  - intros t Ht.
    destruct (@isUserLocked_by_flag_and_expiry (f u) (tick t w1) eq_refl)
      as (_ & _ & Hin & _).
    exact (proj1 (Hin _ Hflag Hlu Ht)).
  - intros t Ht.
    unfold UserModel.isUserLocked, bind, Date_now, ret. rewrite Hflag, Hlu.
    cbv beta iota delta [negb].
    assert (Et : (now (tick t w1) >? now w + env_or (env_LOCKOUT_TIME env) 3600000)
                 = true)
      by (rewrite Z.gtb_ltb; apply Z.ltb_lt; exact Ht).
    rewrite Et. unfold UserModel.unlockUser.
    rewrite query_no_fault by reflexivity.
    cbn [db update fst snd tick now].
    eexists. eexists. split; [reflexivity|].
    rewrite findById_find by reflexivity.
    cbn [db AdminUsers with_AdminUsers].
    rewrite find_sql_update by reflexivity.
    change (AdminUsers (db w1)) with
      (sql_update (fun u0 => au_id u0 =? uid) f (AdminUsers (db w))) in *.
    rewrite Hfind1. cbn [option_map].
    assert (Eid : (au_id (f u) =? au_id (f u)) = true) by apply Z.eqb_refl.
    rewrite Eid. split; [reflexivity|]. repeat split; reflexivity.
Qed.

Lemma UserModel_lock_expires_into_a_fresh_counter_witness :
  exists w1 u1,
    UserModel.incrementFailedLogins Scenario.env 2 Scenario.world = (Ok tt, w1)
    /\ UserModel.findById 2 w1 = (Ok (Some u1), w1)
    /\ au_locked_until_ts u1 = Some 4600000
    /\ UserModel.isUserLocked u1 (tick 4600000 w1) = (Ok true, tick 4600000 w1)
    /\ fst (UserModel.isUserLocked u1 (tick 4600001 w1)) = Ok false.
Proof.
  destruct (@UserModel_lock_expires_into_a_fresh_counter Scenario.env 2
              Scenario.world Scenario.bob eq_refl eq_refl)
    as (w1 & u1 & Hinc & Hfind & _ & _ & Hlu & Hin & Hout).
  { vm_compute. discriminate. }
  exists w1, u1. split; [exact Hinc|]. split; [exact Hfind|].
  split; [exact Hlu|]. split.
  - apply Hin. vm_compute. discriminate.
  - destruct (Hout 4600001) as (w2 & u2 & Hrun & _); [reflexivity|].
    rewrite Hrun. reflexivity.
Defined.

(** ** The two lookups by id *)

(** X10. [UserModel.findById] and [getUserById] accept the same accounts:
    when the first finds an active row with the id, the second resolves an
    identity with the columns of that very row, and when the first returns
    [null] the second fails. *)
Theorem findById_and_getUserById_agree (uid : Z) (w : World) :
  faults w = [] ->
  match fst (UserModel.findById uid w) with
  | Ok (Some u) =>
      exists usr,
        Middleware.getUserById uid w = (Ok (true, Some usr), w)
        /\ au_id u = uid /\ au_is_active u = true
        /\ id usr = au_id u /\ username usr = au_username u
        /\ email usr = au_email u /\ fullName usr = au_full_name u
        /\ isActive usr = true
        /\ failedLoginAttempts usr = au_failed_login_attempts u
        /\ lockedUntilTs usr = au_locked_until_ts u
        /\ lastLoginTs usr = au_last_login_ts u
  | Ok None => Middleware.getUserById uid w = (Ok (false, None), w)
  | Throw _ => False
  end.
Proof.
  intros Hf. rewrite findById_find by exact Hf. simpl fst.
  assert (Hw : mkWorld (db w) (now w) (tl (faults w)) = w)
    by (rewrite Hf; simpl; rewrite <- Hf; apply world_eta).
  assert (Hhd : hd false (faults w) = false) by (rewrite Hf; reflexivity).
  destruct (find (where_id_active uid) (AdminUsers (db w))) as [u|] eqn:Efind.
  - destruct (where_id_active_found _ _ Efind) as [Hid Hact].
    unfold Middleware.getUserById, try_catch, bind.
    rewrite (query_head_ok _ w Hhd). unfold select. simpl fst. simpl snd.
    rewrite Hw.
    pose proof (select_by_id_first uid (db w)) as Hrows.
    rewrite Efind in Hrows. destruct Hrows as (j & rest & -> & Hu).
    unfold buildUserFromResults, ret. eexists. split; [reflexivity|].
    destruct j as [[[[au ur] r] rp] p]. simpl in Hu. subst au. simpl.
    repeat split; try assumption; reflexivity.
  - rewrite <- Hw at 2. apply getUserById_missing; assumption.
Qed.

Lemma findById_and_getUserById_agree_witness :
  exists usr,
    UserModel.findById 2 Scenario.world = (Ok (Some Scenario.bob), Scenario.world)
    /\ Middleware.getUserById 2 Scenario.world = (Ok (true, Some usr), Scenario.world)
    /\ username usr = "bob".
Proof.
  pose proof (@findById_and_getUserById_agree 2 Scenario.world eq_refl) as H.
  change (fst (UserModel.findById 2 Scenario.world)) with (Ok (Some Scenario.bob)) in H.
  destruct H as (usr & Hget & _ & _ & _ & Hname & _).
  exists usr. split; [reflexivity|]. split; [exact Hget|exact Hname].
Defined.

(** ** [getUserPermissions] *)

Lemma select_user_permissions_In (uid : Z) (d : Database) (n : string) :
  In n (UserModel.select_user_permissions uid d)
  <-> exists p, permission_granted d uid p /\ p_permission_name p = n.
Proof.
  unfold UserModel.select_user_permissions, permission_granted.
  rewrite nodup_In, in_map_iff. split.
  - intros ([[[[au ur] r] rp] p] & Hn & Hin). simpl in Hn.
    apply filter_In in Hin. destruct Hin as [Hin Hw].
    apply inner_join_In in Hin. destruct Hin as (H3 & Hp & Hon4).
    apply inner_join_In in H3. destruct H3 as (H2 & Hrp & Hon3).
    apply inner_join_In in H2. destruct H2 as (H1 & Hr & Hon2).
    apply inner_join_In in H1. destruct H1 as (Hau & Hur & Hon1).
    simpl in Hon4, Hon3, Hon2.
    apply andb_true_iff in Hw. destruct Hw as [Hid Hact].
    apply andb_true_iff in Hon3. destruct Hon3 as [Hon3 Hgr].
    apply andb_true_iff in Hon2. destruct Hon2 as [Hon2 Hract].
    apply andb_true_iff in Hon1. destruct Hon1 as [Hon1 Huract].
    apply Z.eqb_eq in Hid, Hon4, Hon3, Hon2, Hon1.
    exists p. split; [|exact Hn]. exists au, ur, r, rp.
    repeat split; try assumption; lia.
  - intros (p & (au & ur & r & rp & Hau & Hid & Hact & Hur & Huid & Huract
                 & Hr & Hrid & Hract & Hrp & Hrpid & Hgr & Hp & Hpid) & Hn).
    exists (au, ur, r, rp, p). split; [exact Hn|].
    apply filter_In. split.
    + apply inner_join_In. split; [|split; [exact Hp|]].
      * apply inner_join_In. split; [|split; [exact Hrp|]].
        -- apply inner_join_In. split; [|split; [exact Hr|]].
           ++ apply inner_join_In. split; [exact Hau|]. split; [exact Hur|].
              rewrite Huract. apply andb_true_iff. split; [|reflexivity].
              apply Z.eqb_eq. lia.
           ++ simpl. rewrite Hract. apply andb_true_iff. split; [|reflexivity].
              apply Z.eqb_eq. lia.
        -- simpl. rewrite Hgr. apply andb_true_iff. split; [|reflexivity].
           apply Z.eqb_eq. lia.
      * simpl. apply Z.eqb_eq. lia.
    + rewrite Hact. apply andb_true_iff. split; [|reflexivity].
      apply Z.eqb_eq. exact Hid.
Qed.

(** X11. [getUserPermissions] returns, each once, exactly the names of the
    permissions that a granted grant attaches to an active role assigned to
    the active user by an active assignment; whether the permission itself
    is active is not asked. *)
Theorem getUserPermissions_returns_the_granted_names (uid : Z) (w : World) :
  faults w = [] ->
  exists names,
    UserModel.getUserPermissions uid w = (Ok names, w)
    /\ NoDup names
    /\ forall n, In n names
                 <-> exists p, permission_granted (db w) uid p
                               /\ p_permission_name p = n.
Proof.
  intros Hf. exists (UserModel.select_user_permissions uid (db w)).
  split; [|split].
  - unfold UserModel.getUserPermissions. rewrite query_no_fault by exact Hf.
    unfold select. simpl. rewrite <- Hf, world_eta. reflexivity.
  - unfold UserModel.select_user_permissions. apply NoDup_nodup.
  - intros n. apply select_user_permissions_In.
Qed.

Lemma getUserPermissions_returns_the_granted_names_witness :
  UserModel.getUserPermissions 2 Scenario.world
  = (Ok ["news.create"; "events.create"], Scenario.world)
  /\ exists p, permission_granted Scenario.database 2 p
               /\ p_permission_name p = "events.create".
Proof.
  destruct (@getUserPermissions_returns_the_granted_names 2 Scenario.world eq_refl)
    as (names & Hrun & _ & Hin).
  assert (Hn : names = ["news.create"; "events.create"])
    by (vm_compute in Hrun; congruence).
  subst names. split; [exact Hrun|].
  apply Hin. right. left. reflexivity.
Defined.

(** X12. What [getUserPermissions] reports and what [getUserById] resolves
    differ both ways. Every granted permission that is active and has a
    non-zero id is held by the resolved identity; but an id all of whose
    [Permissions] rows are inactive is never in the identity, although
    [getUserPermissions] reports its name when it is granted. *)
Theorem getUserById_holds_the_active_granted_permissions
    (uid : Z) (w w' : World) (b : bool) (usr : AuthUser) :
  Middleware.getUserById uid w = (Ok (b, Some usr), w') ->
  (forall p, permission_granted (db w) uid p ->
             p_is_active p = true -> p_id p <> 0 ->
             In (p_id p) (map permission_id_of (permissions usr)))
  /\ (forall k,
        (forall p, In p (Permissions (db w)) -> p_id p = k -> p_is_active p = false) ->
        ~ In k (map permission_id_of (permissions usr))).
Proof.
  intros H.
  destruct (getUserById_resolves_ids uid w H) as [_ Hp]. split.
  - intros p (au & ur & r & rp & Hau & Hid & Hact & Hur & Huid & _
              & Hr & Hrid & Hract & Hrp & Hrpid & _ & Hpin & Hpid) Hpact Hnz.
    apply Hp. split; [exact Hnz|]. exists p. split; [|reflexivity].
    exists r, rp. split; [exists au, ur; tauto|tauto].
  - intros k Hall Hin. apply Hp in Hin.
    destruct Hin as (_ & p & (r & rp & _ & _ & _ & Hpin & _ & Hact) & Hk).
    rewrite (Hall p Hpin Hk) in Hact. discriminate.
Qed.

(** ** Role assignments *)

Lemma permission_granted_through (d : Database) (uid : Z) (p : PermissionRow) :
  permission_granted d uid p <-> exists rid, granted_through d uid rid p.
Proof.
  unfold permission_granted, granted_through. split.
  - intros (au & ur & r & rp & H). exists (r_id r), au, ur, r, rp.
    repeat split; try tauto. symmetry. tauto.
  - intros (rid & au & ur & r & rp & H). exists au, ur, r, rp.
    repeat split; try tauto.
    + destruct H as (_ & _ & _ & _ & _ & H1 & _ & _ & H2 & _). congruence.
    + destruct H as (_ & _ & _ & _ & _ & _ & _ & _ & H2 & _ & _ & H3 & _). congruence.
Qed.

Lemma removeRoleFromUser_ok (roleId userId : Z) (w : World) :
  faults w = [] ->
  RoleService.removeRoleFromUser roleId userId w
  = (Ok (true, None),
     mkWorld
       (with_UserRoles
          (sql_update
             (fun ur => (ur_role_id ur =? roleId) && (ur_user_id ur =? userId))
             (fun ur => mkUserRoleRow (ur_user_id ur) (ur_role_id ur) false)
             (UserRoles (db w))) (db w))
       (now w) []).
Proof.
  intros Hf. unfold RoleService.removeRoleFromUser, try_catch, bind.
  rewrite query_no_fault by exact Hf. reflexivity.
Qed.

Lemma removed_granted (roleId userId uid : Z) (d : Database) (p : PermissionRow) :
  permission_granted
    (with_UserRoles
       (sql_update
          (fun ur => (ur_role_id ur =? roleId) && (ur_user_id ur =? userId))
          (fun ur => mkUserRoleRow (ur_user_id ur) (ur_role_id ur) false)
          (UserRoles d)) d) uid p
  <-> exists rid, (uid = userId -> rid <> roleId) /\ granted_through d uid rid p.
Proof.
  unfold permission_granted, granted_through, with_UserRoles, sql_update.
  cbn [AdminUsers Roles Permissions UserRoles RolePermissions]. split.
  - intros (au & ur' & r & rp & Hau & Hid & Hact & Hur & Huid & Huract
            & Hr & Hrid & Hract & Hrp & Hrpid & Hgr & Hp & Hpid).
    apply in_map_iff in Hur. destruct Hur as (ur & Heq & Hur).
    destruct ((ur_role_id ur =? roleId) && (ur_user_id ur =? userId)) eqn:Ec.
    + subst ur'. simpl in Huract. discriminate.
    + subst ur'. exists (ur_role_id ur). split.
      * intros -> Hrole. rewrite Hrole, Huid, !Z.eqb_refl in Ec. discriminate.
      * exists au, ur, r, rp. repeat split; try assumption; congruence.
  - intros (rid & Hne & au & ur & r & rp & Hau & Hid & Hact & Hur & Huid & Hurid
            & Huract & Hr & Hrid & Hract & Hrp & Hrpid & Hgr & Hp & Hpid).
    exists au, ur, r, rp. repeat split; try assumption; try congruence.
    apply in_map_iff. exists ur. split; [|exact Hur].
    destruct ((ur_role_id ur =? roleId) && (ur_user_id ur =? userId)) eqn:Ec;
      [|reflexivity].
    apply andb_true_iff in Ec. destruct Ec as [E1 E2].
    apply Z.eqb_eq in E1, E2. exfalso. apply Hne; congruence.
Qed.

(** X13. [removeRoleFromUser] takes effect on [getUserPermissions] at once
    and for that assignment only: afterwards a user is reported exactly the
    permissions that were granted before through an assignment other than
    the removed one. *)
Theorem removeRoleFromUser_ends_the_grants_of_that_assignment
    (roleId userId : Z) (w : World) :
  faults w = [] ->
  exists w1,
    RoleService.removeRoleFromUser roleId userId w = (Ok (true, None), w1)
    /\ forall uid, exists names,
         UserModel.getUserPermissions uid w1 = (Ok names, w1)
         /\ forall n, In n names
                      <-> exists rid p,
                            (uid = userId -> rid <> roleId)
                            /\ granted_through (db w) uid rid p
                            /\ p_permission_name p = n.
Proof.
  intros Hf. eexists. split; [apply removeRoleFromUser_ok; exact Hf|].
  intros uid.
  match goal with |- context [UserModel.getUserPermissions uid ?W] =>
    set (w1 := W) end.
  exists (UserModel.select_user_permissions uid (db w1)). split.
  - unfold UserModel.getUserPermissions.
    rewrite query_no_fault by reflexivity. reflexivity.
  - intros n. rewrite select_user_permissions_In. subst w1.
    cbn [db]. split.
    + intros (p & Hg & Hn). apply removed_granted in Hg.
      destruct Hg as (rid & Hne & Hg). exists rid, p. auto.
    + intros (rid & p & Hne & Hg & Hn). exists p. split; [|exact Hn].
      apply removed_granted. exists rid. auto.
Qed.

Lemma removeRoleFromUser_ends_the_grants_of_that_assignment_witness :
  exists w1,
    RoleService.removeRoleFromUser 4 2 Scenario.world = (Ok (true, None), w1)
    /\ UserModel.getUserPermissions 2 w1 = (Ok ["news.create"], w1).
Proof.
  destruct (@removeRoleFromUser_ends_the_grants_of_that_assignment
              4 2 Scenario.world eq_refl) as (w1 & Hrun & Hall).
  exists w1. split; [exact Hrun|].
  destruct (Hall 2) as (names & Hget & _).
  vm_compute in Hrun. injection Hrun as <-.
  vm_compute in Hget. injection Hget as <-. reflexivity.
Defined.

Lemma events_create_is_granted_to_bob :
  permission_granted Scenario.database 2 Scenario.events_create.
Proof.
  exists Scenario.bob, (mkUserRoleRow 2 4 true), Scenario.Teacher,
    (mkRolePermissionRow 4 16 true).
  simpl. repeat split; auto 10.
Qed.

Lemma getUserById_holds_the_active_granted_permissions_witness :
  exists usr,
    fst (Middleware.getUserById 2 Scenario.world) = Ok (true, Some usr)
    /\ In 16 (map permission_id_of (permissions usr)).
Proof.
  destruct (Middleware.getUserById 2 Scenario.world) as [[[b [usr|]]|e] w'] eqn:E;
    try (vm_compute in E; discriminate).
  exists usr. split.
  - vm_compute in E. injection E as <- _ _. reflexivity.
  - refine (proj1 (@getUserById_holds_the_active_granted_permissions
                     2 Scenario.world w' b usr E) Scenario.events_create _ eq_refl _).
    + exact events_create_is_granted_to_bob.
    + simpl. lia.
Defined.

(** ** What the guards read *)

Lemma inner_join_map_l {A A' B : Type} (h : A -> A')
    (on : A -> B -> bool) (on' : A' -> B -> bool) (l : list A) (r : list B) :
  (forall a b, on' (h a) b = on a b) ->
  inner_join on' (map h l) r
  = map (fun x => (h (fst x), snd x)) (inner_join on l r).
Proof.
  intros Hon. unfold inner_join.
  induction l as [|a l IH]; [reflexivity|].
  cbn [map flat_map]. rewrite map_app, IH. f_equal.
  rewrite map_map. cbn [fst snd].
  rewrite (filter_ext (on' (h a)) (on a)) by (intros b; apply Hon).
  reflexivity.
Qed.

Lemma inner_join_map_r {A B B' : Type} (h : B -> B')
    (on : A -> B -> bool) (on' : A -> B' -> bool) (l : list A) (r : list B) :
  (forall a b, on' a (h b) = on a b) ->
  inner_join on' l (map h r)
  = map (fun x => (fst x, h (snd x))) (inner_join on l r).
Proof.
  intros Hon. unfold inner_join.
  induction l as [|a l IH]; [reflexivity|].
  cbn [map flat_map]. rewrite map_app, IH. f_equal.
  rewrite filter_map_commute, !map_map. cbn [fst snd].
  rewrite (filter_ext (fun b => on' a (h b)) (on a)) by (intros b; apply Hon).
  reflexivity.
Qed.

Lemma select_min_timeout_ignores_flags
    (active : UserRoleRow -> bool) (granted : RolePermissionRow -> bool)
    (d : Database) (uid : Z) :
  Middleware.select_min_timeout uid (with_flags active granted d)
  = Middleware.select_min_timeout uid d.
Proof.
  unfold Middleware.select_min_timeout, Middleware.timeout_rows, with_flags.
  cbn [AdminUsers UserRoles Roles]. f_equal.
  rewrite (inner_join_map_r
             (fun ur => mkUserRoleRow (ur_user_id ur) (ur_role_id ur) (active ur))
             on_ur on_ur) by reflexivity.
  rewrite (inner_join_map_l
             (fun x : AdminUser * UserRoleRow =>
                (fst x,
                 mkUserRoleRow (ur_user_id (snd x)) (ur_role_id (snd x)) (active (snd x))))
             (fun l r => ur_role_id (snd l) =? r_id r)
             (fun l r => ur_role_id (snd l) =? r_id r)) by reflexivity.
  rewrite filter_map_commute, map_map. f_equal.
  apply filter_ext. intros [[au ur] r]. reflexivity.
Qed.

Lemma getUserById_view (uid : Z) (d d' : Database) (t : Z) (fs : list bool) :
  select_by_id uid d = select_by_id uid d' ->
  exists o,
    Middleware.getUserById uid (mkWorld d t fs) = (o, mkWorld d t (tl fs))
    /\ Middleware.getUserById uid (mkWorld d' t fs) = (o, mkWorld d' t (tl fs)).
Proof.
  intros H. unfold Middleware.getUserById, try_catch, bind, query, select.
  cbn [faults db now]. rewrite <- H.
  destruct fs as [|[] fs]; cbn [tl].
  - destruct (select_by_id uid d); eexists; split; reflexivity.
  - eexists; split; reflexivity.
  - destruct (select_by_id uid d); eexists; split; reflexivity.
Qed.

Lemma getInactivityTimeout_view (uid : Z) (d d' : Database) (t : Z) (fs : list bool) :
  Middleware.select_min_timeout uid d = Middleware.select_min_timeout uid d' ->
  exists o,
    Middleware.getInactivityTimeout uid (mkWorld d t fs) = (o, mkWorld d t (tl fs))
    /\ Middleware.getInactivityTimeout uid (mkWorld d' t fs) = (o, mkWorld d' t (tl fs)).
Proof.
  intros H. unfold Middleware.getInactivityTimeout, try_catch, bind, query, select.
  cbn [faults db now]. rewrite <- H.
  destruct fs as [|[] fs]; cbn [tl]; eexists; split; reflexivity.
Qed.

Lemma requireAuth_view (req : Request) (d d' : Database) (t : Z) (fs : list bool) :
  (forall uid, select_by_id uid d = select_by_id uid d') ->
  (forall uid, Middleware.select_min_timeout uid d
               = Middleware.select_min_timeout uid d') ->
  fst (Middleware.requireAuth req (mkWorld d t fs))
  = fst (Middleware.requireAuth req (mkWorld d' t fs)).
Proof.
  intros Hsel Hmin. unfold Middleware.requireAuth, try_catch.
  destruct (session req) as [s|]; [|reflexivity].
  destruct (negb (truthy (userId s))); [reflexivity|].
  unfold bind.
  destruct (@getInactivityTimeout_view (number_of (userId s)) d d' t fs
              (Hmin (number_of (userId s)))) as (o & -> & ->).
  destruct o as [timeout|e]; [|reflexivity].
  unfold Date_now. cbn [now].
  destruct ((timeout >? 0) && (t - or_default (lastActivity s) t >? timeout));
    [reflexivity|].
  destruct (@getUserById_view (number_of (userId s)) d d' t (tl fs)
              (Hsel (number_of (userId s)))) as (o & -> & ->).
  destruct o as [[[] [u|]]|e]; reflexivity.
Qed.

Lemma guarded_view (guard : Request -> Response) (req : Request)
    (d d' : Database) (t : Z) (fs : list bool) :
  (forall uid, select_by_id uid d = select_by_id uid d') ->
  (forall uid, Middleware.select_min_timeout uid d
               = Middleware.select_min_timeout uid d') ->
  fst (Middleware.guarded guard req (mkWorld d t fs))
  = fst (Middleware.guarded guard req (mkWorld d' t fs)).
Proof.
  intros Hsel Hmin. unfold Middleware.guarded, bind.
  pose proof (@requireAuth_view req d d' t fs Hsel Hmin) as H.
  destruct (Middleware.requireAuth req (mkWorld d t fs)) as [o1 w1].
  destruct (Middleware.requireAuth req (mkWorld d' t fs)) as [o2 w2].
  simpl in H. subst o2.
  destruct o1 as [[[] req']|e]; reflexivity.
Qed.

Lemma removed_db_with_flags (roleId userId : Z) (d : Database) :
  with_UserRoles
    (sql_update
       (fun ur => (ur_role_id ur =? roleId) && (ur_user_id ur =? userId))
       (fun ur => mkUserRoleRow (ur_user_id ur) (ur_role_id ur) false)
       (UserRoles d)) d
  = with_flags
      (fun ur => if (ur_role_id ur =? roleId) && (ur_user_id ur =? userId)
                 then false else ur_is_active ur)
      rp_is_granted d.
Proof.
  unfold with_UserRoles, with_flags, sql_update. f_equal.
  - apply map_ext. intros [u r a]. cbn.
    destruct ((r =? roleId) && (u =? userId)); reflexivity.
  - rewrite <- (map_id (RolePermissions d)) at 1.
    apply map_ext. intros [r p g]. reflexivity.
Qed.

(** X14. [removeRoleFromUser] changes nothing of what the middleware
    decides. At any later time and whatever the storage does, [getUserById]
    resolves the same identity and a route guarded by [requireAuth] and any
    synchronous guard answers the same as if the role had not been removed. *)
Theorem removeRoleFromUser_changes_no_guard_decision
    (roleId userId : Z) (w : World) :
  faults w = [] ->
  exists w1,
    RoleService.removeRoleFromUser roleId userId w = (Ok (true, None), w1)
    /\ forall t fs,
         (forall uid,
            fst (Middleware.getUserById uid (mkWorld (db w1) t fs))
            = fst (Middleware.getUserById uid (mkWorld (db w) t fs)))
         /\ (forall guard req,
               fst (Middleware.guarded guard req (mkWorld (db w1) t fs))
               = fst (Middleware.guarded guard req (mkWorld (db w) t fs))).
Proof.
  intros Hf. eexists. split; [apply removeRoleFromUser_ok; exact Hf|].
  cbn [db]. rewrite removed_db_with_flags.
  intros t fs.
  match goal with |- context [with_flags ?a ?g (db w)] =>
    pose proof (proj1 (resolution_ignores_grant_and_assignment_flags a g (db w)))
      as Hsel;
    pose proof (select_min_timeout_ignores_flags a g (db w)) as Hmin
  end.
  split.
  - intros uid.
    destruct (@getUserById_view uid _ _ t fs (Hsel uid)) as (o & -> & ->).
    reflexivity.
  - intros guard req. apply guarded_view; assumption.
Qed.

Lemma removeRoleFromUser_changes_no_guard_decision_witness :
  exists w1,
    RoleService.removeRoleFromUser 4 2 Scenario.world = (Ok (true, None), w1)
    /\ UserModel.getUserPermissions 2 w1 = (Ok ["news.create"], w1)
    /\ fst (Middleware.guarded (Middleware.requirePermission "events.create")
              (Scenario.request 2 1000000) (mkWorld (db w1) 1000001 []))
       = fst (Middleware.guarded (Middleware.requirePermission "events.create")
                (Scenario.request 2 1000000) (mkWorld Scenario.database 1000001 [])).
Proof.
  destruct (@removeRoleFromUser_changes_no_guard_decision 4 2 Scenario.world eq_refl)
    as (w1 & Hrun & Hall).
  exists w1. split; [exact Hrun|]. split.
  - vm_compute in Hrun. injection Hrun as <-. reflexivity.
  - exact (proj2 (Hall 1000001 [])
             (Middleware.requirePermission "events.create")
             (Scenario.request 2 1000000)).
Defined.

Lemma existsb_In {A : Type} (f : A -> bool) (l : list A) (x : A) :
  In x l -> f x = true -> existsb f l = true.
Proof. intros Hin Hf. apply existsb_exists. eauto. Qed.

(** X15. A role taken away by [removeRoleFromUser] cannot be given back by
    [assignRoleToUser]: the row of the pair is still in [UserRoles], so the
    INSERT violates the unique key, the call throws and the database stays
    as the removal left it. *)
Theorem removed_role_cannot_be_assigned_again
    (roleId userId : Z) (w : World) (ur : UserRoleRow) :
  faults w = [] ->
  In ur (UserRoles (db w)) -> ur_user_id ur = userId -> ur_role_id ur = roleId ->
  exists w1,
    RoleService.removeRoleFromUser roleId userId w = (Ok (true, None), w1)
    /\ forall assignedBy,
         exists e, RoleService.assignRoleToUser roleId userId assignedBy w1
                   = (Throw e, w1).
Proof.
  intros Hf Hin Hu Hr. eexists. split; [apply removeRoleFromUser_ok; exact Hf|].
  intros assignedBy. exists "RequestError".
  unfold RoleService.assignRoleToUser, query_checked. cbn [faults db now tl].
  match goal with |- context [existsb ?f (UserRoles ?d)] =>
    assert (E : existsb f (UserRoles d) = true) end.
  { unfold with_UserRoles, sql_update. cbn [UserRoles].
    apply existsb_In with (x := mkUserRoleRow userId roleId false).
    - apply in_map_iff. exists ur. split; [|exact Hin].
      rewrite Hu, Hr, !Z.eqb_refl. reflexivity.
    - cbn. rewrite !Z.eqb_refl. reflexivity. }
  rewrite E, !orb_true_r. reflexivity.
Qed.

Lemma removed_role_cannot_be_assigned_again_witness :
  exists w1,
    RoleService.removeRoleFromUser 4 2 Scenario.world = (Ok (true, None), w1)
    /\ exists e, RoleService.assignRoleToUser 4 2 1 w1 = (Throw e, w1).
Proof.
  destruct (@removed_role_cannot_be_assigned_again 4 2 Scenario.world
              (mkUserRoleRow 2 4 true) eq_refl
              (or_intror (or_intror (or_introl eq_refl))) eq_refl eq_refl)
    as (w1 & Hrun & Hall).
  exists w1. split; [exact Hrun|exact (Hall 1)].
Defined.

(** X16. A fresh assignment is seen by the next request. When the user and
    the role are active and exist, the assigning account exists and the pair
    is not yet in [UserRoles], [assignRoleToUser] succeeds, the identity
    [getUserById] resolves afterwards holds the role, and
    [getUserPermissions] reports every permission granted to that role. *)
Theorem assigned_role_is_resolved_by_the_next_request
    (roleId userId assignedBy : Z) (w : World) (u a : AdminUser) (r : Role) :
  faults w = [] ->
  In u (AdminUsers (db w)) -> au_id u = userId -> au_is_active u = true ->
  In a (AdminUsers (db w)) -> au_id a = assignedBy ->
  In r (Roles (db w)) -> r_id r = roleId -> r_is_active r = true -> roleId <> 0 ->
  (forall ur, In ur (UserRoles (db w)) ->
              ur_user_id ur = userId -> ur_role_id ur <> roleId) ->
  exists w1 usr names,
    RoleService.assignRoleToUser roleId userId assignedBy w = (Ok tt, w1)
    /\ Middleware.getUserById userId w1 = (Ok (true, Some usr), w1)
    /\ In roleId (map role_id_of (roles usr))
    /\ UserModel.getUserPermissions userId w1 = (Ok names, w1)
    /\ forall rp p, In rp (RolePermissions (db w)) -> rp_role_id rp = roleId ->
                    rp_is_granted rp = true ->
                    In p (Permissions (db w)) -> p_id p = rp_permission_id rp ->
                    In (p_permission_name p) names.
Proof.
  intros Hf Hu Huid Huact Ha Haid Hr Hrid Hract Hnz Hfresh.
  set (d1 := with_UserRoles (UserRoles (db w) ++ [mkUserRoleRow userId roleId true]) (db w)).
  set (w1 := mkWorld d1 (now w) []).
  assert (Hrun : RoleService.assignRoleToUser roleId userId assignedBy w = (Ok tt, w1)).
  { unfold RoleService.assignRoleToUser, query_checked. rewrite Hf.
    rewrite (existsb_In (fun u => au_id u =? userId) _ u Hu)
      by (apply Z.eqb_eq; exact Huid).
    rewrite (existsb_In (fun r => r_id r =? roleId) _ r Hr)
      by (apply Z.eqb_eq; exact Hrid).
    rewrite (existsb_In (fun u => au_id u =? assignedBy) _ a Ha)
      by (apply Z.eqb_eq; exact Haid).
    match goal with |- context [existsb ?f (UserRoles (db w))] =>
      assert (E : existsb f (UserRoles (db w)) = false) end.
    { apply not_true_is_false. intros E. apply existsb_exists in E.
      destruct E as (ur & Hin & E). apply andb_true_iff in E.
      destruct E as [E1 E2]. apply Z.eqb_eq in E1, E2.
      exact (Hfresh ur Hin E1 E2). }
    rewrite E. reflexivity. }
  assert (Hfind : exists u', find (where_id_active userId) (AdminUsers (db w1)) = Some u').
  { apply find_exists with (x := u); [exact Hu|].
    unfold where_id_active. rewrite Huact. apply andb_true_iff.
    split; [apply Z.eqb_eq; exact Huid|reflexivity]. }
  destruct Hfind as (u' & Hfind).
  destruct (@getUserById_found userId w1 u' eq_refl Hfind) as (usr & Hget & _).
  change (mkWorld (db w1) (now w1) (tl (faults w1))) with w1 in Hget.
  exists w1, usr, (UserModel.select_user_permissions userId (db w1)).
  split; [exact Hrun|]. split; [exact Hget|].
  assert (Hnew : In (mkUserRoleRow userId roleId true) (UserRoles (db w1))).
  { cbn. apply in_or_app. right. left. reflexivity. }
  split; [|split].
  - apply (proj1 (getUserById_resolves_ids userId w1 Hget)).
    split; [exact Hnz|]. exists r. split; [|exact Hrid].
    exists u, (mkUserRoleRow userId roleId true).
    cbn. repeat split;
      try assumption; try (apply in_or_app; right; left; reflexivity).
  - unfold UserModel.getUserPermissions.
    rewrite query_no_fault by reflexivity. reflexivity.
  - intros rp p Hrp Hrpid Hgr Hp Hpid.
    apply select_user_permissions_In. exists p. split; [|reflexivity].
    exists u, (mkUserRoleRow userId roleId true), r, rp.
    cbn. repeat split; try assumption; try congruence;
      try (apply in_or_app; right; left; reflexivity).
Qed.

Lemma assigned_role_is_resolved_by_the_next_request_witness :
  exists w1 usr,
    RoleService.assignRoleToUser 4 1 2 Scenario.world = (Ok tt, w1)
    /\ Middleware.getUserById 1 w1 = (Ok (true, Some usr), w1)
    /\ In 4 (map role_id_of (roles usr))
    /\ exists names, UserModel.getUserPermissions 1 w1 = (Ok names, w1)
                     /\ In "events.create" names.
Proof.
  assert (Hfresh : forall ur, In ur (UserRoles (db Scenario.world)) ->
                              ur_user_id ur = 1 -> ur_role_id ur <> 4).
  { intros ur [<-|[<-|[<-|[<-|[]]]]]; cbn; lia. }
  destruct (@assigned_role_is_resolved_by_the_next_request 4 1 2 Scenario.world
              Scenario.alice Scenario.bob Scenario.Teacher eq_refl
              (or_introl eq_refl) eq_refl eq_refl
              (or_intror (or_introl eq_refl)) eq_refl
              (or_intror (or_introl eq_refl)) eq_refl eq_refl
              ltac:(lia) Hfresh)
    as (w1 & usr & names & Hrun & Hget & Hin & Hperm & Hall).
  exists w1, usr. split; [exact Hrun|]. split; [exact Hget|]. split; [exact Hin|].
  exists names. split; [exact Hperm|].
  apply (Hall (mkRolePermissionRow 4 16 true) Scenario.events_create).
  - cbn. auto 10.
  - reflexivity.
  - reflexivity.
  - cbn. auto 10.
  - reflexivity.
Defined.

(** ** Deleting a role *)

Lemma deleteRole_ok (roleId : Z) (w : World) :
  faults w = [] ->
  RoleService.deleteRole roleId w
  = (Ok (true, None),
     mkWorld
       (with_Roles
          (sql_update (fun r => r_id r =? roleId)
             (fun r => mkRole (r_id r) (r_role_name r) (r_description r) false
                         (r_inactivity_lock_enabled r) (r_inactivity_lock_days r)
                         (r_inactivity_timeout_minutes r))
             (Roles (db w))) (db w))
       (now w) []).
Proof.
  intros Hf. unfold RoleService.deleteRole, try_catch, bind.
  rewrite query_no_fault by exact Hf. reflexivity.
Qed.

Lemma deleted_roles_In (roleId : Z) (l : list Role) (r : Role) :
  In r (sql_update (fun r => r_id r =? roleId)
          (fun r => mkRole (r_id r) (r_role_name r) (r_description r) false
                      (r_inactivity_lock_enabled r) (r_inactivity_lock_days r)
                      (r_inactivity_timeout_minutes r)) l) ->
  r_is_active r = true ->
  In r l /\ r_id r <> roleId.
Proof.
  unfold sql_update. intros Hin Hact. apply in_map_iff in Hin.
  destruct Hin as (r0 & Heq & Hin).
  destruct (r_id r0 =? roleId) eqn:E.
  - subst r. discriminate.
  - subst r0. split; [exact Hin|]. apply Z.eqb_neq. exact E.
Qed.

(** X17. [deleteRole] takes effect at the next request of every user: the
    identity [getUserById] resolves afterwards holds only roles that were
    reached before and are not the deleted one, [getUserPermissions] reports
    only permissions granted through another role, and the deleted role no
    longer counts for the inactivity timeout. *)
Theorem deleteRole_takes_the_role_from_every_identity (roleId : Z) (w : World) :
  faults w = [] ->
  exists w1,
    RoleService.deleteRole roleId w = (Ok (true, None), w1)
    /\ (forall uid t fs b usr w',
          Middleware.getUserById uid (mkWorld (db w1) t fs) = (Ok (b, Some usr), w') ->
          forall k, In k (map role_id_of (roles usr)) ->
                    k <> roleId
                    /\ exists r, role_reached (db w) uid r /\ r_id r = k)
    /\ (forall uid names,
          fst (UserModel.getUserPermissions uid w1) = Ok names ->
          forall n, In n names ->
                    exists rid p, rid <> roleId /\ granted_through (db w) uid rid p
                                  /\ p_permission_name p = n)
    /\ (forall uid r m, role_timeout (db w1) uid r m -> r_id r <> roleId).
Proof.
  intros Hf. eexists. split; [apply deleteRole_ok; exact Hf|].
  cbn [db]. split; [|split].
  - intros uid t fs b usr w' Hget k Hk.
    apply (proj1 (getUserById_resolves_ids uid _ Hget)) in Hk.
    destruct Hk as (_ & r & (au & ur & Hau & Hid & Hact & Hur & Huid & Hr & Hrid & Hract)
                    & Hk).
    cbn in Hau, Hur, Hr.
    destruct (deleted_roles_In _ _ _ Hr Hract) as [Hr0 Hne].
    split; [congruence|]. exists r. split; [|exact Hk].
    exists au, ur. repeat split; assumption.
  - intros uid names Hrun n Hn.
    unfold UserModel.getUserPermissions in Hrun.
    rewrite query_no_fault in Hrun by reflexivity.
    cbn [fst select db] in Hrun. injection Hrun as <-.
    apply select_user_permissions_In in Hn.
    destruct Hn as (p & (au & ur & r & rp & Hau & Hid & Hact & Hur & Huid & Huract
                         & Hr & Hrid & Hract & Hrp & Hrpid & Hgr & Hp & Hpid) & Hn).
    cbn in Hau, Hur, Hr, Hrp, Hp.
    destruct (deleted_roles_In _ _ _ Hr Hract) as [Hr0 Hne].
    exists (r_id r), p. split; [exact Hne|]. split; [|exact Hn].
    exists au, ur, r, rp. repeat split; try assumption; congruence.
  - intros uid r m (_ & _ & Hr & Hract & _). cbn in Hr.
    exact (proj2 (deleted_roles_In _ _ _ Hr Hract)).
Qed.

Lemma deleteRole_takes_the_role_from_every_identity_witness :
  exists w1 usr,
    RoleService.deleteRole 4 Scenario.world = (Ok (true, None), w1)
    /\ fst (Middleware.getUserById 2 w1) = Ok (true, Some usr)
    /\ map role_id_of (roles usr) = [3].
Proof.
  destruct (@deleteRole_takes_the_role_from_every_identity 4 Scenario.world eq_refl)
    as (w1 & Hrun & _).
  exists w1. vm_compute in Hrun. injection Hrun as <-.
  eexists. split; [reflexivity|]. split; reflexivity.
Defined.

(** ** Registration *)

Lemma find_app_last {A : Type} (P : A -> bool) (l : list A) (y : A) :
  (forall x, In x l -> P x = false) -> P y = true ->
  find P (l ++ [y]) = Some y.
Proof.
  intros Hl Hy. induction l as [|a l IH]; simpl.
  - rewrite Hy. reflexivity.
  - rewrite (Hl a (or_introl eq_refl)). apply IH.
    intros x Hx. apply Hl. right. exact Hx.
Qed.

Lemma existsb_false {A : Type} (f : A -> bool) (l : list A) :
  (forall x, In x l -> f x = false) -> existsb f l = false.
Proof.
  intros H. apply not_true_is_false. intros E.
  apply existsb_exists in E. destruct E as (x & Hin & Hx).
  rewrite (H x Hin) in Hx. discriminate.
Qed.

Lemma filter_nil {A : Type} (f : A -> bool) (l : list A) :
  (forall x, In x l -> f x = false) -> filter f l = [].
Proof.
  intros H. induction l as [|a l IH]; simpl; [reflexivity|].
  rewrite (H a (or_introl eq_refl)). apply IH.
  intros x Hx. apply H. right. exact Hx.
Qed.

Lemma filter_name_unique {A : Type} (f : A -> string) (c : string) (l : list A) :
  NoDup (map f l) ->
  filter (fun x => String.eqb (f x) c) l = []
  \/ exists x, filter (fun x => String.eqb (f x) c) l = [x].
Proof.
  induction l as [|a l IH]; intros Hnd; [left; reflexivity|].
  simpl in Hnd. inversion Hnd as [|? ? Hnotin Hnd']; subst.
  simpl. destruct (String.eqb (f a) c) eqn:E.
  - right. exists a. f_equal. apply filter_nil. intros x Hx.
    apply String.eqb_eq in E. apply String.eqb_neq. intros Hc.
    apply Hnotin. apply in_map_iff. exists x. split; [congruence|exact Hx].
  - apply IH. exact Hnd'.
Qed.

Lemma registrable_check (d : Database) (userData : RegisterData) :
  registrable d userData ->
  filter (fun u => String.eqb (au_username u) (reg_username userData)
                   || String.eqb (au_email u) (reg_email userData))
    (AdminUsers d) = [].
Proof.
  intros H. apply filter_nil. intros u Hu. destruct (H u Hu) as [H1 H2].
  apply String.eqb_neq in H1, H2. rewrite H1, H2. reflexivity.
Qed.

Lemma insert_user_ok (hash : string -> string) (identity : Z)
    (userData : RegisterData) (d : Database) (c : AdminUser) :
  registrable d userData ->
  (forall u, In u (AdminUsers d) -> au_id u <> identity) ->
  In c (AdminUsers d) -> au_id c = reg_createdBy userData ->
  AuthService.insert_user identity (registered_row hash identity userData)
    (reg_createdBy userData) d
  = Some (identity,
          with_AdminUsers (AdminUsers d ++ [registered_row hash identity userData]) d).
Proof.
  intros Hfree Hid Hc Hcid. unfold AuthService.insert_user.
  rewrite existsb_false.
  - rewrite (existsb_In (fun u => au_id u =? reg_createdBy userData) _ c Hc)
      by (apply Z.eqb_eq; exact Hcid).
    reflexivity.
  - intros u Hu. destruct (Hfree u Hu) as [H1 H2].
    apply String.eqb_neq in H1, H2. cbn [registered_row au_username au_email].
    rewrite H1, H2. rewrite (proj2 (Z.eqb_neq _ _) (Hid u Hu)). reflexivity.
Qed.

Lemma insert_default_role_ok (identity createdBy : Z) (d : Database)
    (c row : AdminUser) (us : list AdminUser) :
  AdminUsers d = us ++ [row] -> au_id row = identity ->
  In c us -> au_id c = createdBy ->
  (forall ur, In ur (UserRoles d) -> ur_user_id ur <> identity) ->
  (filter (fun r => String.eqb (r_role_name r) "user") (Roles d) = []
   \/ exists r, filter (fun r => String.eqb (r_role_name r) "user") (Roles d) = [r]) ->
  AuthService.insert_default_role identity createdBy d
  = Some (tt,
          with_UserRoles
            (UserRoles d
             ++ map (fun r => mkUserRoleRow identity (r_id r) true)
                  (filter (fun r => String.eqb (r_role_name r) "user") (Roles d)))
            d).
Proof.
  intros Hus Hrow Hc Hcid Hnour Hone. unfold AuthService.insert_default_role.
  rewrite (existsb_In (fun u => au_id u =? identity) (AdminUsers d) row)
    by (rewrite ?Hus; try (apply in_or_app; right; left; reflexivity);
        apply Z.eqb_eq; exact Hrow).
  rewrite (existsb_In (fun u => au_id u =? createdBy) (AdminUsers d) c)
    by (rewrite ?Hus; try (apply in_or_app; left; exact Hc);
        apply Z.eqb_eq; exact Hcid).
  cbn [negb orb].
  destruct Hone as [->|(r & ->)]; cbn [map AuthService.insert_user_roles].
  - rewrite app_nil_r. reflexivity.
  - rewrite existsb_false; [reflexivity|].
    intros ur Hur. cbn [ur_user_id ur_role_id].
    rewrite (proj2 (Z.eqb_neq _ _) (Hnour ur Hur)). reflexivity.
Qed.

Lemma registerUser_ok (hash : string -> string) (identity : Z)
    (userData : RegisterData) (w : World) (c : AdminUser) :
  faults w = [] ->
  registrable (db w) userData ->
  (forall u, In u (AdminUsers (db w)) -> au_id u <> identity) ->
  In c (AdminUsers (db w)) -> au_id c = reg_createdBy userData ->
  (forall ur, In ur (UserRoles (db w)) -> ur_user_id ur <> identity) ->
  (filter (fun r => String.eqb (r_role_name r) "user") (Roles (db w)) = []
   \/ exists r, filter (fun r => String.eqb (r_role_name r) "user") (Roles (db w)) = [r]) ->
  AuthService.registerUser hash identity userData w
  = (Ok (mkRegisterResult true (Some identity) None),
     mkWorld
       (mkDatabase
          (AdminUsers (db w) ++ [registered_row hash identity userData])
          (Roles (db w)) (Permissions (db w))
          (UserRoles (db w)
           ++ map (fun r => mkUserRoleRow identity (r_id r) true)
                (filter (fun r => String.eqb (r_role_name r) "user") (Roles (db w))))
          (RolePermissions (db w)))
       (now w) []).
Proof.
  intros Hf Hfree Hid Hc Hcid Hnour Hone.
  unfold AuthService.registerUser, try_catch, bind.
  rewrite query_no_fault by exact Hf. unfold select. cbn [fst snd].
  rewrite registrable_check by exact Hfree. cbn [map].
  unfold AuthService.hashPassword, ret, query_checked. cbn [faults db now tl].
  fold (registered_row hash identity userData).
  rewrite (@insert_user_ok hash identity userData (db w) c Hfree Hid Hc Hcid).
  cbn [faults db now tl].
  rewrite (@insert_default_role_ok identity (reg_createdBy userData) _ c
             (registered_row hash identity userData) (AdminUsers (db w)));
    try assumption; try reflexivity.
Qed.

Lemma filter_cons_of_In {A : Type} (f : A -> bool) (l : list A) (x : A) :
  In x l -> f x = true -> exists y ys, filter f l = y :: ys.
Proof.
  intros Hin Hf. destruct (filter f l) as [|y ys] eqn:E; [|eauto].
  assert (H : In x (filter f l)) by (apply filter_In; auto).
  rewrite E in H. destruct H.
Qed.

Lemma registerUser_taken (hash : string -> string) (identity : Z)
    (userData : RegisterData) (w : World) (u : AdminUser) :
  faults w = [] ->
  In u (AdminUsers (db w)) ->
  au_username u = reg_username userData \/ au_email u = reg_email userData ->
  AuthService.registerUser hash identity userData w
  = (Ok (mkRegisterResult false None (Some "Username or email already exists")), w).
Proof.
  intros Hf Hu Hsame.
  unfold AuthService.registerUser, try_catch, bind.
  rewrite query_no_fault by exact Hf. unfold select. cbn [fst snd].
  destruct (@filter_cons_of_In _
              (fun u => String.eqb (au_username u) (reg_username userData)
                        || String.eqb (au_email u) (reg_email userData))
              (AdminUsers (db w)) u Hu) as (y & ys & ->).
  { apply orb_true_iff. destruct Hsame as [H|H]; [left|right];
      apply String.eqb_eq; exact H. }
  cbn [map]. unfold ret. rewrite <- Hf, world_eta. reflexivity.
Qed.

Lemma login_of_registered (env : Env) (cmp : string -> string -> bool)
    (hash : string -> string) (identity : Z) (userData : RegisterData)
    (w1 : World) (us : list AdminUser) :
  faults w1 = [] ->
  AdminUsers (db w1) = us ++ [registered_row hash identity userData] ->
  (forall u, In u us ->
             au_username u <> reg_username userData
             /\ au_email u <> reg_username userData) ->
  cmp (reg_password userData) (hash (reg_password userData)) = true ->
  forall t, exists usr w2,
    AuthService.authenticateUser env cmp (reg_username userData)
      (reg_password userData) (tick t w1)
    = (Ok (mkAuthResult true (Some usr) None), w2)
    /\ id usr = identity.
Proof.
  intros Hf Hus Hother Hcmp t.
  destruct (@auth_success env cmp (reg_username userData) (reg_password userData)
              (tick t w1) (registered_row hash identity userData))
    as (usr & Hrun & Hidu).
  - exact Hf.
  - cbn [tick db]. rewrite Hus. apply find_app_last.
    + intros u Hu. destruct (Hother u Hu) as [H1 H2].
      unfold where_login. apply String.eqb_neq in H1, H2.
      rewrite H1, H2. reflexivity.
    + unfold where_login. cbn [registered_row au_username].
      rewrite String.eqb_refl. reflexivity.
  - reflexivity.
  - reflexivity.
  - exact Hcmp.
  - eexists usr, _. split; [exact Hrun|exact Hidu].
Qed.

(** X18. Registration and login fit together. When no account has the
    username or the email, no account has the username as its email, role
    names are unique and the password check accepts a password against its
    own hash, [registerUser] succeeds with the generated id, the new user
    can log in with the username and password at any later time, and a
    second registration of the username or of the email is refused without
    a change. *)
Theorem registered_user_can_log_in
    (env : Env) (cmp : string -> string -> bool) (hash : string -> string)
    (identity : Z) (userData : RegisterData) (w : World) (c : AdminUser) :
  faults w = [] ->
  registrable (db w) userData ->
  (forall u, In u (AdminUsers (db w)) ->
             au_id u <> identity /\ au_email u <> reg_username userData) ->
  In c (AdminUsers (db w)) -> au_id c = reg_createdBy userData ->
  (forall ur, In ur (UserRoles (db w)) -> ur_user_id ur <> identity) ->
  NoDup (map r_role_name (Roles (db w))) ->
  cmp (reg_password userData) (hash (reg_password userData)) = true ->
  exists w1,
    AuthService.registerUser hash identity userData w
    = (Ok (mkRegisterResult true (Some identity) None), w1)
    /\ (forall t, exists usr w2,
          AuthService.authenticateUser env cmp (reg_username userData)
            (reg_password userData) (tick t w1)
          = (Ok (mkAuthResult true (Some usr) None), w2)
          /\ id usr = identity)
    /\ (forall identity' again,
          reg_username again = reg_username userData
          \/ reg_email again = reg_email userData ->
          AuthService.registerUser hash identity' again w1
          = (Ok (mkRegisterResult false None
                   (Some "Username or email already exists")), w1)).
Proof.
  intros Hf Hfree Hid Hc Hcid Hnour Hnames Hcmp.
  eexists. split; [|split].
  - apply registerUser_ok with (c := c); try assumption.
    + intros u Hu. exact (proj1 (Hid u Hu)).
    + apply filter_name_unique. exact Hnames.
  - apply login_of_registered with (hash := hash) (us := AdminUsers (db w));
      try assumption; try reflexivity.
    intros u Hu. split; [exact (proj1 (Hfree u Hu))|exact (proj2 (Hid u Hu))].
  - intros identity' again Hsame.
    apply registerUser_taken with (u := registered_row hash identity userData).
    + reflexivity.
    + cbn [db AdminUsers]. apply in_or_app. right. left. reflexivity.
    + cbn [registered_row au_username au_email].
      destruct Hsame as [H|H]; [left|right]; symmetry; exact H.
Qed.

(** X19. [registerUser] is not atomic. When the storage fails at the
    statement that assigns the default role, the caller is told
    'Registration failed', yet the account has been inserted: the user can
    log in, has no role assignment, and registering again is refused
    because the username already exists. *)
Theorem failed_registration_leaves_the_account
    (env : Env) (cmp : string -> string -> bool) (hash : string -> string)
    (identity : Z) (userData : RegisterData) (w : World) (c : AdminUser) :
  faults w = [false; false; true] ->
  registrable (db w) userData ->
  (forall u, In u (AdminUsers (db w)) ->
             au_id u <> identity /\ au_email u <> reg_username userData) ->
  In c (AdminUsers (db w)) -> au_id c = reg_createdBy userData ->
  cmp (reg_password userData) (hash (reg_password userData)) = true ->
  exists w1,
    AuthService.registerUser hash identity userData w
    = (Ok (mkRegisterResult false None (Some "Registration failed")), w1)
    /\ AdminUsers (db w1)
       = AdminUsers (db w) ++ [registered_row hash identity userData]
    /\ UserRoles (db w1) = UserRoles (db w)
    /\ (forall t, exists usr w2,
          AuthService.authenticateUser env cmp (reg_username userData)
            (reg_password userData) (tick t w1)
          = (Ok (mkAuthResult true (Some usr) None), w2)
          /\ id usr = identity)
    /\ (forall identity',
          AuthService.registerUser hash identity' userData w1
          = (Ok (mkRegisterResult false None
                   (Some "Username or email already exists")), w1)).
Proof.
  intros Hf Hfree Hid Hc Hcid Hcmp.
  assert (Hrun : AuthService.registerUser hash identity userData w
                 = (Ok (mkRegisterResult false None (Some "Registration failed")),
                    mkWorld
                      (with_AdminUsers
                         (AdminUsers (db w) ++ [registered_row hash identity userData])
                         (db w))
                      (now w) [])).
  { unfold AuthService.registerUser, try_catch, bind, query. rewrite Hf.
    unfold select. rewrite registrable_check by exact Hfree. cbn [map].
    unfold AuthService.hashPassword, ret, query_checked. cbn [faults db now tl].
    fold (registered_row hash identity userData).
    rewrite (@insert_user_ok hash identity userData (db w) c Hfree
               (fun u Hu => proj1 (Hid u Hu)) Hc Hcid).
    cbn [faults db now tl]. reflexivity. }
  eexists. split; [exact Hrun|].
  split; [reflexivity|]. split; [reflexivity|]. split.
  - apply login_of_registered with (hash := hash) (us := AdminUsers (db w));
      try assumption; try reflexivity.
    intros u Hu. split; [exact (proj1 (Hfree u Hu))|exact (proj2 (Hid u Hu))].
  - intros identity'.
    apply registerUser_taken with (u := registered_row hash identity userData).
    + reflexivity.
    + cbn [db AdminUsers with_AdminUsers]. apply in_or_app. right. left. reflexivity.
    + left. reflexivity.
Qed.

Lemma map_nil_of_no_element {A : Type} (f : A -> Z) (l : list A) :
  (forall k, ~ In k (map f l)) -> l = [].
Proof.
  destruct l as [|a l]; [reflexivity|].
  intros H. exfalso. apply (H (f a)). left. reflexivity.
Qed.

(** X20. With the role names of the seed data there is no role named
    'user', so the default-role statement of [registerUser] inserts
    nothing: the registered user is resolved by [getUserById] with no role
    and no permission, and [requirePermission] answers 403 to every
    permission name. *)
Theorem registered_user_has_no_role_under_seed_roles
    (hash : string -> string) (identity : Z) (userData : RegisterData)
    (w : World) (c : AdminUser) :
  faults w = [] ->
  registrable (db w) userData ->
  (forall u, In u (AdminUsers (db w)) -> au_id u <> identity) ->
  In c (AdminUsers (db w)) -> au_id c = reg_createdBy userData ->
  (forall ur, In ur (UserRoles (db w)) -> ur_user_id ur <> identity) ->
  (forall r, In r (Roles (db w)) -> In (r_role_name r) Seed.role_names) ->
  exists w1 usr,
    AuthService.registerUser hash identity userData w
    = (Ok (mkRegisterResult true (Some identity) None), w1)
    /\ UserRoles (db w1) = UserRoles (db w)
    /\ Middleware.getUserById identity w1 = (Ok (true, Some usr), w1)
    /\ roles usr = [] /\ permissions usr = []
    /\ forall name req,
         req_user req = Some usr ->
         Middleware.requirePermission name req
         = Json 403 false "Insufficient permissions".
Proof.
  intros Hf Hfree Hid Hc Hcid Hnour Hseed.
  assert (Hnone : filter (fun r => String.eqb (r_role_name r) "user") (Roles (db w)) = []).
  { apply filter_nil. intros r Hr. apply String.eqb_neq. intros E.
    pose proof (Hseed r Hr) as Hin. rewrite E in Hin.
    cbv in Hin. intuition discriminate. }
  pose proof (@registerUser_ok hash identity userData w c Hf Hfree Hid Hc Hcid Hnour
                (or_introl Hnone)) as Hrun.
  rewrite Hnone in Hrun. cbn [map] in Hrun. rewrite app_nil_r in Hrun.
  match type of Hrun with _ = (_, ?W) => set (w1 := W) in * end.
  assert (Hfind : find (where_id_active identity) (AdminUsers (db w1))
                  = Some (registered_row hash identity userData)).
  { cbn [w1 db AdminUsers]. apply find_app_last.
    - intros u Hu. unfold where_id_active.
      rewrite (proj2 (Z.eqb_neq _ _) (Hid u Hu)). reflexivity.
    - unfold where_id_active. cbn [registered_row au_id au_is_active].
      rewrite Z.eqb_refl. reflexivity. }
  destruct (@getUserById_found identity w1 _ eq_refl Hfind) as (usr & Hget & _).
  change (mkWorld (db w1) (now w1) (tl (faults w1))) with w1 in Hget.
  destruct (getUserById_resolves_ids identity w1 Hget) as [Hr Hp].
  assert (Hnoreach : forall r, ~ role_reached (db w1) identity r).
  { intros r (au & ur & _ & _ & _ & Hur & Huid & _).
    cbn [w1 db UserRoles] in Hur. exact (Hnour ur Hur Huid). }
  assert (Hroles : roles usr = []).
  { apply (map_nil_of_no_element role_id_of). intros k Hk.
    apply Hr in Hk. destruct Hk as (_ & r & Hreach & _).
    exact (Hnoreach r Hreach). }
  assert (Hperms : permissions usr = []).
  { apply (map_nil_of_no_element permission_id_of). intros k Hk.
    apply Hp in Hk. destruct Hk as (_ & p & (r & rp & Hreach & _) & _).
    exact (Hnoreach r Hreach). }
  exists w1, usr. split; [exact Hrun|]. split; [reflexivity|].
  split; [exact Hget|]. split; [exact Hroles|]. split; [exact Hperms|].
  intros name req Hreq. unfold Middleware.requirePermission.
  rewrite Hreq. unfold AuthService.hasPermission. rewrite Hperms. reflexivity.
Qed.

Lemma dave_is_registrable : registrable Scenario.database Signup.dave.
Proof.
  intros u [<-|[<-|[<-|[]]]]; cbn; split; discriminate.
Qed.

Lemma dave_is_new :
  forall u, In u (AdminUsers Scenario.database) ->
            au_id u <> 4 /\ au_email u <> reg_username Signup.dave.
Proof.
  intros u [<-|[<-|[<-|[]]]]; cbn; split; discriminate.
Qed.

Lemma no_assignment_of_4 :
  forall ur, In ur (UserRoles Scenario.database) -> ur_user_id ur <> 4.
Proof.
  intros ur [<-|[<-|[<-|[<-|[]]]]]; cbn; discriminate.
Qed.

Lemma registered_user_can_log_in_witness :
  exists w1 usr w2,
    AuthService.registerUser Signup.bcrypt_hash 4 Signup.dave Scenario.world
    = (Ok (mkRegisterResult true (Some 4) None), w1)
    /\ AuthService.authenticateUser Scenario.env Scenario.bcrypt "dave" "open sesame"
         (tick 1000500 w1)
       = (Ok (mkAuthResult true (Some usr) None), w2)
    /\ id usr = 4.
Proof.
  assert (Hnames : NoDup (map r_role_name (Roles (db Scenario.world)))).
  { cbn. constructor; [intros [H|[]]; discriminate|].
    constructor; [intros []|constructor]. }
  destruct (@registered_user_can_log_in Scenario.env Scenario.bcrypt
              Signup.bcrypt_hash 4 Signup.dave Scenario.world Scenario.alice
              eq_refl dave_is_registrable dave_is_new (or_introl eq_refl) eq_refl
              no_assignment_of_4 Hnames eq_refl)
    as (w1 & Hrun & Hlogin & _).
  destruct (Hlogin 1000500) as (usr & w2 & Hauth & Hid).
  exists w1, usr, w2. split; [exact Hrun|]. split; [exact Hauth|exact Hid].
Defined.

Lemma failed_registration_leaves_the_account_witness :
  exists w1,
    AuthService.registerUser Signup.bcrypt_hash 4 Signup.dave
      (mkWorld Scenario.database 1000000 [false; false; true])
    = (Ok (mkRegisterResult false None (Some "Registration failed")), w1)
    /\ map au_username (AdminUsers (db w1)) = ["alice"; "bob"; "carol"; "dave"].
Proof.
  destruct (@failed_registration_leaves_the_account Scenario.env Scenario.bcrypt
              Signup.bcrypt_hash 4 Signup.dave
              (mkWorld Scenario.database 1000000 [false; false; true])
              Scenario.alice
              eq_refl dave_is_registrable dave_is_new (or_introl eq_refl) eq_refl
              eq_refl)
    as (w1 & Hrun & Husers & _).
  exists w1. split; [exact Hrun|]. rewrite Husers. reflexivity.
Defined.

Lemma registered_user_has_no_role_under_seed_roles_witness :
  exists w1 usr,
    AuthService.registerUser Signup.bcrypt_hash 4 Signup.dave Scenario.world
    = (Ok (mkRegisterResult true (Some 4) None), w1)
    /\ Middleware.getUserById 4 w1 = (Ok (true, Some usr), w1)
    /\ roles usr = [].
Proof.
  assert (Hseed : forall r, In r (Roles (db Scenario.world)) ->
                            In (r_role_name r) Seed.role_names).
  { intros r [<-|[<-|[]]]; cbn; auto 10. }
  destruct (@registered_user_has_no_role_under_seed_roles
              Signup.bcrypt_hash 4 Signup.dave Scenario.world Scenario.alice
              eq_refl dave_is_registrable
              (fun u Hu => proj1 (@dave_is_new u Hu))
              (or_introl eq_refl) eq_refl no_assignment_of_4 Hseed)
    as (w1 & usr & Hrun & _ & Hget & Hroles & _).
  exists w1, usr. split; [exact Hrun|]. split; [exact Hget|exact Hroles].
Defined.

(** ** Changing the password *)

Lemma filter_of_find {A : Type} (P : A -> bool) (l : list A) (x : A) :
  find P l = Some x -> exists rest, filter P l = x :: rest.
Proof.
  rewrite <- hd_error_filter. destruct (filter P l) as [|y ys]; [discriminate|].
  simpl. intros H. inversion H. eauto.
Qed.

Lemma js_length_counts_code_units :
  js_length (String "112" (String "195" (String "164" (String "115" EmptyString))))
  = 3%nat
  /\ js_length (String "240" (String "159" (String "152" (String "128" EmptyString))))
     = 2%nat.
Proof. split; reflexivity. Qed.

(** X21. After a successful [change-password] the new password logs in and
    the old one does not. The current password is checked against the first
    row with the id of the requester; when it matches, the new password has
    a [length] of at least 8 (in UTF-16 code units), the storage works, and
    the password check accepts the new password against its own hash and
    rejects the old password against that hash, the answer is 200, and at
    any later time at which the account is not locked a login with the new
    password succeeds and one with the old password is answered 'Invalid
    credentials'. *)
Theorem changed_password_replaces_the_old_one
    (env : Env) (cmp : string -> string -> bool) (hash : string -> string)
    (current : AuthUser) (name old new : string) (w : World) (u : AdminUser) :
  faults w = [] ->
  find (fun x => au_id x =? id current) (AdminUsers (db w)) = Some u ->
  find (where_login name) (AdminUsers (db w)) = Some u ->
  au_is_active u = true ->
  old <> EmptyString -> (8 <= js_length new)%nat ->
  cmp old (au_password_hash u) = true ->
  cmp new (hash new) = true -> cmp old (hash new) = false ->
  exists w1,
    AuthRoutes.changePassword cmp hash current (Some old) (Some new) w
    = (Ok (mkReply 200 true "Password changed successfully" None), w1)
    /\ forall t,
         AuthService.is_locked_at (au_locked_until_ts u) t = false ->
         (exists usr w2,
            AuthService.authenticateUser env cmp name new (tick t w1)
            = (Ok (mkAuthResult true (Some usr) None), w2)
            /\ id usr = au_id u)
         /\ fst (AuthService.authenticateUser env cmp name old (tick t w1))
            = Ok (failure "Invalid credentials").
Proof.
  intros Hf Hrow Hlogin Hact Hold Hlen Hcur Hnew Hstale.
  assert (Hid : au_id u = id current).
  { apply find_some in Hrow. destruct Hrow as [_ H]. apply Z.eqb_eq. exact H. }
  set (w1 := mkWorld
               (with_AdminUsers
                  (sql_update (fun x => au_id x =? id current)
                     (set_password_hash (hash new)) (AdminUsers (db w))) (db w))
               (now w) []).
  assert (Hrun : AuthRoutes.changePassword cmp hash current (Some old) (Some new) w
                 = (Ok (mkReply 200 true "Password changed successfully" None), w1)).
  { unfold AuthRoutes.changePassword, try_catch, bind.
    rewrite (truthy_string_nonempty Hold).
    assert (Hne : new <> EmptyString) by (intros ->; simpl in Hlen; lia).
    rewrite (truthy_string_nonempty Hne). cbn [negb orb string_or_empty].
    rewrite (proj2 (Nat.ltb_ge _ _) Hlen).
    rewrite query_no_fault by exact Hf. unfold select. cbn [fst snd].
    destruct (filter_of_find _ _ Hrow) as (rest & ->). cbn [map].
    unfold AuthService.verifyPassword, AuthService.hashPassword, ret.
    rewrite Hcur. cbn [negb].
    rewrite query_no_fault by reflexivity. reflexivity. }
  exists w1. split; [exact Hrun|].
  intros t Hlock.
  assert (Hfind : find (where_login name) (AdminUsers (db (tick t w1)))
                  = Some (set_password_hash (hash new) u)).
  { cbn [tick w1 db AdminUsers with_AdminUsers].
    rewrite find_sql_update by (intros [? ? ? ? ? ? ? ? ? ?]; reflexivity).
    rewrite Hlogin. cbn [option_map]. rewrite Hid, Z.eqb_refl. reflexivity. }
  split.
  - destruct (@auth_success env cmp name new (tick t w1)
                (set_password_hash (hash new) u) eq_refl Hfind Hlock Hact Hnew)
      as (usr & Hauth & Hidu).
    eexists usr, _. split; [exact Hauth|exact Hidu].
  - rewrite (@auth_wrong_password env cmp name old (tick t w1)
               (set_password_hash (hash new) u) eq_refl Hfind Hlock Hact Hstale).
    reflexivity.
Qed.

Lemma changed_password_replaces_the_old_one_witness :
  exists w1 usr w2 usr0,
    fst (Middleware.getUserById 1 Scenario.world) = Ok (true, Some usr0)
    /\ AuthRoutes.changePassword Scenario.bcrypt Signup.bcrypt_hash usr0
         (Some "correct horse") (Some "battery staple") Scenario.world
       = (Ok (mkReply 200 true "Password changed successfully" None), w1)
    /\ AuthService.authenticateUser Scenario.env Scenario.bcrypt "alice"
         "battery staple" (tick 1000500 w1)
       = (Ok (mkAuthResult true (Some usr) None), w2)
    /\ fst (AuthService.authenticateUser Scenario.env Scenario.bcrypt "alice"
              "correct horse" (tick 1000500 w1))
       = Ok (failure "Invalid credentials").
Proof.
  destruct (Middleware.getUserById 1 Scenario.world) as [[[b [usr0|]]|e] w'] eqn:E;
    try (vm_compute in E; discriminate).
  assert (Hb : b = true) by (vm_compute in E; congruence).
  assert (Hid0 : id usr0 = 1) by (vm_compute in E; injection E as _ <- _; reflexivity).
  assert (Hlen : (8 <= js_length "battery staple")%nat) by (vm_compute; lia).
  assert (Hold : "correct horse" <> EmptyString) by discriminate.
  destruct (@changed_password_replaces_the_old_one Scenario.env Scenario.bcrypt
              Signup.bcrypt_hash usr0 "alice" "correct horse" "battery staple"
              Scenario.world Scenario.alice eq_refl
              ltac:(rewrite Hid0; reflexivity) eq_refl eq_refl Hold Hlen
              eq_refl eq_refl eq_refl)
    as (w1 & Hrun & Hall).
  destruct (Hall 1000500 eq_refl) as ((usr & w2 & Hauth & _) & Hstale).
  exists w1, usr, w2, usr0. subst b.
  split; [reflexivity|]. split; [exact Hrun|]. split; [exact Hauth|exact Hstale].
Defined.

(** ** Guesses after the first lock *)

Section GuessesPerWindow.
Variable env : Env.
Variable bcrypt_compare : string -> string -> bool.
Variable name : string.

Lemma attempts_all_locked (tries : list (Z * string)) :
  forall (w : World) (u : AdminUser) (lu : Z),
    faults w = [] ->
    find (where_login name) (AdminUsers (db w)) = Some u ->
    au_locked_until_ts u = Some lu ->
    Forall (fun tp => fst tp < lu) tries ->
    exists rs w',
      attempts env bcrypt_compare name tries w = (rs, w')
      /\ Forall answered_locked rs.
Proof.
  induction tries as [|[t p] tries IH]; intros w u lu Hf Hfind Hlu Hall.
  - exists [], w. split; [reflexivity|constructor].
  - inversion Hall as [|? ? Hhd Htl]; subst. cbn [fst] in Hhd.
    pose proof (@auth_locked env bcrypt_compare name p (tick t w) u lu
                  Hf Hfind Hlu Hhd) as Hrun.
    destruct (IH (tick t w) u lu Hf Hfind Hlu Htl) as (rs & w' & Hrest & Hrs).
    eexists (_ :: rs), w'. cbn [attempts]. unfold attempt.
    rewrite Hrun, Hrest. split; [reflexivity|].
    constructor; [|exact Hrs]. eexists. reflexivity.
Qed.

(** X22. For calls of [authenticateUser] that run one after another, each
    returning before the next is made: when the counter of an active account
    stands at the maximum less one or above, wrong guesses made within one
    lockout period get at most one answer 'Invalid credentials', and every
    other guess is refused because of the lock. *)
Theorem one_guess_per_lockout_window (tries : list (Z * string)) :
  forall (w : World) (u : AdminUser) (t0 : Z),
    faults w = [] ->
    find (where_login name) (AdminUsers (db w)) = Some u ->
    au_is_active u = true ->
    AuthService.MAX_LOGIN_ATTEMPTS env - 1 <= au_failed_login_attempts u ->
    Forall (fun tp => bcrypt_compare (snd tp) (au_password_hash u) = false
                      /\ t0 <= fst tp < t0 + AuthService.LOCKOUT_TIME env) tries ->
    exists rs w',
      attempts env bcrypt_compare name tries w = (rs, w')
      /\ (Forall answered_locked rs
          \/ exists l1 l2,
               rs = l1 ++ Ok (failure "Invalid credentials") :: l2
               /\ Forall answered_locked l1 /\ Forall answered_locked l2).
Proof.
  induction tries as [|[t p] tries IH]; intros w u t0 Hf Hfind Hact Hmax Hall.
  - exists [], w. split; [reflexivity|]. left. constructor.
  - inversion Hall as [|? ? [Hpw Hwin] Htl]; subst. cbn [fst snd] in Hpw, Hwin.
    destruct (AuthService.is_locked_at (au_locked_until_ts u) t) eqn:Elock.
    + unfold AuthService.is_locked_at in Elock.
      destruct (au_locked_until_ts u) as [lu|] eqn:Elu; [|discriminate].
      apply Z.ltb_lt in Elock.
      pose proof (@auth_locked env bcrypt_compare name p (tick t w) u lu
                    Hf Hfind Elu Elock) as Hrun.
      destruct (IH (tick t w) u t0 Hf Hfind Hact Hmax Htl)
        as (rs & w' & Hrest & Hshape).
      eexists (_ :: rs), w'. cbn [attempts]. unfold attempt.
      rewrite Hrun, Hrest. split; [reflexivity|].
      assert (Hl : answered_locked
                     (Ok (failure (locked_message
                                     (Math_ceil_div (lu - now (tick t w)) 60000)))))
        by (eexists; reflexivity).
      destruct Hshape as [Hrs|(l1 & l2 & -> & H1 & H2)].
      * left. constructor; assumption.
      * right. eexists (_ :: l1), l2. split; [reflexivity|].
        split; [constructor; assumption|exact H2].
    + destruct (@attempt_wrong env bcrypt_compare name t p w u Hf Hfind Hact
                  (conj Hpw Elock)) as (w1 & Hrun & Hf1 & Hfind1).
      unfold record_failed_attempt in Hfind1.
      assert (Hreach : (au_failed_login_attempts u + 1
                        >=? AuthService.MAX_LOGIN_ATTEMPTS env) = true).
      { rewrite Z.geb_leb. apply Z.leb_le. lia. }
      rewrite Hreach in Hfind1.
      destruct (@attempts_all_locked tries w1 _
                  (t + AuthService.LOCKOUT_TIME env) Hf1 Hfind1 eq_refl)
        as (rs & w' & Hrest & Hrs).
      { apply Forall_forall. intros tp Htp.
        pose proof (proj1 (Forall_forall _ _) Htl tp Htp) as [_ Hw]. lia. }
      exists (Ok (failure "Invalid credentials") :: rs), w'.
      cbn [attempts]. rewrite Hrun, Hrest. split; [reflexivity|].
      right. exists [], rs. split; [reflexivity|]. split; [constructor|exact Hrs].
Qed.
End GuessesPerWindow.

Lemma one_guess_per_lockout_window_witness :
  exists rs w',
    attempts Scenario.env Scenario.bcrypt "bob"
      [(1000000, "letmein"); (1300000, "hunter1"); (1600000, "hunter3")]
      Scenario.world = (rs, w')
    /\ (Forall answered_locked rs
        \/ exists l1 l2,
             rs = l1 ++ Ok (failure "Invalid credentials") :: l2
             /\ Forall answered_locked l1 /\ Forall answered_locked l2).
Proof.
  apply (@one_guess_per_lockout_window Scenario.env Scenario.bcrypt "bob"
           [(1000000, "letmein"); (1300000, "hunter1"); (1600000, "hunter3")]
           Scenario.world Scenario.bob 1000000 eq_refl eq_refl eq_refl).
  - vm_compute. discriminate.
  - repeat constructor; vm_compute; congruence.
Defined.
